(** * BallotStudio: the request dispatcher, the election handlers and the
    render cache of [main.go], embedded in Rocq.

    The handlers are written over the interfaces the Go code uses
    ([electionAppDB], [Cache], the draw backend); every call a handler makes
    on a collaborator and every write to the response is recorded in a log,
    so that the order of effects inside one request can be stated. *)

From Stdlib Require Import ZArith String Ascii List Bool Lia.
From stdpp Require Import gmap strings list fin_maps.

Open Scope string_scope.
Open Scope Z_scope.

(* ===================================================================== *)
(** ** Byte strings and Go's [strconv]                                    *)
(* ===================================================================== *)

(** [len(s)] of a Go string or byte slice. *)
Definition len (s : string) : Z := Z.of_nat (String.length s).

(** The code of a byte. *)
Definition byte_code (c : ascii) : Z := Z.of_N (N_of_ascii c).

Definition is_digit (c : ascii) : bool :=
  (48 <=? byte_code c) && (byte_code c <=? 57).

Definition digit_val (c : ascii) : Z := byte_code c - 48.

(** The double quote byte, and a string between two of them. *)
Definition dq : string := String (ascii_of_nat 34) EmptyString.

Definition quoted (s : string) : string := dq ++ s ++ dq.

(** The digits of a base 10 numeral, most significant first, folded into
    an accumulator; [None] on a byte that is not a digit. *)
Fixpoint parse_digits (s : string) (acc : Z) : option Z :=
  match s with
  | EmptyString => Some acc
  | String c s' =>
      if is_digit c then parse_digits s' (acc * 10 + digit_val c) else None
  end.

Definition minInt64 : Z := - 2 ^ 63.
Definition maxInt64 : Z := 2 ^ 63 - 1.

(** [strconv.ParseInt(s, 10, 64)]: an optional sign, at least one digit,
    nothing else, and a value that fits int64. [None] stands for a non-nil
    error (syntax or range). *)
Definition ParseInt (s : string) : option Z :=
  match s with
  | EmptyString => None
  | String c rest =>
      let neg := Ascii.eqb c "-" in
      let digits := if neg || Ascii.eqb c "+" then rest else s in
      match digits with
      | EmptyString => None
      | _ =>
          match parse_digits digits 0 with
          | None => None
          | Some un =>
              let n := if neg then - un else un in
              if (minInt64 <=? n) && (n <=? maxInt64) then Some n else None
          end
      end
  end.

(** The byte of a decimal digit. *)
Definition digit_char (d : Z) : ascii := ascii_of_N (Z.to_N (48 + d)).

Fixpoint all_digits (s : string) : bool :=
  match s with
  | EmptyString => true
  | String c s' => is_digit c && all_digits s'
  end.

(** The decimal digits of a non-negative number, prepended to [acc]. An
    int64 has at most 19 digits, which bounds the fuel. *)
Fixpoint fmt_digits (fuel : nat) (n : Z) (acc : string) : string :=
  match fuel with
  | O => acc
  | S f =>
      let acc' := String (digit_char (n mod 10)) acc in
      if n <? 10 then acc' else fmt_digits f (n / 10) acc'
  end.

(** [fmt.Sprintf("%d", n)] for an int64. *)
Definition FormatInt (n : Z) : string :=
  if n <? 0 then String "-" (fmt_digits 20 (- n) EmptyString)
  else fmt_digits 20 n EmptyString.

(** [strings.HasPrefix] together with the rest of the string. *)
Fixpoint strip_prefix (p s : string) : option string :=
  match p, s with
  | EmptyString, _ => Some s
  | String a p', String b s' => if Ascii.eqb a b then strip_prefix p' s' else None
  | String _ _, EmptyString => None
  end.

(** The longest run of decimal digits at the start of a string, and what
    follows it. *)
Fixpoint span_digits (s : string) : string * string :=
  match s with
  | EmptyString => (EmptyString, EmptyString)
  | String c s' =>
      if is_digit c then
        let '(d, r) := span_digits s' in (String c d, r)
      else (EmptyString, s)
  end.

(** [regexp.MustCompile(`^/election/(\d+)SUFFIX$`).FindStringSubmatch(path)],
    for a literal suffix that does not start with a digit: the captured
    group [m[1]], or [None] when the path does not match. *)
Definition match_election (suffix path : string) : option string :=
  match strip_prefix "/election/" path with
  | None => None
  | Some rest =>
      let '(d, r) := span_digits rest in
      match d with
      | EmptyString => None
      | _ => if String.eqb r suffix then Some d else None
      end
  end.

Definition docPathRe : string -> option string := match_election "".
Definition pdfPathRe : string -> option string := match_election ".pdf".
Definition bubblesPathRe : string -> option string := match_election "_bubbles.json".
Definition pngPathRe : string -> option string := match_election ".png".
Definition scanPathRe : string -> option string := match_election "/scan".

(* ===================================================================== *)
(** ** Go's [encoding/json], as far as [json.Unmarshal] into a
       [map[string]interface{}] can fail                                  *)
(* ===================================================================== *)

Module json.

(** [json.Unmarshal] first runs the scanner of [scanner.go] over the whole
    input ([checkValid]) and then decodes. The scanner is transcribed state
    by state; the nesting limit is the one of Go 1.15 and later. Decoding
    into a map can then still fail on the kind of the top-level value and
    on a number that does not fit a float64. *)

(** What the scanner is inside of ([scanner.parseState]). *)
Inductive ParseState := parseObjectKey | parseObjectValue | parseArrayValue.

(** The scanner's step functions ([scanner.step]). *)
Inductive Step :=
| stateBeginValue | stateBeginValueOrEmpty | stateBeginStringOrEmpty
| stateBeginString | stateEndValue | stateEndTop
| stateInString | stateInStringEsc
| stateInStringEscU | stateInStringEscU1 | stateInStringEscU12 | stateInStringEscU123
| stateNeg | state1 | state0 | stateDot | stateDot0 | stateE | stateESign | stateE0
| stateT | stateTr | stateTru
| stateF | stateFa | stateFal | stateFals
| stateN | stateNu | stateNul.

(** The stack's top is the head of [parseState]. *)
Record scanner := Scanner {
  step : Step;
  parseState : list ParseState;
  endTop : bool
}.

Definition maxNestingDepth : Z := 10000.

Definition isSpace (c : ascii) : bool :=
  Ascii.eqb c " " || Ascii.eqb c "009" || Ascii.eqb c "013" || Ascii.eqb c "010".

Definition is_hex (c : ascii) : bool :=
  is_digit c
  || ((97 <=? byte_code c) && (byte_code c <=? 102))
  || ((65 <=? byte_code c) && (byte_code c <=? 70)).

Definition goto (s : scanner) (st : Step) : option scanner :=
  Some (Scanner st (parseState s) (endTop s)).

(** [pushParseState]: an error beyond [maxNestingDepth]. *)
Definition pushParseState (s : scanner) (ps : ParseState) (st : Step) : option scanner :=
  if Z.of_nat (length (ps :: parseState s)) <=? maxNestingDepth
  then Some (Scanner st (ps :: parseState s) (endTop s))
  else None.

(** [popParseState], on the stack below the popped entry. *)
Definition popParseState (s : scanner) (below : list ParseState) : scanner :=
  match below with
  | [] => Scanner stateEndTop [] true
  | _ => Scanner stateEndValue below (endTop s)
  end.

Definition do_stateEndTop (s : scanner) (c : ascii) : option scanner :=
  if isSpace c then Some s else None.

Definition do_stateEndValue (s : scanner) (c : ascii) : option scanner :=
  match parseState s with
  | [] => do_stateEndTop (Scanner stateEndTop [] true) c
  | ps :: below =>
      if isSpace c then goto s stateEndValue
      else match ps with
           | parseObjectKey =>
               if Ascii.eqb c ":"
               then Some (Scanner stateBeginValue (parseObjectValue :: below) (endTop s))
               else None
           | parseObjectValue =>
               if Ascii.eqb c ","
               then Some (Scanner stateBeginString (parseObjectKey :: below) (endTop s))
               else if Ascii.eqb c "}" then Some (popParseState s below)
               else None
           | parseArrayValue =>
               if Ascii.eqb c "," then goto s stateBeginValue
               else if Ascii.eqb c "]" then Some (popParseState s below)
               else None
           end
  end.

Definition do_stateBeginValue (s : scanner) (c : ascii) : option scanner :=
  if isSpace c then Some s
  else if Ascii.eqb c "{" then pushParseState s parseObjectKey stateBeginStringOrEmpty
  else if Ascii.eqb c "[" then pushParseState s parseArrayValue stateBeginValueOrEmpty
  else if Ascii.eqb c "034" then goto s stateInString
  else if Ascii.eqb c "-" then goto s stateNeg
  else if Ascii.eqb c "0" then goto s state0
  else if Ascii.eqb c "t" then goto s stateT
  else if Ascii.eqb c "f" then goto s stateF
  else if Ascii.eqb c "n" then goto s stateN
  else if is_digit c then goto s state1
  else None.

Definition do_stateBeginString (s : scanner) (c : ascii) : option scanner :=
  if isSpace c then Some s
  else if Ascii.eqb c "034" then goto s stateInString
  else None.

Definition do_state0 (s : scanner) (c : ascii) : option scanner :=
  if Ascii.eqb c "." then goto s stateDot
  else if Ascii.eqb c "e" || Ascii.eqb c "E" then goto s stateE
  else do_stateEndValue s c.

Definition do_stateESign (s : scanner) (c : ascii) : option scanner :=
  if is_digit c then goto s stateE0 else None.

Definition expect (s : scanner) (c want : ascii) (st : Step) : option scanner :=
  if Ascii.eqb c want then goto s st else None.

(** One byte through the scanner; [None] is [scanError]. *)
Definition scan_step (s : scanner) (c : ascii) : option scanner :=
  match step s with
  | stateBeginValue => do_stateBeginValue s c
  | stateBeginValueOrEmpty =>
      if isSpace c then Some s
      else if Ascii.eqb c "]" then do_stateEndValue s c
      else do_stateBeginValue s c
  | stateBeginStringOrEmpty =>
      if isSpace c then Some s
      else if Ascii.eqb c "}" then
        match parseState s with
        | _ :: below =>
            do_stateEndValue (Scanner (step s) (parseObjectValue :: below) (endTop s)) c
        | [] => None
        end
      else do_stateBeginString s c
  | stateBeginString => do_stateBeginString s c
  | stateEndValue => do_stateEndValue s c
  | stateEndTop => do_stateEndTop s c
  | stateInString =>
      if Ascii.eqb c "034" then goto s stateEndValue
      else if Ascii.eqb c "\" then goto s stateInStringEsc
      else if byte_code c <? 32 then None
      else Some s
  | stateInStringEsc =>
      if Ascii.eqb c "b" || Ascii.eqb c "f" || Ascii.eqb c "n" || Ascii.eqb c "r"
         || Ascii.eqb c "t" || Ascii.eqb c "\" || Ascii.eqb c "/" || Ascii.eqb c "034"
      then goto s stateInString
      else if Ascii.eqb c "u" then goto s stateInStringEscU
      else None
  | stateInStringEscU => if is_hex c then goto s stateInStringEscU1 else None
  | stateInStringEscU1 => if is_hex c then goto s stateInStringEscU12 else None
  | stateInStringEscU12 => if is_hex c then goto s stateInStringEscU123 else None
  | stateInStringEscU123 => if is_hex c then goto s stateInString else None
  | stateNeg =>
      if Ascii.eqb c "0" then goto s state0
      else if is_digit c then goto s state1
      else None
  | state1 => if is_digit c then Some s else do_state0 s c
  | state0 => do_state0 s c
  | stateDot => if is_digit c then goto s stateDot0 else None
  | stateDot0 =>
      if is_digit c then Some s
      else if Ascii.eqb c "e" || Ascii.eqb c "E" then goto s stateE
      else do_stateEndValue s c
  | stateE =>
      if Ascii.eqb c "+" || Ascii.eqb c "-" then goto s stateESign
      else do_stateESign s c
  | stateESign => do_stateESign s c
  | stateE0 => if is_digit c then Some s else do_stateEndValue s c
  | stateT => expect s c "r" stateTr
  | stateTr => expect s c "u" stateTru
  | stateTru => expect s c "e" stateEndValue
  | stateF => expect s c "a" stateFa
  | stateFa => expect s c "l" stateFal
  | stateFal => expect s c "s" stateFals
  | stateFals => expect s c "e" stateEndValue
  | stateN => expect s c "u" stateNu
  | stateNu => expect s c "l" stateNul
  | stateNul => expect s c "l" stateEndValue
  end.

Fixpoint scan_bytes (s : scanner) (data : string) : option scanner :=
  match data with
  | EmptyString => Some s
  | String c rest =>
      match scan_step s c with
      | Some s' => scan_bytes s' rest
      | None => None
      end
  end.

(** [scanner.eof]: the input may end where a space would complete the
    top-level value. *)
Definition eof (s : scanner) : bool :=
  if endTop s then true
  else match scan_step s " " with
       | Some s' => endTop s'
       | None => false
       end.

(** [checkValid(data, scan) == nil], which is [json.Valid(data)]. *)
Definition Valid (data : string) : bool :=
  match scan_bytes (Scanner stateBeginValue [] false) data with
  | Some s => eof s
  | None => false
  end.

(** The kind of the top-level value, read off its first byte. *)
Inductive Kind := KObject | KArray | KString | KNumber | KBool | KNull.

Fixpoint top_kind (data : string) : option Kind :=
  match data with
  | EmptyString => None
  | String c rest =>
      if isSpace c then top_kind rest
      else if Ascii.eqb c "{" then Some KObject
      else if Ascii.eqb c "[" then Some KArray
      else if Ascii.eqb c "034" then Some KString
      else if Ascii.eqb c "n" then Some KNull
      else if Ascii.eqb c "t" || Ascii.eqb c "f" then Some KBool
      else Some KNumber
  end.

Definition number_byte (c : ascii) : bool :=
  is_digit c || Ascii.eqb c "-" || Ascii.eqb c "+" || Ascii.eqb c "."
  || Ascii.eqb c "e" || Ascii.eqb c "E".

(** The number literals of a valid document, in order. [cur] is the
    literal being read (reversed), [instr] and [esc] say whether the byte
    is inside a string and after a backslash there. *)
Fixpoint number_literals (data : string) (instr esc : bool) (cur : option string)
  : list string :=
  let flush (rest : list string) :=
    match cur with Some l => String.rev l :: rest | None => rest end in
  match data with
  | EmptyString => flush []
  | String c rest =>
      if instr then
        if esc then number_literals rest true false None
        else if Ascii.eqb c "\" then number_literals rest true true None
        else if Ascii.eqb c "034" then number_literals rest false false None
        else number_literals rest true false None
      else
        match cur with
        | Some l =>
            if number_byte c then number_literals rest false false (Some (String c l))
            else flush (number_literals rest (Ascii.eqb c "034") false None)
        | None =>
            if is_digit c || Ascii.eqb c "-"
            then number_literals rest false false (Some (String c EmptyString))
            else number_literals rest (Ascii.eqb c "034") false None
        end
  end.

(** A number literal read as [mant * 10 ^ (exp - frac)]. *)
Record decimal := Decimal {
  mant : Z;        (* the digits before the exponent, the point dropped *)
  frac : Z;        (* how many of them stand after the point *)
  in_frac : bool;
  in_exp : bool;
  exp_neg : bool;
  exp : Z
}.

(** As [strconv] reads it: a digit of the exponent is added only while
    the exponent read so far is below 10000. *)
Fixpoint read_decimal (lit : string) (d : decimal) : decimal :=
  match lit with
  | EmptyString => d
  | String c rest =>
      read_decimal rest
        (if is_digit c then
           if in_exp d
           then Decimal (mant d) (frac d) (in_frac d) true (exp_neg d)
                  (if exp d <? 10000 then exp d * 10 + digit_val c else exp d)
           else Decimal (mant d * 10 + digit_val c)
                  (if in_frac d then frac d + 1 else frac d) (in_frac d) false false 0
         else if Ascii.eqb c "." then Decimal (mant d) (frac d) true false false 0
         else if Ascii.eqb c "e" || Ascii.eqb c "E"
              then Decimal (mant d) (frac d) (in_frac d) true false 0
         else if in_exp d && Ascii.eqb c "-"
              then Decimal (mant d) (frac d) (in_frac d) true true (exp d)
         else d)
  end.

(** The least magnitude that rounds to an infinite float64: the largest
    finite value plus half a unit in the last place. *)
Definition float64_overflow : Z := 2 ^ 1024 - 2 ^ 970.

(** [strconv.ParseFloat(lit, 64)] returns a nil error: the value does not
    round to an infinity. (Underflow to zero is no error.) *)
Definition ParseFloat_ok (lit : string) : bool :=
  let d := read_decimal lit (Decimal 0 0 false false false 0) in
  let x := (if exp_neg d then - exp d else exp d) - frac d in
  if mant d =? 0 then true
  else if 0 <=? x then
    if 400 <? x then false else mant d * 10 ^ x <? float64_overflow
  else
    if len lit <? - x then true else mant d <? float64_overflow * 10 ^ (- x).

(** [json.Unmarshal(data, &ob) == nil] for [var ob map[string]interface{}]:
    the document is valid, its top-level value is an object or [null], and
    every number in it fits a float64 (a number is decoded into the
    [interface{}] it is stored under as a float64). *)
Definition Unmarshal_map (data : string) : bool :=
  Valid data
  && match top_kind data with
     | Some KObject => forallb ParseFloat_ok (number_literals data false false None)
     | Some KNull => true
     | _ => false
     end.

End json.

(* ===================================================================== *)
(** ** The data model                                                     *)
(* ===================================================================== *)

(** A Go [error] value, by its message; [nil] is the absence of one. *)
Definition error : Type := string.

(** The two results of a Go function that returns [(value, error)]. *)
Inductive result (A : Type) : Type :=
| Ok (a : A)
| Err (e : error).
Arguments Ok {A} a.
Arguments Err {A} e.

(** [login.User], of which the handlers read the [Guid]. *)
Record User := { Guid : Z }.

Record electionRecord := {
  Id : Z;
  Owner : Z;
  Data : string
}.

(** The PDF and the bubble coordinates of one render. *)
Record DrawBothOb := {
  Pdf : string;
  BubblesJson : string
}.

Record httpError := {
  code : Z;
  msg : string;
  err : error
}.

Record EditContext := {
  ElectionId : Z;
  PDFURL : string;
  BubbleJSONURL : string;
  ScanFormURL : string;
  PostURL : string;
  EditURL : string;
  GETURL : string;
  StaticRoot : string
}.

(** [EditContext{}]. *)
Definition EditContext_zero : EditContext :=
  {| ElectionId := 0; PDFURL := ""; BubbleJSONURL := ""; ScanFormURL := "";
     PostURL := ""; EditURL := ""; GETURL := ""; StaticRoot := "" |}.

(** [ec.set(eid)]. *)
Definition EditContext_set (ec : EditContext) (eid : Z) : EditContext :=
  if eid =? 0 then
    {| ElectionId := ElectionId ec; PDFURL := PDFURL ec;
       BubbleJSONURL := BubbleJSONURL ec; ScanFormURL := ScanFormURL ec;
       PostURL := "/election"; EditURL := EditURL ec; GETURL := GETURL ec;
       StaticRoot := "/static" |}
  else
    {| ElectionId := eid;
       PDFURL := "/election/" ++ FormatInt eid ++ ".pdf";
       BubbleJSONURL := "/election/" ++ FormatInt eid ++ "_bubbles.json";
       ScanFormURL := "/election/" ++ FormatInt eid ++ "/scan";
       PostURL := "/election/" ++ FormatInt eid;
       EditURL := "/edit/" ++ FormatInt eid;
       GETURL := "/election/" ++ FormatInt eid;
       StaticRoot := "/static" |}.

(** One member of a marshalled object; a field tagged [omitempty] is left
    out when it is the empty string. The tag option of the first four
    fields is misspelt in the source, so they are always written. *)
Definition json_member (name value : string) (omitempty : bool) : list string :=
  if omitempty && String.eqb value "" then []
  else [quoted name ++ ":" ++ quoted value].

(** The bytes [json.Marshal(ec)] produces. The strings [EditContext_set]
    builds hold no byte that the encoder escapes. *)
Definition EditContext_json (ec : EditContext) : string :=
  "{" ++ String.concat ","
        ([quoted "itemid" ++ ":" ++ FormatInt (ElectionId ec)]
         ++ json_member "pdf" (PDFURL ec) false
         ++ json_member "bubbles" (BubbleJSONURL ec) false
         ++ json_member "scan" (ScanFormURL ec) false
         ++ json_member "post" (PostURL ec) true
         ++ json_member "edit" (EditURL ec) true
         ++ json_member "url" (GETURL ec) true
         ++ json_member "staticroot" (StaticRoot ec) true)
  ++ "}".

(** [json.Marshal(ec)]: encoding this struct cannot fail. *)
Definition Marshal_EditContext (ec : EditContext) : result string :=
  Ok (EditContext_json ec).

(** A value stored in the cache as an [interface{}]: the handlers store a
    [*DrawBothOb] or a [[]byte]. *)
Inductive CacheValue :=
| VDrawBothOb (bothob : DrawBothOb)
| VBytes (b : string).

(* ===================================================================== *)
(** ** The interfaces the handlers are written against                    *)
(* ===================================================================== *)

(** The storage handle of a request. The interface is declared outside
    [main.go]; its methods' results follow the storage contract: a record
    or an error, a new id or an error. *)
Class electionAppDB (DB : Type) := {
  GetElection : Z -> DB -> result electionRecord;
  PutElection : electionRecord -> DB -> result Z * DB
}.

(** The artifact cache. [Get] returns [None] for Go's [nil] and may
    reorder the cache. *)
Class Cache (C : Type) := {
  Get : string -> C -> option CacheValue * C;
  Put : string -> CacheValue -> Z -> C -> C;
  Invalidate : string -> C -> C
}.

(** The functions [draw] and [pdftopng], which call out of the process. *)
Class Externals := {
  draw : string -> string -> result DrawBothOb;
  pdftopng : string -> result string
}.

(* ===================================================================== *)
(** ** Requests, responses and the log of effects                         *)
(* ===================================================================== *)

Record Request := {
  Method : string;
  Path : string;
  Body : string;
  (** what [login.GetHttpUser] resolves the request to; [None] is [nil] *)
  AuthUser : option User
}.

(** What is written to the response: bytes, or the output of a template
    that is kept abstract. *)
Inductive Payload :=
| Bytes (b : string)
| HomePage (user : option User)
| ScanForm (ec : EditContext).

(** The response as the client receives it. [Status] is [None] until the
    header is written. *)
Record ResponseWriter := {
  ContentType : option string;
  Status : option Z;
  Written : list Payload
}.

Definition new_response : ResponseWriter :=
  {| ContentType := None; Status := None; Written := [] |}.

Inductive Event :=
| EvReadBody
| EvGetElection (id : Z)
| EvPutElection (er : electionRecord) (res : result Z)
| EvCacheGet (key : string)
| EvCachePut (key : string) (v : CacheValue) (size : Z)
| EvCacheInvalidate (key : string)
| EvDraw (backend data : string)
| EvPdfToPng (pdf : string)
| EvScanPOST (el : string)
| EvHeaderSet (v : string)
| EvWriteHeader (c : Z)
| EvWrite (p : Payload)
| EvPanic.

Definition StatusUnauthorized : Z := 401.

(** [dbSource]: [dbfactory] is what opening a connection returns, [None]
    for a nil error. *)
Record dbSource := { dbfactory : option error }.

(** [StudioHandler], as far as the election routes read it. Its cache is
    the [cache] of the world below; its templates are kept abstract in
    what they write. *)
Record StudioHandler := {
  dbs : dbSource;
  drawBackend : string
}.

(** How a call that can return, fail with an [httpError], or panic ends. *)
Inductive outcome (A : Type) : Type :=
| Return (a : A)
| Fail (he : httpError)
| Panic.
Arguments Return {A} a.
Arguments Fail {A} he.
Arguments Panic {A}.

(* ===================================================================== *)
(** ** The handlers of [main.go]                                          *)
(* ===================================================================== *)

Section Handlers.

Context {DB C : Type} `{!electionAppDB DB} `{!Cache C} `{!Externals}.

(** Everything a request can read or change: the storage handle, the
    process-wide cache, the response being written, and the log. *)
Record World := {
  edb : DB;
  cache : C;
  w : ResponseWriter;
  log : list Event
}.

Definition emit (e : Event) (st : World) : World :=
  {| edb := edb st; cache := cache st; w := w st; log := log st ++ [e] |}.

Definition set_edb (d : DB) (st : World) : World :=
  {| edb := d; cache := cache st; w := w st; log := log st |}.

Definition set_cache (c : C) (st : World) : World :=
  {| edb := edb st; cache := c; w := w st; log := log st |}.

Definition set_w (r : ResponseWriter) (st : World) : World :=
  {| edb := edb st; cache := cache st; w := r; log := log st |}.

(** [w.Header().Set("Content-Type", v)]: of no effect on a response whose
    header is out already. *)
Definition Header_Set (v : string) (st : World) : World :=
  emit (EvHeaderSet v)
    (match Status (w st) with
     | None =>
         set_w {| ContentType := Some v; Status := None; Written := Written (w st) |} st
     | Some _ => st
     end).

(** [w.WriteHeader(c)]: the first call fixes the status. *)
Definition WriteHeader (c : Z) (st : World) : World :=
  emit (EvWriteHeader c)
    (match Status (w st) with
     | None =>
         set_w {| ContentType := ContentType (w st); Status := Some c;
                  Written := Written (w st) |} st
     | Some _ => st
     end).

(** [w.Write(p)], which sends status 200 first when no header is out. *)
Definition Write (p : Payload) (st : World) : World :=
  emit (EvWrite p)
    (set_w {| ContentType := ContentType (w st);
              Status := match Status (w st) with
                        | None => Some 200
                        | Some c => Some c
                        end;
              Written := Written (w st) ++ [p] |} st).

(** [texterr(w, code, format)]. *)
Definition texterr (c : Z) (m : string) (st : World) : World :=
  Write (Bytes m) (WriteHeader c (Header_Set "text/plain" st)).

(** [maybeerr(w, err, code, format)] for a non-nil [err], where it writes
    the message and returns true; for a nil [err] it does nothing. The
    error itself only reaches the server's own log. *)
Definition maybeerr (e : error) (c : Z) (m : string) (st : World) : World :=
  Write (Bytes m) (WriteHeader c (Header_Set "text/plain" st)).

(** The body [{"error":"nope"}]. *)
Definition nope_json : string :=
  "{" ++ quoted "error" ++ ":" ++ quoted "nope" ++ "}".

Definition json_nope (st : World) : World :=
  Write (Bytes nope_json) (WriteHeader 400 (Header_Set "application/json" st)).

(** [ioutil.ReadAll(http.MaxBytesReader(w, r.Body, n))]: the whole body, or
    an error once more than [n] bytes arrive. *)
Definition ReadAll_MaxBytesReader (n : Z) (body : string) : result string :=
  if n <? len body then Err "http: request body too large" else Ok body.

Definition cache_Get (key : string) (st : World) : option CacheValue * World :=
  (fst (Get key (cache st)),
   emit (EvCacheGet key) (set_cache (snd (Get key (cache st))) st)).

Definition cache_Put (key : string) (v : CacheValue) (size : Z) (st : World) : World :=
  emit (EvCachePut key v size) (set_cache (Put key v size (cache st)) st).

Definition cache_Invalidate (key : string) (st : World) : World :=
  emit (EvCacheInvalidate key) (set_cache (Invalidate key (cache st)) st).

Definition edb_GetElection (id : Z) (st : World) : result electionRecord * World :=
  (GetElection id (edb st), emit (EvGetElection id) st).

Definition edb_PutElection (er : electionRecord) (st : World) : result Z * World :=
  (fst (PutElection er (edb st)),
   emit (EvPutElection er (fst (PutElection er (edb st))))
     (set_edb (snd (PutElection er (edb st))) st)).

(** [handleElectionDocPOST(w, r, edb, user, itemname, itemid)]. [store] is
    the rest of the function from the construction of [er] on, which the
    ownership check either reaches or returns before. *)
Definition handleElectionDocPOST (r : Request) (user : option User)
    (itemname : string) (itemid : Z) (st : World) : World :=
  match user with
  | None => texterr StatusUnauthorized "nope" st
  | Some u =>
      let st := emit EvReadBody st in
      match ReadAll_MaxBytesReader 1000000 (Body r) with
      | Err e => maybeerr e 400 "bad body" st
      | Ok body =>
          if negb (json.Unmarshal_map body)
          then maybeerr "json: cannot unmarshal" 400 "bad json" st
          else
            let store (st : World) : World :=
              let er := {| Id := itemid; Owner := Guid u; Data := body |} in
              let '(res, st) := edb_PutElection er st in
              match res with
              | Err e => maybeerr e 500 "db put fail" st
              | Ok newid =>
                  let st := cache_Invalidate itemname st in
                  let st := cache_Invalidate (itemname ++ ".png") st in
                  let ec := EditContext_set EditContext_zero newid in
                  match Marshal_EditContext ec with
                  | Err e => maybeerr e 500 "json ret prep" st
                  | Ok out =>
                      Write (Bytes out)
                        (WriteHeader 200 (Header_Set "application/json" st))
                  end
              end in
            if negb (itemid =? 0) then
              let '(older, st) := edb_GetElection itemid st in
              match older with
              | Ok older =>
                  if negb (Owner older =? Guid u)
                  then texterr StatusUnauthorized "nope" st
                  else store st
              | Err _ => store st
              end
            else store st
      end
  end.

(** [handleElectionDocGET(w, r, edb, user, itemid)]. *)
Definition handleElectionDocGET (itemid : Z) (st : World) : World :=
  let '(er, st) := edb_GetElection itemid st in
  match er with
  | Err e => maybeerr e 400 "no item" st
  | Ok er =>
      Write (Bytes (Data er)) (WriteHeader 200 (Header_Set "application/json" st))
  end.

(** [sh.getPdf(edb, el)]. *)
Definition getPdf (sh : StudioHandler) (el : string) (st : World)
  : outcome DrawBothOb * World :=
  let '(cr, st) := cache_Get el st in
  match cr with
  | Some (VDrawBothOb bothob) => (Return bothob, st)
  | Some (VBytes _) => (Panic, st)
  | None =>
      match ParseInt el with
      | None => (Fail {| code := 400; msg := "bad item"; err := "strconv.ParseInt" |}, st)
      | Some electionid =>
          let '(er, st) := edb_GetElection electionid st in
          match er with
          | Err e => (Fail {| code := 400; msg := "no item"; err := e |}, st)
          | Ok er =>
              let st := emit (EvDraw (drawBackend sh) (Data er)) st in
              match draw (drawBackend sh) (Data er) with
              | Err e => (Fail {| code := 500; msg := "draw fail"; err := e |}, st)
              | Ok bothob =>
                  (Return bothob,
                   cache_Put el (VDrawBothOb bothob)
                     (len (Pdf bothob) + len (BubblesJson bothob)) st)
              end
          end
      end
  end.

(** [sh.getPng(edb, el)]. *)
Definition getPng (sh : StudioHandler) (el : string) (st : World)
  : outcome string * World :=
  let pngkey := el ++ ".png" in
  let '(cr, st) := cache_Get pngkey st in
  match cr with
  | Some (VBytes pngbytes) => (Return pngbytes, st)
  | Some (VDrawBothOb _) => (Panic, st)
  | None =>
      let '(bothob, st) := getPdf sh el st in
      match bothob with
      | Panic => (Panic, st)
      | Fail he => (Fail he, st)
      | Return bothob =>
          let st := emit (EvPdfToPng (Pdf bothob)) st in
          match pdftopng (Pdf bothob) with
          | Err e => (Fail {| code := 500; msg := "png fail"; err := e |}, st)
          | Ok pngbytes =>
              (Return pngbytes, cache_Put pngkey (VBytes pngbytes) (len pngbytes) st)
          end
      end
  end.

(** The end of the three artifact routes: the bytes with their content
    type, the [httpError] through [maybeerr], or the panic of a failed
    type assertion. *)
Definition respond (ctype : string) (res : outcome string * World) : World :=
  match res with
  | (Return b, st) => Write (Bytes b) (WriteHeader 200 (Header_Set ctype st))
  | (Fail he, st) => maybeerr (err he) (code he) (msg he) st
  | (Panic, st) => emit EvPanic st
  end.

Definition outcome_map {A B : Type} (f : A -> B) (o : outcome A) : outcome B :=
  match o with
  | Return a => Return (f a)
  | Fail he => Fail he
  | Panic => Panic
  end.

(** [sh.ServeHTTP(w, r)]. [handleElectionScanPOST] is defined outside
    [main.go]; the call is kept as one event. *)
Definition ServeHTTP (sh : StudioHandler) (r : Request) (st : World) : World :=
  match dbfactory (dbs sh) with
  | Some e => maybeerr e 500 ("could not open db, " ++ e) st
  | None =>
      let user := AuthUser r in
      let path := Path r in
      if String.eqb path "/election" then
        if String.eqb (Method r) "POST"
        then handleElectionDocPOST r user "" 0 st
        else json_nope st
      else
      match docPathRe path with
      | Some m1 =>
          match ParseInt m1 with
          | None => maybeerr "strconv.ParseInt" 400 "bad item" st
          | Some electionid =>
              if String.eqb (Method r) "GET" then handleElectionDocGET electionid st
              else if String.eqb (Method r) "POST"
              then handleElectionDocPOST r user m1 electionid st
              else json_nope st
          end
      | None =>
      match pdfPathRe path with
      | Some m1 =>
          let '(bothob, st) := getPdf sh m1 st in
          respond "application/pdf" (outcome_map Pdf bothob, st)
      | None =>
      match bubblesPathRe path with
      | Some m1 =>
          let '(bothob, st) := getPdf sh m1 st in
          respond "application/json" (outcome_map BubblesJson bothob, st)
      | None =>
      match pngPathRe path with
      | Some m1 => respond "image/png" (getPng sh m1 st)
      | None =>
      match scanPathRe path with
      | Some m1 =>
          if String.eqb (Method r) "POST" then emit (EvScanPOST m1) st
          else
            match ParseInt m1 with
            | None => maybeerr "strconv.ParseInt" 400 "bad item" st
            | Some electionid =>
                Write (ScanForm (EditContext_set EditContext_zero electionid))
                  (Header_Set "text/html" st)
            end
      | None =>
          Write (HomePage user) (WriteHeader 200 (Header_Set "text/html" st))
      end end end end end
  end.

(** The world at the start of a request: the server hands the handler a
    response nothing was written to; the log starts empty. *)
Definition fresh (st : World) : World :=
  {| edb := edb st; cache := cache st; w := new_response; log := [] |}.

(** One request served from start to end. *)
Definition serve (sh : StudioHandler) (r : Request) (st : World) : World :=
  ServeHTTP sh r (fresh st).

(** The requests of a list served one after the other. *)
Definition serve_each (sh : StudioHandler) (rs : list Request) (st : World) : World :=
  fold_left (fun st r => serve sh r st) rs st.

End Handlers.

Arguments World : clear implicits.

(* ===================================================================== *)
(** ** Reference implementations of the two interfaces                    *)
(* ===================================================================== *)

Module MemDB.

(** Modelled from the spec: the storage backends behind [electionAppDB]
    are not part of [main.go]. This one keeps the election table in a map
    and follows the storage contract: [GetElection] returns the record or
    a not-found error; [PutElection] of a record with id 0 assigns the
    next identifier, and of any other id updates the row matching it; an
    unreachable store fails every call and changes nothing. *)
Record t := {
  rows : gmap Z electionRecord;
  lastid : Z;
  reachable : bool
}.

Definition get (id : Z) (db : t) : result electionRecord :=
  if reachable db then
    match rows db !! id with
    | Some er => Ok er
    | None => Err "sql: no rows in result set"
    end
  else Err "storage unreachable".

Definition put (er : electionRecord) (db : t) : result Z * t :=
  if negb (reachable db) then (Err "storage unreachable", db)
  else if Id er =? 0 then
    let newid := lastid db + 1 in
    (Ok newid,
     {| rows := <[newid := {| Id := newid; Owner := Owner er; Data := Data er |}]> (rows db);
        lastid := newid;
        reachable := true |})
  else
    (Ok (Id er),
     {| rows := alter (fun _ => er) (Id er) (rows db);
        lastid := lastid db;
        reachable := true |}).

#[global] Instance db : electionAppDB t :=
  {| GetElection := get; PutElection := put |}.

Definition empty : t := {| rows := ∅; lastid := 0; reachable := true |}.

End MemDB.

Module Lru.

(** Modelled from the spec: the cache behind [Cache] is not part of
    [main.go]. This one is the size-bounded store of the spec's cache
    contract: [Get] returns the value and makes the entry the most recent
    one; [Put] inserts or overwrites and then evicts least recently used
    entries, never the one just inserted, until the total size is within
    the capacity; [Invalidate] removes the entry if there is one. *)
Record entry := {
  key : string;
  value : CacheValue;
  sizeBytes : Z
}.

(** [entries] has the most recently used entry first. *)
Record t := {
  capacity : Z;
  entries : list entry
}.

Definition without (k : string) (es : list entry) : list entry :=
  filter (fun e => key e ≠ k) es.

Definition find (k : string) (es : list entry) : option entry :=
  List.find (fun e => String.eqb (key e) k) es.

Definition total (es : list entry) : Z :=
  fold_right (fun e n => sizeBytes e + n) 0 es.

(** Drops entries, least recently used first, while [excess] bytes are
    still to be freed. *)
Fixpoint evict (excess : Z) (lru_first : list entry) : list entry :=
  match lru_first with
  | [] => []
  | e :: rest => if 0 <? excess then evict (excess - sizeBytes e) rest else lru_first
  end.

Definition get (k : string) (c : t) : option CacheValue * t :=
  match find k (entries c) with
  | Some e => (Some (value e),
               {| capacity := capacity c; entries := e :: without k (entries c) |})
  | None => (None, c)
  end.

Definition put (k : string) (v : CacheValue) (size : Z) (c : t) : t :=
  let others := without k (entries c) in
  let excess := size + total others - capacity c in
  {| capacity := capacity c;
     entries := {| key := k; value := v; sizeBytes := size |}
                  :: rev (evict excess (rev others)) |}.

Definition invalidate (k : string) (c : t) : t :=
  {| capacity := capacity c; entries := without k (entries c) |}.

#[global] Instance cache : Cache t :=
  {| Get := get; Put := put; Invalidate := invalidate |}.

Definition empty (cap : Z) : t := {| capacity := cap; entries := [] |}.

End Lru.

Module Demo.

(** A draw backend for the examples: it renders every document, and the
    artifacts spell out the data they were rendered from. *)
#[global] Instance ext : Externals :=
  {| draw := fun _ data => Ok {| Pdf := "%PDF " ++ data; BubblesJson := "{}" |};
     pdftopng := fun pdf => Ok ("PNG of " ++ pdf) |}.

Definition sh : StudioHandler :=
  {| dbs := {| dbfactory := None |}; drawBackend := "http://draw" |}.

Definition world0 : World MemDB.t Lru.t :=
  {| edb := MemDB.empty; cache := Lru.empty 10000000; w := new_response; log := [] |}.

Definition U : User := {| Guid := 1 |}.
Definition V : User := {| Guid := 2 |}.

Definition title (t : string) : string :=
  "{" ++ quoted "title" ++ ":" ++ quoted t ++ "}".

Definition POST (path body : string) (u : option User) : Request :=
  {| Method := "POST"; Path := path; Body := body; AuthUser := u |}.

Definition GET (path : string) : Request :=
  {| Method := "GET"; Path := path; Body := ""; AuthUser := None |}.

(** User U has created election 1. *)
Definition world1 : World MemDB.t Lru.t :=
  serve_each sh [POST "/election" (title "T") (Some U)] world0.

(** Its PDF has been requested once, and is cached. *)
Definition world2 : World MemDB.t Lru.t :=
  serve_each sh [GET "/election/1.pdf"] world1.

(** User U has then updated the election through a path that spells the
    id with a leading zero. *)
Definition world3 : World MemDB.t Lru.t :=
  serve_each sh [POST "/election/01" (title "T2") (Some U)] world2.

(** The PNG of election 1 has been requested once: the pair and the PNG
    are cached. *)
Definition world2_png : World MemDB.t Lru.t :=
  serve_each sh [GET "/election/1.png"] world1.

(** A storage that cannot be reached, with election 1 cached. *)
Definition world2_down : World MemDB.t Lru.t :=
  {| edb := {| MemDB.rows := MemDB.rows (edb world2);
               MemDB.lastid := MemDB.lastid (edb world2);
               MemDB.reachable := false |};
     cache := cache world2; w := new_response; log := [] |}.

(** A body one byte over the limit of [handleElectionDocPOST]. *)
Definition oversized : string :=
  String.concat "" (repeat " " (Z.to_nat 999999)) ++ "{}".

End Demo.


(** The key scheme as a typing of the reference cache: an entry holds a
    rendered pair exactly when its key is a string of digits (the PNG keys
    end in [.png]). *)
Definition well_keyed (c : Lru.t) : Prop :=
  forall e, In e (Lru.entries c) ->
    match Lru.value e with
    | VDrawBothOb _ => all_digits (Lru.key e) = true
    | VBytes _ => all_digits (Lru.key e) = false
    end.

(** [sound st st']: the cache of [st'] is well keyed, and its log holds a
    panic only if the log of [st] did. *)
Definition sound {DB : Type} (st st' : World DB Lru.t) : Prop :=
  well_keyed (cache st')
  /\ (In EvPanic (log st') -> In EvPanic (log st)).

(* ===================================================================== *)
(** ** Vocabulary for stating what a request did                          *)
(* ===================================================================== *)

Definition is_Some_b {A : Type} (o : option A) : bool :=
  match o with Some _ => true | None => false end.

Section Vocabulary.

Context {DB C : Type} `{!electionAppDB DB} `{!Cache C}.

(** The world after a handler that touched nothing but the log wrote one
    complete response: content type, status, one payload. *)
Definition reply (c : Z) (ctype : string) (p : Payload) (lg : list Event)
    (d : DB) (cc : C) : World DB C :=
  {| edb := d; cache := cc;
     w := {| ContentType := Some ctype; Status := Some c; Written := [p] |};
     log := lg ++ [EvHeaderSet ctype; EvWriteHeader c; EvWrite p] |}.

(** The size and the syntax check of [handleElectionDocPOST] both pass. *)
Definition body_accepted (body : string) : bool :=
  (len body <=? 1000000) && json.Unmarshal_map body.

(** What [handleElectionDocPOST] has logged when it comes to build the
    record: the body read, and for an update the lookup of the old record. *)
Definition before_put (itemid : Z) : list Event :=
  if itemid =? 0 then [EvReadBody] else [EvReadBody; EvGetElection itemid].

(** The ownership check refuses the caller: the request is an update, the
    record is found, and its owner is someone else. *)
Definition refused (itemid : Z) (u : User) (d : DB) : bool :=
  negb (itemid =? 0)
  && match GetElection itemid d with
     | Ok older => negb (Owner older =? Guid u)
     | Err _ => false
     end.

(** The record [handleElectionDocPOST] hands to [PutElection]. *)
Definition put_record (itemid : Z) (u : User) (body : string) : electionRecord :=
  {| Id := itemid; Owner := Guid u; Data := body |}.

(** The two routes that end in [handleElectionDocPOST], with the item name
    and the item id the dispatcher passes on. *)
Definition post_route (path : string) : option (string * Z) :=
  if String.eqb path "/election" then Some ("", 0)
  else
    match docPathRe path with
    | Some el =>
        match ParseInt el with
        | Some id => Some (el, id)
        | None => None
        end
    | None => None
    end.

(** The two routes that end in [getPdf]: the id string of the path, the
    content type of the answer, and the half of the pair that is sent. *)
Definition artifact_route (path : string)
  : option (string * string * (DrawBothOb -> string)) :=
  match pdfPathRe path with
  | Some el => Some (el, "application/pdf", Pdf)
  | None =>
      match bubblesPathRe path with
      | Some el => Some (el, "application/json", BubblesJson)
      | None => None
      end
  end.

(** The path is [/election] or has one of the five shapes the dispatcher
    matches. *)
Definition known_path (path : string) : bool :=
  String.eqb path "/election"
  || is_Some_b (docPathRe path) || is_Some_b (pdfPathRe path)
  || is_Some_b (bubblesPathRe path) || is_Some_b (pngPathRe path)
  || is_Some_b (scanPathRe path).

(** The request is an upload to the scan route, the one request whose
    handler ([handleElectionScanPOST]) is defined outside [main.go]. *)
Definition scan_upload (r : Request) : bool :=
  String.eqb (Method r) "POST" && is_Some_b (scanPathRe (Path r)).

Definition is_invalidation (e : Event) : bool :=
  match e with EvCacheInvalidate _ => true | _ => false end.

Definition is_put (e : Event) : bool :=
  match e with EvPutElection _ _ => true | _ => false end.

(** [quiet st st']: from [st] to [st'] the storage is the same and the log
    has gained no call of [PutElection]. *)
Definition quiet (st st' : World DB C) : Prop :=
  edb st' = edb st
  /\ forall er res,
       In (EvPutElection er res) (log st') -> In (EvPutElection er res) (log st).

Definition is_render (e : Event) : bool :=
  match e with EvDraw _ _ => true | _ => false end.

End Vocabulary.
(* ===================================================================== *)
(** ** The rest of [main.go]: the port of the listen address, the
       encodings of the edit context, and the edit page                   *)
(* ===================================================================== *)

(** [strconv.ParseInt(s, 10, bitSize)]: as [ParseInt], with the range of a
    signed integer of [bitSize] bits. *)
Definition ParseInt_bitSize (s : string) (bitSize : Z) : option Z :=
  match s with
  | EmptyString => None
  | String c rest =>
      let neg := Ascii.eqb c "-" in
      let digits := if neg || Ascii.eqb c "+" then rest else s in
      match digits with
      | EmptyString => None
      | _ =>
          match parse_digits digits 0 with
          | None => None
          | Some un =>
              let n := if neg then - un else un in
              if (- 2 ^ (bitSize - 1) <=? n) && (n <=? 2 ^ (bitSize - 1) - 1)
              then Some n else None
          end
      end
  end.

(** [strings.LastIndex(s, substr)], scanning [s] from index [i] on with
    the last match so far in [found]. *)
Fixpoint LastIndex_from (i found : Z) (s substr : string) : Z :=
  let found' := if is_Some_b (strip_prefix substr s) then i else found in
  match s with
  | EmptyString => found'
  | String _ s' => LastIndex_from (i + 1) found' s' substr
  end.

(** [strings.LastIndex(s, substr)]: the index of the last occurrence of
    [substr] in [s], or -1. *)
Definition LastIndex (s substr : string) : Z := LastIndex_from 0 (-1) s substr.

(** The slice expression [s[n:]]; [None] is the run-time panic of an index
    out of range. *)
Fixpoint slice_from (n : nat) (s : string) : option string :=
  match n, s with
  | O, _ => Some s
  | S n', String _ s' => slice_from n' s'
  | S _, EmptyString => None
  end.

(** [addrGetPort(listenAddr)]; [None] is a panic. *)
Definition addrGetPort (listenAddr : string) : option Z :=
  let x := LastIndex listenAddr ":" in
  if x <? 0 then Some 80
  else
    match slice_from (Z.to_nat (x + 1)) listenAddr with
    | None => None
    | Some port =>
        match ParseInt_bitSize port 32 with
        | None => Some 80
        | Some v => Some v
        end
    end.

(** [shouldEscape(c, encodeQueryComponent)] of [net/url]: everything but
    the unreserved bytes of RFC 3986. *)
Definition shouldEscape (c : ascii) : bool :=
  if ((97 <=? byte_code c) && (byte_code c <=? 122))
     || ((65 <=? byte_code c) && (byte_code c <=? 90))
     || is_digit c
  then false
  else if Ascii.eqb c "-" || Ascii.eqb c "_" || Ascii.eqb c "." || Ascii.eqb c "~"
  then false
  else true.

Definition upperhex : string := "0123456789ABCDEF".

(** [upperhex[n]] for a nibble [n]. *)
Definition upperhex_at (n : Z) : ascii :=
  match String.get (Z.to_nat n) upperhex with
  | Some c => c
  | None => "0"%char
  end.

(** [url.QueryEscape(s)], which is what [template.URLQueryEscaper] applies
    to one string argument. *)
Fixpoint QueryEscape (s : string) : string :=
  match s with
  | EmptyString => EmptyString
  | String c s' =>
      if shouldEscape c then
        if Ascii.eqb c " " then String "+" (QueryEscape s')
        else String "%" (String (upperhex_at (Z.shiftr (byte_code c) 4))
                           (String (upperhex_at (Z.land (byte_code c) 15))
                              (QueryEscape s')))
      else String c (QueryEscape s')
  end.

(** [ec.Json()]. *)
Definition EditContext_Json (ec : EditContext) : string :=
  match Marshal_EditContext ec with
  | Err _ => ""
  | Ok x => x
  end.

(** [ec.JsonAttr()]. *)
Definition EditContext_JsonAttr (ec : EditContext) : string :=
  match Marshal_EditContext ec with
  | Err _ => ""
  | Ok x => QueryEscape x
  end.

(** A parsed [*template.Template], by what [Execute] does with a context:
    the chunks it writes to the response, in order, and the error it
    returns after them ([None] for nil). *)
Record Template := {
  Execute_writes : EditContext -> list string;
  Execute_err : EditContext -> option error
}.

(** [editHandler]; [ServeHTTP] does not read its [dbs]. *)
Record editHandler := { t : Template }.

Definition StatusInternalServerError : Z := 500.

Section Edit_page.

Context {DB C : Type}.

(** [t.Execute(w, ec)]: the writes, and the error. *)
Definition Template_Execute (tm : Template) (ec : EditContext) (st : World DB C)
  : option error * World DB C :=
  (Execute_err tm ec,
   fold_left (fun st b => Write (Bytes b) st) (Execute_writes tm ec) st).

(** The election id [editHandler.ServeHTTP] reads off the path: what
    follows [/edit/] when that parses, 0 otherwise. [strip_prefix] is the
    test [strings.HasPrefix(path, "/edit/")] with the slice [path[6:]]. *)
Definition edit_electionid (path : string) : Z :=
  match strip_prefix "/edit/" path with
  | Some rest =>
      match ParseInt rest with
      | Some xe => xe
      | None => 0
      end
  | None => 0
  end.

(** [edit.ServeHTTP(w, r)]. *)
Definition editHandler_ServeHTTP (edit : editHandler) (r : Request) (st : World DB C)
  : World DB C :=
  let electionid := edit_electionid (Path r) in
  let st := Header_Set "text/html" st in
  let ec := EditContext_set EditContext_zero electionid in
  let '(err, st) := Template_Execute (t edit) ec st in
  match err with
  | Some _ => WriteHeader StatusInternalServerError st
  | None => st
  end.

End Edit_page.

(** The value of a string of decimal digits (0 for any other string). *)
Definition decimal (s : string) : Z :=
  match parse_digits s 0 with
  | Some v => v
  | None => 0
  end.

(** Every byte of [s] passes [p]. *)
Fixpoint all_bytes (p : ascii -> bool) (s : string) : bool :=
  match s with
  | EmptyString => true
  | String c s' => p c && all_bytes p s'
  end.

(** A byte that may stand in an HTML attribute value and in a URL query
    as it is: unreserved, or one of the two signs an escape is made of. *)
Definition query_safe (c : ascii) : bool :=
  negb (shouldEscape c) || Ascii.eqb c "%" || Ascii.eqb c "+".


Definition no_colon (c : ascii) : bool := negb (Ascii.eqb c ":").

Section Failure_vocabulary.

Context `{!Externals}.


End Failure_vocabulary.


Section Scan_form.

Context {DB C : Type}.

(** The world after the dispatcher has written the scan form for [id]:
    the content type and one write, which brings the status 200. *)
Definition scan_form_world (id : Z) (st : World DB C) : World DB C :=
  {| edb := edb st; cache := cache st;
     w := {| ContentType := Some "text/html"; Status := Some 200;
             Written := [ScanForm (EditContext_set EditContext_zero id)] |};
     log := [EvHeaderSet "text/html";
             EvWrite (ScanForm (EditContext_set EditContext_zero id))] |}.

End Scan_form.

(** [el] is the numeral of a number: digits with no leading zero. *)
Definition canonical (el : string) : bool :=
  all_digits el && String.eqb el (FormatInt (decimal el)).

(** The id string of a path on one of the five routes under
    [/election/]. *)
Definition path_id (path : string) : option string :=
  match docPathRe path with
  | Some el => Some el
  | None =>
      match pdfPathRe path with
      | Some el => Some el
      | None =>
          match bubblesPathRe path with
          | Some el => Some el
          | None =>
              match pngPathRe path with
              | Some el => Some el
              | None => scanPathRe path
              end
          end
      end
  end.

(** The request spells the id in its path, if there is one, as a
    numeral. *)
Definition canonical_request (r : Request) : bool :=
  match path_id (Path r) with
  | Some el => canonical el
  | None => true
  end.

(** What a storage handle stands for: the election table, and the handles
    in which every id was assigned by the storage. *)
Class StorageModel (DB : Type) := {
  table : DB -> Z -> option electionRecord;
  consistent : DB -> Prop
}.

(** What the handlers rely on in a storage; the storage itself is outside
    [main.go]. A record [GetElection] returns is the row of the table. A
    write keeps the handle consistent; one that fails changes no row; an
    update changes no row but that of its id; a create assigns an id that
    had no row, and changes no other. *)
Class StorageContract (DB : Type) `{!electionAppDB DB} `{!StorageModel DB} : Prop := {
  GetElection_table (id : Z) (db : DB) (er : electionRecord) :
    GetElection id db = Ok er -> table db id = Some er;
  PutElection_consistent (er : electionRecord) (db db' : DB) (res : result Z) :
    PutElection er db = (res, db') -> consistent db -> consistent db';
  PutElection_failed (er : electionRecord) (db db' : DB) (e : error) :
    PutElection er db = (Err e, db') -> forall id, table db' id = table db id;
  PutElection_update (er : electionRecord) (db db' : DB) (newid : Z) :
    PutElection er db = (Ok newid, db') -> Id er <> 0 ->
    forall id, id <> Id er -> table db' id = table db id;
  PutElection_create (er : electionRecord) (db db' : DB) (newid : Z) :
    PutElection er db = (Ok newid, db') -> Id er = 0 -> consistent db ->
    table db newid = None /\ forall id, id <> newid -> table db' id = table db id
}.

(** What the handlers rely on in a cache; the cache itself is outside
    [main.go]. It returns nothing it was not given: what [Get] finds
    after a [Get] was there before; what it finds after a [Put] is the
    value put, under its key, or was there before; what it finds after an
    [Invalidate] is under another key and was there before. *)
Class CacheContract (C : Type) `{!Cache C} : Prop := {
  Get_after_Get (k k' : string) (c : C) (v : CacheValue) :
    fst (Get k' (snd (Get k c))) = Some v -> fst (Get k' c) = Some v;
  Get_after_Put (k k' : string) (v v' : CacheValue) (size : Z) (c : C) :
    fst (Get k' (Put k v size c)) = Some v' ->
    (k' = k /\ v' = v) \/ fst (Get k' c) = Some v';
  Get_after_Invalidate (k k' : string) (c : C) (v : CacheValue) :
    fst (Get k' (Invalidate k c)) = Some v ->
    k' <> k /\ fst (Get k' c) = Some v
}.

(** The table of the reference storage is its map of rows; a handle is
    consistent when no row lies beyond the last id assigned. *)
#[global] Instance MemDB_model : StorageModel MemDB.t :=
  {| table := fun db id => MemDB.rows db !! id;
     consistent := fun db =>
       forall id er, MemDB.rows db !! id = Some er -> id <= MemDB.lastid db |}.

Section Coherence_vocabulary.

Context {DB C : Type} `{!electionAppDB DB} `{!Cache C} `{!Externals}
  `{!StorageModel DB}.

(** The cache value [v] under key [k] is up to date with the election
    table: [k] is the numeral of an id in the table and [v] the render of
    the data stored under that id, or [k] is that numeral with [.png]
    appended and [v] the conversion of that render's PDF. *)
Definition up_to_date (sh : StudioHandler) (db : DB) (k : string) (v : CacheValue)
  : Prop :=
  exists id er bothob,
    0 <= id <= maxInt64
    /\ table db id = Some er
    /\ draw (drawBackend sh) (Data er) = Ok bothob
    /\ ((k = FormatInt id /\ v = VDrawBothOb bothob)
        \/ (k = FormatInt id ++ ".png"
            /\ exists pngbytes,
                 v = VBytes pngbytes /\ pdftopng (Pdf bothob) = Ok pngbytes)).

(** The cache is coherent with the storage: the handle is consistent, and
    whatever the cache returns is up to date. *)
Definition coherent (sh : StudioHandler) (db : DB) (c : C) : Prop :=
  consistent db
  /\ forall k v, fst (Get k c) = Some v -> up_to_date sh db k v.

End Coherence_vocabulary.

Module Examples.

(** Beside the draw backend of [Demo]: one whose converter is out of
    order. *)
Definition no_converter : Externals :=
  {| draw := fun _ data => Ok {| Pdf := "%PDF " ++ data; BubblesJson := "{}" |};
     pdftopng := fun _ => Err "pdftopng: exit status 1" |}.

(** A page template that writes a head and then the JSON of its context,
    and one that fails after the head. *)
Definition page : Template :=
  {| Execute_writes := fun ec => ["<html>"; EditContext_Json ec];
     Execute_err := fun _ => None |}.

Definition broken_page : Template :=
  {| Execute_writes := fun _ => ["<html>"];
     Execute_err := fun _ => Some "template: no such field" |}.

Definition edith : editHandler := {| t := page |}.

(** Modelled from the spec: a storage backend, which is not part of
    [main.go], in a spell of failing reads. Every [GetElection] ends in
    the spec's backend error (a query failure), whether or not the row
    exists; the writes go through to the election table, which is that of
    a [MemDB]. *)
Record ReadFault := { store : MemDB.t }.

#[global] Instance read_fault_db : electionAppDB ReadFault :=
  {| GetElection := fun _ _ => Err "read tcp: i/o timeout";
     PutElection := fun er db =>
       (fst (MemDB.put er (store db)),
        {| store := snd (MemDB.put er (store db)) |}) |}.

(** Election 1 of user U is stored, and the reads are failing. *)
Definition world1_read_fault : World ReadFault Lru.t :=
  {| edb := {| store := edb Demo.world1 |}; cache := cache Demo.world1;
     w := new_response; log := [] |}.

End Examples.

(* ===================================================================== *)
(** ** Reduction behaviour                                                *)
(* ===================================================================== *)

(** Library-level functions stay folded under [simpl]; the proofs below
    reason about the handlers, not about digits or scanner states. *)
Arguments len : simpl never.
Arguments FormatInt : simpl never.
Arguments ParseInt : simpl never.
Arguments match_election : simpl never.
Arguments json.Valid : simpl never.
Arguments json.Unmarshal_map : simpl never.
Arguments EditContext_json : simpl never.
Arguments EditContext_set : simpl never.
Arguments ReadAll_MaxBytesReader : simpl never.
Arguments ParseInt_bitSize : simpl never.

(* ===================================================================== *)
(** ** Facts about [strconv] and the path patterns                        *)
(* ===================================================================== *)

Section Strconv_facts.

Lemma digit_char_spec (d : Z) :
  0 <= d < 10 -> is_digit (digit_char d) = true /\ digit_val (digit_char d) = d.
Proof.
  intros Hd.
  assert (Hcases : d = 0 \/ d = 1 \/ d = 2 \/ d = 3 \/ d = 4 \/ d = 5 \/ d = 6
                   \/ d = 7 \/ d = 8 \/ d = 9) by lia.
  repeat (destruct Hcases as [-> | Hcases]; [split; reflexivity |]).
  subst d. split; reflexivity.
Qed.

(** Reading back the digits [fmt_digits] wrote continues the accumulator
    with the number written. *)
Lemma parse_fmt_digits (fuel : nat) :
  forall (n : Z) (acc : string),
    0 <= n < 10 ^ Z.of_nat fuel ->
    exists k, 0 <= k /\ forall a,
      parse_digits (fmt_digits fuel n acc) a = parse_digits acc (a * 10 ^ k + n).
Proof.
  induction fuel as [|fuel IH]; intros n acc Hn.
  - exists 0. split; [lia|]. intros a. cbn [fmt_digits].
    change (10 ^ Z.of_nat 0) with 1 in Hn. f_equal; lia.
  - cbn [fmt_digits].
    assert (Hmod : 0 <= n mod 10 < 10) by (apply Z.mod_pos_bound; lia).
    destruct (digit_char_spec (n mod 10) Hmod) as [Hdig Hval].
    destruct (n <? 10) eqn:Hlt.
    + apply Z.ltb_lt in Hlt. exists 1. split; [lia|]. intros a.
      cbn [parse_digits]. rewrite Hdig, Hval.
      rewrite Z.mod_small by lia. f_equal; lia.
    + apply Z.ltb_ge in Hlt.
      assert (Hdiv : 0 <= n / 10 < 10 ^ Z.of_nat fuel).
      { split; [apply Z.div_pos; lia|].
        apply Z.div_lt_upper_bound; [lia|].
        replace (10 * 10 ^ Z.of_nat fuel) with (10 ^ Z.of_nat (S fuel)); [lia|].
        rewrite Nat2Z.inj_succ, Z.pow_succ_r by lia. reflexivity. }
      destruct (IH (n / 10) (String (digit_char (n mod 10)) acc) Hdiv)
        as (k & Hk & Hparse).
      exists (k + 1). split; [lia|]. intros a.
      rewrite Hparse. cbn [parse_digits]. rewrite Hdig, Hval.
      rewrite Z.pow_add_r by lia.
      pose proof (Z.div_mod n 10 ltac:(lia)) as Hdm. f_equal; lia.
Qed.

Lemma fmt_digits_all_digits (fuel : nat) :
  forall (n : Z) (acc : string),
    0 <= n -> all_digits acc = true -> all_digits (fmt_digits fuel n acc) = true.
Proof.
  induction fuel as [|fuel IH]; intros n acc Hn Hacc; [exact Hacc|].
  cbn [fmt_digits].
  assert (Hmod : 0 <= n mod 10 < 10) by (apply Z.mod_pos_bound; lia).
  destruct (digit_char_spec (n mod 10) Hmod) as [Hdig _].
  destruct (n <? 10).
  - cbn [all_digits]. rewrite Hdig. exact Hacc.
  - apply IH; [apply Z.div_pos; lia|]. cbn [all_digits]. rewrite Hdig. exact Hacc.
Qed.

Lemma fmt_digits_nonempty (fuel : nat) (n : Z) (acc : string) :
  fmt_digits (S fuel) n acc <> EmptyString.
Proof.
  assert (Hgen : forall f m a, a <> EmptyString -> fmt_digits f m a <> EmptyString).
  { induction f as [|f IH]; intros m a Ha; [exact Ha|].
    cbn [fmt_digits]. destruct (m <? 10); [discriminate|]. apply IH. discriminate. }
  cbn [fmt_digits]. destruct (n <? 10); [discriminate|]. apply Hgen. discriminate.
Qed.

Lemma span_all_digits (s : string) :
  all_digits s = true -> span_digits s = (s, EmptyString).
Proof.
  induction s as [|c s IH]; [reflexivity|]. cbn [all_digits span_digits].
  intros [Hc Hs]%andb_true_iff. rewrite Hc, (IH Hs). reflexivity.
Qed.

Lemma is_digit_not_sign (c : ascii) :
  is_digit c = true -> Ascii.eqb c "-" = false /\ Ascii.eqb c "+" = false.
Proof.
  intros Hc. split; apply Ascii.eqb_neq; intros ->; discriminate Hc.
Qed.

(** Decimal formatting and parsing are inverse on the non-negative int64
    values. *)
Lemma ParseInt_FormatInt (n : Z) :
  0 <= n <= maxInt64 -> ParseInt (FormatInt n) = Some n.
Proof.
  intros Hn. unfold FormatInt.
  destruct (n <? 0) eqn:Hneg; [apply Z.ltb_lt in Hneg; lia|].
  assert (Hbound : 0 <= n < 10 ^ Z.of_nat 20) by (unfold maxInt64 in Hn; simpl; lia).
  destruct (parse_fmt_digits 20 n EmptyString Hbound) as (k & _ & Hparse).
  pose proof (fmt_digits_all_digits 20 n EmptyString ltac:(lia) eq_refl) as Hall.
  pose proof (fmt_digits_nonempty 19 n EmptyString) as Hne.
  specialize (Hparse 0). cbn [parse_digits] in Hparse.
  replace (0 * 10 ^ k + n) with n in Hparse by lia.
  destruct (fmt_digits 20 n EmptyString) as [|c s] eqn:Hfmt; [congruence|].
  unfold ParseInt. cbn [all_digits] in Hall. apply andb_true_iff in Hall as [Hc _].
  destruct (is_digit_not_sign c Hc) as [-> ->]. cbn [orb].
  rewrite Hparse.
  assert (Hrange : (minInt64 <=? n) && (n <=? maxInt64) = true).
  { apply andb_true_iff. split; apply Z.leb_le; unfold minInt64; lia. }
  rewrite Hrange. reflexivity.
Qed.

Lemma strip_prefix_app (p s : string) : strip_prefix p (p ++ s) = Some s.
Proof.
  induction p as [|c p IH]; [destruct s; reflexivity|].
  change (String c p ++ s) with (String c (p ++ s)). cbn [strip_prefix].
  rewrite Ascii.eqb_refl. exact IH.
Qed.

(** The path the edit context advertises for an election is a document
    path, and its captured group reads back as the election's id. *)
Lemma docPathRe_FormatInt (n : Z) :
  0 <= n -> docPathRe ("/election/" ++ FormatInt n) = Some (FormatInt n).
Proof.
  intros Hn. unfold docPathRe, match_election.
  rewrite strip_prefix_app. unfold FormatInt.
  destruct (n <? 0) eqn:Hneg; [apply Z.ltb_lt in Hneg; lia|].
  rewrite span_all_digits by (apply fmt_digits_all_digits; [lia|reflexivity]).
  pose proof (fmt_digits_nonempty 19 n EmptyString) as Hne.
  destruct (fmt_digits 20 n EmptyString); [congruence|]. reflexivity.
Qed.

(** A path matches at most one of the patterns: the suffix after the
    digits is what it is. *)
Lemma match_election_suffix (s1 s2 path d1 d2 : string) :
  match_election s1 path = Some d1 -> match_election s2 path = Some d2 -> s1 = s2.
Proof.
  unfold match_election.
  destruct (strip_prefix "/election/" path) as [rest|]; [|discriminate].
  destruct (span_digits rest) as [d r].
  destruct d as [|c d]; [discriminate|].
  destruct (String.eqb r s1) eqn:H1; [|discriminate].
  destruct (String.eqb r s2) eqn:H2; [|discriminate].
  apply String.eqb_eq in H1, H2. congruence.
Qed.

Lemma match_election_other (s1 s2 path d1 : string) :
  match_election s1 path = Some d1 -> s1 <> s2 -> match_election s2 path = None.
Proof.
  intros H1 Hne. destruct (match_election s2 path) as [d2|] eqn:H2; [|reflexivity].
  destruct Hne. exact (match_election_suffix _ _ _ _ _ H1 H2).
Qed.

Lemma match_election_not_collection (s path d : string) :
  match_election s path = Some d -> String.eqb path "/election" = false.
Proof.
  intros Hm. destruct (String.eqb path "/election") eqn:Heq; [|reflexivity].
  apply String.eqb_eq in Heq. subst path. discriminate Hm.
Qed.

End Strconv_facts.

(* ===================================================================== *)
(** ** What each handler does, path by path                               *)
(* ===================================================================== *)

Section Handler_facts.

Context {DB C : Type} `{!electionAppDB DB} `{!Cache C} `{!Externals}.

(** [handleElectionDocPOST] on a fresh response, as one case analysis: who
    calls, what the body is, whom the record belongs to, what the storage
    answers. *)
Lemma handleElectionDocPOST_run (r : Request) (user : option User)
    (itemname : string) (itemid : Z) (st : World DB C) :
  handleElectionDocPOST r user itemname itemid (fresh st) =
  match user with
  | None => reply 401 "text/plain" (Bytes "nope") [] (edb st) (cache st)
  | Some u =>
      if 1000000 <? len (Body r)
      then reply 400 "text/plain" (Bytes "bad body") [EvReadBody] (edb st) (cache st)
      else if negb (json.Unmarshal_map (Body r))
      then reply 400 "text/plain" (Bytes "bad json") [EvReadBody] (edb st) (cache st)
      else if refused itemid u (edb st)
      then reply 401 "text/plain" (Bytes "nope") (before_put itemid) (edb st) (cache st)
      else
        let er := put_record itemid u (Body r) in
        match PutElection er (edb st) with
        | (Err e, d) =>
            reply 500 "text/plain" (Bytes "db put fail")
              (before_put itemid ++ [EvPutElection er (Err e)]) d (cache st)
        | (Ok newid, d) =>
            reply 200 "application/json"
              (Bytes (EditContext_json (EditContext_set EditContext_zero newid)))
              (before_put itemid
                 ++ [EvPutElection er (Ok newid); EvCacheInvalidate itemname;
                     EvCacheInvalidate (itemname ++ ".png")])
              d (Invalidate (itemname ++ ".png") (Invalidate itemname (cache st)))
        end
  end.
Proof.
  unfold handleElectionDocPOST, ReadAll_MaxBytesReader, refused, before_put, put_record.
  destruct user as [u|]; [|reflexivity].
  destruct (1000000 <? len (Body r)); [reflexivity|].
  destruct (json.Unmarshal_map (Body r)); [|reflexivity].
  simpl.
  destruct (itemid =? 0); simpl.
  - destruct (PutElection _ (edb st)) as [[newid|e] d]; reflexivity.
  - destruct (GetElection itemid (edb st)) as [older|e]; simpl.
    + destruct (Owner older =? Guid u); simpl; [|reflexivity].
      destruct (PutElection _ (edb st)) as [[newid|e] d]; reflexivity.
    + destruct (PutElection _ (edb st)) as [[newid|e'] d]; reflexivity.
Qed.

Lemma handleElectionDocGET_run (itemid : Z) (st : World DB C) :
  handleElectionDocGET itemid (fresh st) =
  match GetElection itemid (edb st) with
  | Ok er =>
      reply 200 "application/json" (Bytes (Data er)) [EvGetElection itemid]
        (edb st) (cache st)
  | Err _ =>
      reply 400 "text/plain" (Bytes "no item") [EvGetElection itemid]
        (edb st) (cache st)
  end.
Proof.
  unfold handleElectionDocGET. simpl.
  destruct (GetElection itemid (edb st)); reflexivity.
Qed.

(** A POST to [/election] or to [/election/{id}] is handed to
    [handleElectionDocPOST] with the route's item name and id. *)
Lemma serve_post_route (sh : StudioHandler) (r : Request) (st : World DB C)
    (itemname : string) (itemid : Z) :
  dbfactory (dbs sh) = None ->
  Method r = "POST" ->
  post_route (Path r) = Some (itemname, itemid) ->
  serve sh r st = handleElectionDocPOST r (AuthUser r) itemname itemid (fresh st).
Proof.
  intros Hdb Hm Hroute. unfold serve, ServeHTTP, post_route in *.
  rewrite Hdb, Hm.
  destruct (String.eqb (Path r) "/election").
  - injection Hroute as <- <-. reflexivity.
  - destruct (docPathRe (Path r)) as [el|]; [|discriminate].
    destruct (ParseInt el) as [id|]; [|discriminate].
    injection Hroute as <- <-. reflexivity.
Qed.

Lemma serve_doc_GET (sh : StudioHandler) (r : Request) (st : World DB C)
    (el : string) (id : Z) :
  dbfactory (dbs sh) = None ->
  Method r = "GET" ->
  docPathRe (Path r) = Some el ->
  ParseInt el = Some id ->
  serve sh r st = handleElectionDocGET id (fresh st).
Proof.
  intros Hdb Hm Hre Hid. unfold serve, ServeHTTP.
  rewrite Hdb, Hm, (match_election_not_collection _ _ _ Hre), Hre, Hid.
  reflexivity.
Qed.

(** A request for the PDF or for the bubbles is answered from [getPdf],
    called with the id string of the path. *)
Lemma serve_artifact_route (sh : StudioHandler) (r : Request) (st : World DB C)
    (el ctype : string) (part : DrawBothOb -> string) :
  dbfactory (dbs sh) = None ->
  artifact_route (Path r) = Some (el, ctype, part) ->
  serve sh r st =
  respond ctype (outcome_map part (fst (getPdf sh el (fresh st))),
                 snd (getPdf sh el (fresh st))).
Proof.
  intros Hdb Hroute. unfold serve, ServeHTTP, artifact_route in *. rewrite Hdb.
  destruct (pdfPathRe (Path r)) as [el1|] eqn:Hpdf.
  - injection Hroute as <- <- <-.
    rewrite (match_election_not_collection _ _ _ Hpdf).
    unfold docPathRe. rewrite (match_election_other _ "" _ _ Hpdf) by discriminate.
    destruct (getPdf sh el1 (fresh st)); reflexivity.
  - destruct (bubblesPathRe (Path r)) as [el1|] eqn:Hbub; [|discriminate].
    injection Hroute as <- <- <-.
    rewrite (match_election_not_collection _ _ _ Hbub).
    unfold docPathRe. rewrite (match_election_other _ "" _ _ Hbub) by discriminate.
    destruct (getPdf sh el1 (fresh st)); reflexivity.
Qed.

(** [getPdf] on a cache hit: the cached pair, and nothing but the cache
    lookup in the log. *)
Lemma getPdf_hit (sh : StudioHandler) (el : string) (st : World DB C)
    (bothob : DrawBothOb) (c' : C) :
  Get el (cache st) = (Some (VDrawBothOb bothob), c') ->
  getPdf sh el (fresh st) =
  (Return bothob,
   {| edb := edb st; cache := c'; w := new_response; log := [EvCacheGet el] |}).
Proof.
  intros Hget. unfold getPdf, cache_Get. simpl. rewrite Hget. reflexivity.
Qed.

(** [getPdf] on a miss, for an election that is stored and renders. *)
Lemma getPdf_miss (sh : StudioHandler) (el : string) (st : World DB C)
    (c' : C) (id : Z) (er : electionRecord) (bothob : DrawBothOb) :
  Get el (cache st) = (None, c') ->
  ParseInt el = Some id ->
  GetElection id (edb st) = Ok er ->
  draw (drawBackend sh) (Data er) = Ok bothob ->
  getPdf sh el (fresh st) =
  (Return bothob,
   {| edb := edb st;
      cache := Put el (VDrawBothOb bothob)
                 (len (Pdf bothob) + len (BubblesJson bothob)) c';
      w := new_response;
      log := [EvCacheGet el; EvGetElection id; EvDraw (drawBackend sh) (Data er);
              EvCachePut el (VDrawBothOb bothob)
                (len (Pdf bothob) + len (BubblesJson bothob))] |}).
Proof.
  intros Hget Hid Her Hdraw. unfold getPdf, cache_Get. simpl.
  rewrite Hget. simpl. rewrite Hid. simpl. rewrite Her. simpl. rewrite Hdraw.
  reflexivity.
Qed.

End Handler_facts.

(* ===================================================================== *)
(** ** The artifact routes at any state, and the PNG route                *)
(* ===================================================================== *)

Section Artifacts.

Context {DB C : Type} `{!electionAppDB DB} `{!Cache C} `{!Externals}.

Lemma getPdf_miss_at (sh : StudioHandler) (el : string) (st : World DB C)
    (c' : C) (id : Z) (er : electionRecord) (bothob : DrawBothOb) :
  Get el (cache st) = (None, c') ->
  ParseInt el = Some id ->
  GetElection id (edb st) = Ok er ->
  draw (drawBackend sh) (Data er) = Ok bothob ->
  getPdf sh el st =
  (Return bothob,
   {| edb := edb st;
      cache := Put el (VDrawBothOb bothob)
                 (len (Pdf bothob) + len (BubblesJson bothob)) c';
      w := w st;
      log := log st
             ++ [EvCacheGet el; EvGetElection id; EvDraw (drawBackend sh) (Data er);
                 EvCachePut el (VDrawBothOb bothob)
                   (len (Pdf bothob) + len (BubblesJson bothob))] |}).
Proof.
  intros Hget Hid Her Hdraw. unfold getPdf, cache_Get. simpl.
  rewrite Hget. simpl. rewrite Hid. simpl. rewrite Her. simpl. rewrite Hdraw.
  unfold cache_Put, emit, set_cache. simpl. rewrite <- !app_assoc. reflexivity.
Qed.

Lemma getPng_hit (sh : StudioHandler) (el : string) (st : World DB C)
    (pngbytes : string) (c' : C) :
  Get (el ++ ".png") (cache st) = (Some (VBytes pngbytes), c') ->
  getPng sh el (fresh st) =
  (Return pngbytes,
   {| edb := edb st; cache := c'; w := new_response;
      log := [EvCacheGet (el ++ ".png")] |}).
Proof.
  intros Hget. unfold getPng, cache_Get. simpl. rewrite Hget. reflexivity.
Qed.

Lemma getPng_miss (sh : StudioHandler) (el : string) (st : World DB C)
    (c1 c2 : C) (id : Z) (er : electionRecord) (bothob : DrawBothOb)
    (pngbytes : string) :
  Get (el ++ ".png") (cache st) = (None, c1) ->
  Get el c1 = (None, c2) ->
  ParseInt el = Some id ->
  GetElection id (edb st) = Ok er ->
  draw (drawBackend sh) (Data er) = Ok bothob ->
  pdftopng (Pdf bothob) = Ok pngbytes ->
  let size := len (Pdf bothob) + len (BubblesJson bothob) in
  getPng sh el (fresh st) =
  (Return pngbytes,
   {| edb := edb st;
      cache := Put (el ++ ".png") (VBytes pngbytes) (len pngbytes)
                 (Put el (VDrawBothOb bothob) size c2);
      w := new_response;
      log := [EvCacheGet (el ++ ".png"); EvCacheGet el; EvGetElection id;
              EvDraw (drawBackend sh) (Data er);
              EvCachePut el (VDrawBothOb bothob) size;
              EvPdfToPng (Pdf bothob);
              EvCachePut (el ++ ".png") (VBytes pngbytes) (len pngbytes)] |}).
Proof.
  intros Hpng Hget Hid Her Hdraw Hconv size. unfold getPng, cache_Get.
  cbn [fst snd fresh cache]. rewrite Hpng. cbn [fst snd].
  erewrite getPdf_miss_at; [| cbn [emit set_cache cache]; eassumption | eassumption
                            | cbn [emit set_cache edb]; eassumption | eassumption].
  cbn. rewrite Hconv. reflexivity.
Qed.

(** A request for the PNG is answered from [getPng], called with the id
    string of the path. *)
Lemma serve_png_route (sh : StudioHandler) (r : Request) (st : World DB C)
    (el : string) :
  dbfactory (dbs sh) = None ->
  pngPathRe (Path r) = Some el ->
  serve sh r st = respond "image/png" (getPng sh el (fresh st)).
Proof.
  intros Hdb Hpng. unfold serve, ServeHTTP. rewrite Hdb.
  rewrite (match_election_not_collection _ _ _ Hpng).
  unfold docPathRe, pdfPathRe, bubblesPathRe.
  rewrite (match_election_other _ "" _ _ Hpng) by discriminate.
  rewrite (match_election_other _ ".pdf" _ _ Hpng) by discriminate.
  rewrite (match_election_other _ "_bubbles.json" _ _ Hpng) by discriminate.
  fold pngPathRe. rewrite Hpng. reflexivity.
Qed.

(** What a POST to [/election/{id}] that is answered 200 leaves behind:
    the storage the write returned, and the cache less the two keys. *)
Lemma serve_post_200 (sh : StudioHandler) (r : Request) (st : World DB C)
    (el : string) :
  dbfactory (dbs sh) = None ->
  Method r = "POST" ->
  docPathRe (Path r) = Some el ->
  Status (w (serve sh r st)) = Some 200 ->
  cache (serve sh r st) = Invalidate (el ++ ".png") (Invalidate el (cache st)).
Proof.
  intros Hdb Hm Hre.
  destruct (ParseInt el) as [id|] eqn:Hid.
  - rewrite (serve_post_route sh r st el id Hdb Hm)
      by (unfold post_route;
          rewrite (match_election_not_collection _ _ _ Hre), Hre, Hid; reflexivity).
    rewrite handleElectionDocPOST_run.
    destruct (AuthUser r) as [u|]; [|discriminate].
    destruct (1000000 <? len (Body r)); [discriminate|].
    destruct (json.Unmarshal_map (Body r)); [|discriminate].
    destruct (refused id u (edb st)); [discriminate|]. cbn zeta.
    destruct (PutElection (put_record id u (Body r)) (edb st)) as [[newid|e] d];
      [|discriminate].
    reflexivity.
  - unfold serve, ServeHTTP.
    rewrite Hdb, (match_election_not_collection _ _ _ Hre), Hre, Hid.
    discriminate.
Qed.

End Artifacts.

(* ===================================================================== *)
(** ** The reference cache forgets what is invalidated                    *)
(* ===================================================================== *)

Section Lru_facts.

Lemma Lru_find_without (k : string) (es : list Lru.entry) :
  Lru.find k (Lru.without k es) = None.
Proof.
  unfold Lru.find, Lru.without. induction es as [|e es IH]; [reflexivity|].
  rewrite filter_cons. case_decide as Hk; [|exact IH].
  cbn [List.find]. apply String.eqb_neq in Hk. rewrite Hk. exact IH.
Qed.

Lemma Lru_find_without_miss (k k' : string) (es : list Lru.entry) :
  Lru.find k es = None -> Lru.find k (Lru.without k' es) = None.
Proof.
  unfold Lru.find, Lru.without. induction es as [|e es IH]; [reflexivity|].
  cbn [List.find]. destruct (String.eqb (Lru.key e) k) eqn:Hk; [discriminate|].
  intros Hrest. rewrite filter_cons. case_decide; [|exact (IH Hrest)].
  cbn [List.find]. rewrite Hk. exact (IH Hrest).
Qed.

Lemma Lru_get_miss (k : string) (c : Lru.t) :
  Lru.find k (Lru.entries c) = None -> Lru.get k c = (None, c).
Proof.
  intros Hmiss. unfold Lru.get. rewrite Hmiss. reflexivity.
Qed.

(** After the two invalidations of an update, neither key is found. *)
Lemma Lru_get_after_invalidate (el : string) (c : Lru.t) :
  let c' := Invalidate (el ++ ".png") (Invalidate el c) in
  Get (el ++ ".png") c' = (None, c') /\ Get el c' = (None, c').
Proof.
  cbn zeta. split; apply Lru_get_miss; cbn.
  - apply Lru_find_without.
  - apply Lru_find_without_miss, Lru_find_without.
Qed.

End Lru_facts.

(* ===================================================================== *)
(** ** The write path: caching, ordering, failure, authorization         *)
(* ===================================================================== *)

Section Write_path.

Context {DB C : Type} `{!electionAppDB DB} `{!Cache C} `{!Externals}.

Lemma In_before_put (e : Event) (itemid : Z) :
  In e (before_put itemid) -> e = EvReadBody \/ e = EvGetElection itemid.
Proof.
  unfold before_put. destruct (itemid =? 0); simpl; intuition auto.
Qed.

Lemma Unmarshal_map_Valid (body : string) :
  json.Unmarshal_map body = true -> json.Valid body = true.
Proof.
  unfold json.Unmarshal_map. intros [Hv _]%andb_true_iff. exact Hv.
Qed.

Lemma body_accepted_spec (body : string) :
  body_accepted body = true <->
  (1000000 <? len body) = false /\ json.Unmarshal_map body = true.
Proof.
  unfold body_accepted. rewrite andb_true_iff, Z.leb_le, Z.ltb_ge. reflexivity.
Qed.

(** C2. Cache-hit bypass. A request for [/election/{id}.pdf] or
    [/election/{id}_bubbles.json] looks the id string of the path up in the
    cache. On a hit the answer is the cached pair's PDF (or bubbles) and the
    request's log holds the cache lookup and the response only: no call of
    the draw backend, no fetch from storage. On a miss the record is
    fetched; a stored election is rendered with one call of the draw
    backend, the rendered pair is [Put] under the same key, and the answer
    is taken from that pair. The last part says where a miss stops short: on
    an id string that does not parse, a record that is not found, or a
    render that fails, nothing is stored and the answer is 400, 400 or 500. *)
Theorem cache_hit_bypass (sh : StudioHandler) (r : Request) (st : World DB C)
    (el ctype : string) (part : DrawBothOb -> string) :
  dbfactory (dbs sh) = None ->
  artifact_route (Path r) = Some (el, ctype, part) ->
  (forall bothob c',
     Get el (cache st) = (Some (VDrawBothOb bothob), c') ->
     serve sh r st =
     reply 200 ctype (Bytes (part bothob)) [EvCacheGet el] (edb st) c')
  /\
  (forall c' id er bothob,
     Get el (cache st) = (None, c') ->
     ParseInt el = Some id ->
     GetElection id (edb st) = Ok er ->
     draw (drawBackend sh) (Data er) = Ok bothob ->
     let size := len (Pdf bothob) + len (BubblesJson bothob) in
     serve sh r st =
     reply 200 ctype (Bytes (part bothob))
       [EvCacheGet el; EvGetElection id; EvDraw (drawBackend sh) (Data er);
        EvCachePut el (VDrawBothOb bothob) size]
       (edb st) (Put el (VDrawBothOb bothob) size c'))
  /\
  (forall c',
     Get el (cache st) = (None, c') ->
     match ParseInt el with
     | None =>
         serve sh r st =
         reply 400 "text/plain" (Bytes "bad item") [EvCacheGet el] (edb st) c'
     | Some id =>
         match GetElection id (edb st) with
         | Err _ =>
             serve sh r st =
             reply 400 "text/plain" (Bytes "no item")
               [EvCacheGet el; EvGetElection id] (edb st) c'
         | Ok er =>
             forall e, draw (drawBackend sh) (Data er) = Err e ->
             serve sh r st =
             reply 500 "text/plain" (Bytes "draw fail")
               [EvCacheGet el; EvGetElection id; EvDraw (drawBackend sh) (Data er)]
               (edb st) c'
         end
     end).
Proof.
  intros Hdb Hroute.
  rewrite (serve_artifact_route _ _ _ _ _ _ Hdb Hroute).
  split; [|split].
  - intros bothob c' Hget.
    rewrite (getPdf_hit _ _ _ _ _ Hget). reflexivity.
  - intros c' id er bothob Hget Hid Her Hdraw size.
    rewrite (getPdf_miss _ _ _ _ _ _ _ Hget Hid Her Hdraw). reflexivity.
  - intros c' Hget. unfold getPdf, cache_Get. cbn [fresh cache].
    rewrite Hget. cbn [fst snd].
    destruct (ParseInt el) as [id|]; [|reflexivity].
    unfold edb_GetElection. change (edb (emit _ (set_cache c' (fresh st)))) with (edb st).
    destruct (GetElection id (edb st)) as [er|e]; [|reflexivity].
    intros e Hdraw. cbn. rewrite Hdraw. reflexivity.
Qed.

(** C3. Invalidation ordering. A POST to [/election/{id}] that is answered
    200 has this log: the body read and the lookup of the old record, then
    the successful [PutElection], then the invalidation of the id string of
    the path, then the invalidation of that string with [.png] appended,
    and only then the three writes of the 200 response. *)
Theorem invalidation_between_write_and_response (sh : StudioHandler) (r : Request)
    (st : World DB C) (el : string) :
  dbfactory (dbs sh) = None ->
  Method r = "POST" ->
  docPathRe (Path r) = Some el ->
  Status (w (serve sh r st)) = Some 200 ->
  exists id u newid d,
    ParseInt el = Some id /\
    AuthUser r = Some u /\
    PutElection (put_record id u (Body r)) (edb st) = (Ok newid, d) /\
    edb (serve sh r st) = d /\
    cache (serve sh r st) = Invalidate (el ++ ".png") (Invalidate el (cache st)) /\
    log (serve sh r st) =
      (before_put id
       ++ [EvPutElection (put_record id u (Body r)) (Ok newid);
           EvCacheInvalidate el;
           EvCacheInvalidate (el ++ ".png")%string;
           EvHeaderSet "application/json";
           EvWriteHeader 200;
           EvWrite (Bytes (EditContext_json (EditContext_set EditContext_zero newid)))])%list.
Proof.
  intros Hdb Hm Hre.
  destruct (ParseInt el) as [id|] eqn:Hid.
  - rewrite (serve_post_route sh r st el id Hdb Hm).
    2:{ unfold post_route.
        rewrite (match_election_not_collection _ _ _ Hre), Hre, Hid. reflexivity. }
    rewrite handleElectionDocPOST_run.
    destruct (AuthUser r) as [u|]; [|discriminate].
    destruct (1000000 <? len (Body r)); [discriminate|].
    destruct (json.Unmarshal_map (Body r)); [|discriminate].
    destruct (refused id u (edb st)); [discriminate|]. cbn zeta.
    destruct (PutElection (put_record id u (Body r)) (edb st)) as [[newid|e] d]
      eqn:Hput; [|discriminate].
    intros _. exists id, u, newid, d. unfold reply. cbn [negb edb cache log].
    rewrite <- app_assoc. repeat split; assumption.
  - unfold serve, ServeHTTP.
    rewrite Hdb, (match_election_not_collection _ _ _ Hre), Hre, Hid.
    discriminate.
Qed.

(** C4. Write-failure atomicity. When [PutElection] returns an error to
    [handleElectionDocPOST], on either POST route, the response is 500 with
    the text [db put fail], the cache is the one the request started with,
    and the log holds no invalidation. *)
Theorem put_failure_leaves_cache (sh : StudioHandler) (r : Request)
    (st : World DB C) (itemname : string) (itemid : Z)
    (er : electionRecord) (e : error) :
  dbfactory (dbs sh) = None ->
  Method r = "POST" ->
  post_route (Path r) = Some (itemname, itemid) ->
  In (EvPutElection er (Err e)) (log (serve sh r st)) ->
  w (serve sh r st) =
    {| ContentType := Some "text/plain"; Status := Some 500;
       Written := [Bytes "db put fail"] |}
  /\ cache (serve sh r st) = cache st
  /\ forall key, ~ In (EvCacheInvalidate key) (log (serve sh r st)).
Proof.
  intros Hdb Hm Hroute.
  rewrite (serve_post_route sh r st itemname itemid Hdb Hm Hroute).
  rewrite handleElectionDocPOST_run.
  destruct (AuthUser r) as [u|]; [|simpl; intuition discriminate].
  destruct (1000000 <? len (Body r)); [simpl; intuition discriminate|].
  destruct (json.Unmarshal_map (Body r)); [|simpl; intuition discriminate].
  destruct (refused itemid u (edb st)).
  { unfold negb, reply. cbn [log]. intros Hin.
    apply in_app_or in Hin as [Hin|Hin].
    - apply In_before_put in Hin as [Hin|Hin]; discriminate.
    - simpl in Hin. intuition discriminate. }
  cbn zeta.
  destruct (PutElection (put_record itemid u (Body r)) (edb st)) as [[newid|e'] d].
  - unfold negb, reply. cbn [log]. intros Hin.
    apply in_app_or in Hin as [Hin|Hin].
    + apply in_app_or in Hin as [Hin|Hin].
      * apply In_before_put in Hin as [Hin|Hin]; discriminate.
      * simpl in Hin. intuition discriminate.
    + simpl in Hin. intuition discriminate.
  - intros _. unfold negb, reply. cbn [w cache log]. repeat split.
    intros key Hin.
    apply in_app_or in Hin as [Hin|Hin].
    + apply in_app_or in Hin as [Hin|Hin].
      * apply In_before_put in Hin as [Hin|Hin]; discriminate.
      * simpl in Hin. intuition discriminate.
    + simpl in Hin. intuition discriminate.
Qed.

Lemma not_In_before_put_put (itemid : Z) (er : electionRecord) (res : result Z) :
  ~ In (EvPutElection er res) (before_put itemid).
Proof.
  intros Hin. apply In_before_put in Hin as [Hin|Hin]; discriminate.
Qed.

(** On the document route, digits that [strconv.ParseInt] cannot read as
    an int64 are answered 400 [bad item] at once, whatever the method:
    nobody's identity is looked at, the body is not read, and neither
    storage nor cache is touched. *)
Lemma serve_bad_item (sh : StudioHandler) (r : Request) (st : World DB C)
    (el : string) :
  dbfactory (dbs sh) = None ->
  docPathRe (Path r) = Some el ->
  ParseInt el = None ->
  serve sh r st = reply 400 "text/plain" (Bytes "bad item") [] (edb st) (cache st).
Proof.
  intros Hdb Hre Hnone. unfold serve, ServeHTTP.
  rewrite Hdb, (match_election_not_collection _ _ _ Hre), Hre, Hnone. reflexivity.
Qed.

(** C5, as amended. Write authorization. A POST to [/election/{id}] whose
    digits [strconv.ParseInt] cannot read as an int64 is answered 400
    [bad item] before anybody's identity is looked at. On every other POST
    to [/election] or [/election/{id}]: a request with no authenticated
    identity is answered 401 and touches neither storage nor cache. An
    update (id not 0) by an identity other than the owner of the stored
    record, as [GetElection] returns it, never calls [PutElection] and
    leaves the storage as it was; it is answered 401 when its body passes
    the size and JSON checks, and 400 when it does not, because those
    checks come first. An update by the stored owner whose body passes the
    checks calls [PutElection] with the body as the record's data. *)
Theorem write_authorization (sh : StudioHandler) (r : Request) (st : World DB C) :
  dbfactory (dbs sh) = None ->
  Method r = "POST" ->
  (forall el,
     docPathRe (Path r) = Some el ->
     ParseInt el = None ->
     serve sh r st = reply 400 "text/plain" (Bytes "bad item") [] (edb st) (cache st))
  /\
  (forall itemname itemid,
     post_route (Path r) = Some (itemname, itemid) ->
     (AuthUser r = None ->
        serve sh r st = reply 401 "text/plain" (Bytes "nope") [] (edb st) (cache st))
     /\
     (forall u older,
        AuthUser r = Some u ->
        itemid <> 0 ->
        GetElection itemid (edb st) = Ok older ->
        Owner older <> Guid u ->
        Status (w (serve sh r st)) = Some (if body_accepted (Body r) then 401 else 400)
        /\ edb (serve sh r st) = edb st
        /\ forall er res, ~ In (EvPutElection er res) (log (serve sh r st)))
     /\
     (forall u older,
        AuthUser r = Some u ->
        GetElection itemid (edb st) = Ok older ->
        Owner older = Guid u ->
        body_accepted (Body r) = true ->
        exists res,
          In (EvPutElection (put_record itemid u (Body r)) res)
             (log (serve sh r st)))).
Proof.
  intros Hdb Hm.
  split; [intros el Hre Hnone; exact (serve_bad_item sh r st el Hdb Hre Hnone)|].
  intros itemname itemid Hroute.
  rewrite (serve_post_route sh r st itemname itemid Hdb Hm Hroute).
  rewrite handleElectionDocPOST_run.
  split; [|split].
  - intros ->. reflexivity.
  - intros u older -> Hid Hget Hown.
    assert (Href : refused itemid u (edb st) = true).
    { unfold refused. rewrite Hget.
      apply andb_true_iff. split; apply negb_true_iff; apply Z.eqb_neq; assumption. }
    unfold body_accepted.
    destruct (1000000 <? len (Body r)) eqn:Hlen.
    { apply Z.ltb_lt in Hlen.
      replace (len (Body r) <=? 1000000) with false by (symmetry; apply Z.leb_gt; lia).
      repeat split. intros er res Hin. simpl in Hin. intuition discriminate. }
    apply Z.ltb_ge in Hlen.
    replace (len (Body r) <=? 1000000) with true by (symmetry; apply Z.leb_le; lia).
    destruct (json.Unmarshal_map (Body r)).
    + cbn [negb andb]. rewrite Href. repeat split.
      intros er res Hin. unfold reply in Hin. cbn [log] in Hin.
      apply in_app_or in Hin as [Hin|Hin].
      * exact (not_In_before_put_put _ _ _ Hin).
      * simpl in Hin. intuition discriminate.
    + repeat split. intros er res Hin. simpl in Hin. intuition discriminate.
  - intros u older -> Hget Hown [Hlen Hjson]%body_accepted_spec.
    assert (Href : refused itemid u (edb st) = false).
    { unfold refused. rewrite Hget.
      apply andb_false_iff. right. apply negb_false_iff. apply Z.eqb_eq. assumption. }
    rewrite Hlen, Hjson, Href. cbn [negb]. cbn zeta.
    destruct (PutElection (put_record itemid u (Body r)) (edb st)) as [[newid|e] d].
    + exists (Ok newid). unfold reply. cbn [log].
      apply in_or_app. left. apply in_or_app. right. left. reflexivity.
    + exists (Err e). unfold reply. cbn [log].
      apply in_or_app. left. apply in_or_app. right. left. reflexivity.
Qed.

(** The owner on the write path. Every record [handleElectionDocPOST]
    hands to [PutElection] carries the route's id and the authenticated
    caller as owner; this is how the owner is set at creation (id 0). For
    an update (id not 0) for which [GetElection] returns the stored
    record, the caller is also the stored record's owner: such an update
    does not change the owner. *)
Theorem owner_set_once (sh : StudioHandler) (r : Request) (st : World DB C)
    (itemname : string) (itemid : Z) (er : electionRecord) (res : result Z) :
  dbfactory (dbs sh) = None ->
  Method r = "POST" ->
  post_route (Path r) = Some (itemname, itemid) ->
  In (EvPutElection er res) (log (serve sh r st)) ->
  (exists u, AuthUser r = Some u /\ er = put_record itemid u (Body r))
  /\
  (forall older,
     itemid <> 0 ->
     GetElection itemid (edb st) = Ok older ->
     Owner er = Owner older).
Proof.
  intros Hdb Hm Hroute.
  rewrite (serve_post_route sh r st itemname itemid Hdb Hm Hroute).
  rewrite handleElectionDocPOST_run.
  destruct (AuthUser r) as [u|]; [|simpl; intuition discriminate].
  destruct (1000000 <? len (Body r)); [simpl; intuition discriminate|].
  destruct (json.Unmarshal_map (Body r)); [|simpl; intuition discriminate].
  cbn [negb].
  destruct (refused itemid u (edb st)) eqn:Href.
  { unfold reply. cbn [log]. intros Hin.
    apply in_app_or in Hin as [Hin|Hin].
    - destruct (not_In_before_put_put _ _ _ Hin).
    - simpl in Hin. intuition discriminate. }
  cbn zeta.
  assert (Hsame : forall older,
    itemid <> 0 -> GetElection itemid (edb st) = Ok older -> Guid u = Owner older).
  { intros older Hid Hget. unfold refused in Href. rewrite Hget in Href.
    apply andb_false_iff in Href as [Href|Href].
    - apply negb_false_iff, Z.eqb_eq in Href. contradiction.
    - apply negb_false_iff, Z.eqb_eq in Href. congruence. }
  destruct (PutElection (put_record itemid u (Body r)) (edb st)) as [[newid|e] d];
    unfold reply; cbn [log]; intros Hin.
  - assert (er = put_record itemid u (Body r)) as ->.
    { apply in_app_or in Hin as [Hin|Hin]; [|simpl in Hin; intuition discriminate].
      apply in_app_or in Hin as [Hin|Hin]; [destruct (not_In_before_put_put _ _ _ Hin)|].
      simpl in Hin. intuition congruence. }
    split; [exists u; split; reflexivity|]. exact Hsame.
  - assert (er = put_record itemid u (Body r)) as ->.
    { apply in_app_or in Hin as [Hin|Hin]; [|simpl in Hin; intuition discriminate].
      apply in_app_or in Hin as [Hin|Hin]; [destruct (not_In_before_put_put _ _ _ Hin)|].
      simpl in Hin. intuition congruence. }
    split; [exists u; split; reflexivity|]. exact Hsame.
Qed.

(** C9, as amended. The body limit. A POST to [/election/{id}] whose
    digits [strconv.ParseInt] cannot read as an int64 is answered 400
    [bad item] and its body is not read. On every other POST to
    [/election] or [/election/{id}]: with no authenticated identity the
    answer is 401 and the body is not read; an authenticated caller's body
    is read through the 1,000,000-byte limiter before anything else, and a
    body over the limit, or one that is not well-formed JSON, is answered
    400, the log of the request holding the read and the response only:
    no ownership check, no storage write, no cache access. *)
Theorem body_rejected_first (sh : StudioHandler) (r : Request) (st : World DB C) :
  dbfactory (dbs sh) = None ->
  Method r = "POST" ->
  (forall el,
     docPathRe (Path r) = Some el ->
     ParseInt el = None ->
     serve sh r st = reply 400 "text/plain" (Bytes "bad item") [] (edb st) (cache st))
  /\
  (forall itemname itemid,
     post_route (Path r) = Some (itemname, itemid) ->
     (AuthUser r = None ->
        serve sh r st = reply 401 "text/plain" (Bytes "nope") [] (edb st) (cache st))
     /\
     (forall u,
        AuthUser r = Some u ->
        (exists rest, log (serve sh r st) = EvReadBody :: rest)
        /\
        (1000000 < len (Body r) \/ json.Valid (Body r) = false ->
         serve sh r st =
         reply 400 "text/plain"
           (Bytes (if 1000000 <? len (Body r) then "bad body" else "bad json"))
           [EvReadBody] (edb st) (cache st)))).
Proof.
  intros Hdb Hm.
  split; [intros el Hre Hnone; exact (serve_bad_item sh r st el Hdb Hre Hnone)|].
  intros itemname itemid Hroute.
  rewrite (serve_post_route sh r st itemname itemid Hdb Hm Hroute).
  rewrite handleElectionDocPOST_run.
  split; [intros ->; reflexivity|].
  intros u ->.
  split.
  - assert (Hpre : exists rest, before_put itemid = EvReadBody :: rest)
      by (unfold before_put; destruct (itemid =? 0); eexists; reflexivity).
    destruct Hpre as [pre Hpre].
    destruct (1000000 <? len (Body r)); [eexists; reflexivity|].
    destruct (negb (json.Unmarshal_map (Body r))); [eexists; reflexivity|].
    destruct (refused itemid u (edb st));
      [unfold reply; cbn [log]; rewrite Hpre; eexists; reflexivity|].
    cbn zeta.
    destruct (PutElection (put_record itemid u (Body r)) (edb st)) as [[newid|e] d];
      unfold reply; cbn [log]; rewrite Hpre; eexists; reflexivity.
  - intros Hbad.
    destruct (1000000 <? len (Body r)) eqn:Hlen; [reflexivity|].
    destruct Hbad as [Hbad|Hbad]; [apply Z.ltb_ge in Hlen; lia|].
    destruct (json.Unmarshal_map (Body r)) eqn:Hjson.
    + apply Unmarshal_map_Valid in Hjson. congruence.
    + reflexivity.
Qed.

(** C10, as amended. The missing-record update path. An authenticated POST
    to [/election/{id}] with an id other than 0 for which [GetElection]
    returns an error, and with a body of at most 1,000,000 bytes that
    [json.Unmarshal] accepts into a map, is not answered with a not-found
    error: the log goes from the failed lookup straight to [PutElection],
    called with that id, the caller as owner and the body as data, and the
    answer is 200 or, when the write fails, 500. *)
Theorem update_of_missing_record (sh : StudioHandler) (r : Request) (st : World DB C)
    (el : string) (id : Z) (u : User) (e : error) :
  dbfactory (dbs sh) = None ->
  Method r = "POST" ->
  docPathRe (Path r) = Some el ->
  ParseInt el = Some id ->
  id <> 0 ->
  AuthUser r = Some u ->
  body_accepted (Body r) = true ->
  GetElection id (edb st) = Err e ->
  let er := {| Id := id; Owner := Guid u; Data := Body r |} in
  let res := fst (PutElection er (edb st)) in
  (exists rest,
     log (serve sh r st)
     = EvReadBody :: EvGetElection id :: EvPutElection er res :: rest)
  /\ edb (serve sh r st) = snd (PutElection er (edb st))
  /\ Status (w (serve sh r st)) = Some (match res with Ok _ => 200 | Err _ => 500 end).
Proof.
  intros Hdb Hm Hre Hid Hnz Hu [Hlen Hjson]%body_accepted_spec Hget er res.
  rewrite (serve_post_route sh r st el id Hdb Hm).
  2:{ unfold post_route.
      rewrite (match_election_not_collection _ _ _ Hre), Hre, Hid. reflexivity. }
  rewrite handleElectionDocPOST_run, Hu, Hlen, Hjson. cbn [negb].
  assert (Href : refused id u (edb st) = false).
  { unfold refused. rewrite Hget. apply andb_false_r. }
  rewrite Href. cbn zeta.
  assert (Hpre : before_put id = [EvReadBody; EvGetElection id]).
  { unfold before_put. apply Z.eqb_neq in Hnz. rewrite Hnz. reflexivity. }
  rewrite Hpre. subst res. unfold put_record. fold er.
  destruct (PutElection er (edb st)) as [[newid|e'] d]; cbn [fst snd].
  - split; [eexists; reflexivity|]. split; reflexivity.
  - split; [eexists; reflexivity|]. split; reflexivity.
Qed.

(** C6, as amended. Create/read round trip. A body of at most 1,000,000
    bytes that [json.Unmarshal] accepts into a map, posted to [/election]
    by an authenticated caller, reaches [PutElection] byte for byte as the
    data of a record with id 0; when the storage assigns it an id and
    returns the data it was given, a GET of [/election/{newid}] is answered
    200 with exactly those bytes. *)
Theorem create_read_round_trip (sh : StudioHandler) (r1 r2 : Request)
    (st : World DB C) (u : User) (newid : Z) (d : DB) (er : electionRecord) :
  dbfactory (dbs sh) = None ->
  Method r1 = "POST" ->
  Path r1 = "/election" ->
  AuthUser r1 = Some u ->
  body_accepted (Body r1) = true ->
  PutElection (put_record 0 u (Body r1)) (edb st) = (Ok newid, d) ->
  0 <= newid <= maxInt64 ->
  GetElection newid d = Ok er ->
  Data er = Body r1 ->
  Method r2 = "GET" ->
  Path r2 = "/election/" ++ FormatInt newid ->
  w (serve sh r1 st) =
    {| ContentType := Some "application/json"; Status := Some 200;
       Written := [Bytes (EditContext_json (EditContext_set EditContext_zero newid))] |}
  /\ In (EvPutElection {| Id := 0; Owner := Guid u; Data := Body r1 |} (Ok newid))
        (log (serve sh r1 st))
  /\ w (serve sh r2 (serve sh r1 st)) =
       {| ContentType := Some "application/json"; Status := Some 200;
          Written := [Bytes (Body r1)] |}.
Proof.
  intros Hdb Hm1 Hp1 Hu [Hlen Hjson]%body_accepted_spec Hput Hrange Hget Hdata Hm2 Hp2.
  assert (Hpost : serve sh r1 st =
    reply 200 "application/json"
      (Bytes (EditContext_json (EditContext_set EditContext_zero newid)))
      ([EvReadBody]
         ++ [EvPutElection (put_record 0 u (Body r1)) (Ok newid);
             EvCacheInvalidate ""; EvCacheInvalidate ("" ++ ".png")])
      d (Invalidate ("" ++ ".png") (Invalidate "" (cache st)))).
  { rewrite (serve_post_route sh r1 st "" 0 Hdb Hm1)
      by (unfold post_route; rewrite Hp1; reflexivity).
    rewrite handleElectionDocPOST_run, Hu, Hlen, Hjson. cbn [negb].
    unfold refused. cbn [Z.eqb negb andb]. cbn zeta. rewrite Hput. reflexivity. }
  rewrite Hpost. split; [reflexivity|]. split; [simpl; auto|].
  rewrite (serve_doc_GET sh r2 _ (FormatInt newid) newid Hdb Hm2).
  - rewrite handleElectionDocGET_run. unfold reply at 1. cbn [edb].
    rewrite Hget, Hdata. reflexivity.
  - rewrite Hp2. apply docPathRe_FormatInt. lia.
  - apply ParseInt_FormatInt. exact Hrange.
Qed.

End Write_path.

(* ===================================================================== *)
(** ** The dispatcher                                                     *)
(* ===================================================================== *)

Section Dispatch.

Context {DB C : Type} `{!electionAppDB DB} `{!Cache C} `{!Externals}.

(** C7, as amended. The dispatcher's fallback. A request whose path is
    neither [/election] nor of one of the five shapes under [/election/]
    is answered 200 with the home page, whatever its method. A request to
    [/election] with a method other than POST, and a request to
    [/election/{id}] with an id that [strconv.ParseInt] reads as an int64
    and a method other than GET and POST, is answered 400 with the JSON
    body that says nope. A request to [/election/{id}] whose digits
    [strconv.ParseInt] cannot read as an int64 is answered 400 with the
    text [bad item], whatever its method. *)
Theorem dispatcher_fallback (sh : StudioHandler) (r : Request) (st : World DB C) :
  dbfactory (dbs sh) = None ->
  (known_path (Path r) = false ->
     serve sh r st =
     reply 200 "text/html" (HomePage (AuthUser r)) [] (edb st) (cache st))
  /\
  (Path r = "/election" ->
   Method r <> "POST" ->
     serve sh r st =
     reply 400 "application/json" (Bytes nope_json) [] (edb st) (cache st))
  /\
  (forall el id,
     docPathRe (Path r) = Some el ->
     ParseInt el = Some id ->
     Method r <> "GET" ->
     Method r <> "POST" ->
     serve sh r st =
     reply 400 "application/json" (Bytes nope_json) [] (edb st) (cache st))
  /\
  (forall el,
     docPathRe (Path r) = Some el ->
     ParseInt el = None ->
     serve sh r st =
     reply 400 "text/plain" (Bytes "bad item") [] (edb st) (cache st)).
Proof.
  intros Hdb.
  assert (Hbad : forall el,
            docPathRe (Path r) = Some el -> ParseInt el = None ->
            serve sh r st =
            reply 400 "text/plain" (Bytes "bad item") [] (edb st) (cache st))
    by (intros el Hre Hnone; exact (serve_bad_item sh r st el Hdb Hre Hnone)).
  revert Hbad.
  unfold serve, ServeHTTP. rewrite Hdb. intros Hbad. split; [|split; [|split]].
  - unfold known_path. intros Hk.
    repeat (apply orb_false_iff in Hk as [Hk ?]).
    rewrite Hk.
    destruct (docPathRe (Path r)); [discriminate|].
    destruct (pdfPathRe (Path r)); [discriminate|].
    destruct (bubblesPathRe (Path r)); [discriminate|].
    destruct (pngPathRe (Path r)); [discriminate|].
    destruct (scanPathRe (Path r)); [discriminate|].
    reflexivity.
  - intros -> Hm. apply String.eqb_neq in Hm. rewrite Hm. reflexivity.
  - intros el id Hre Hid Hget Hpost.
    apply String.eqb_neq in Hget, Hpost.
    rewrite (match_election_not_collection _ _ _ Hre), Hre, Hid, Hget, Hpost.
    reflexivity.
  - exact Hbad.
Qed.

End Dispatch.

(* ===================================================================== *)
(** ** Which requests write to the storage                                *)
(* ===================================================================== *)

Section Frame.

Context {DB C : Type} `{!electionAppDB DB} `{!Cache C} `{!Externals}.

Lemma quiet_refl (st : World DB C) : quiet st st.
Proof. split; [reflexivity|auto]. Qed.

Lemma quiet_trans (st1 st2 st3 : World DB C) :
  quiet st1 st2 -> quiet st2 st3 -> quiet st1 st3.
Proof.
  intros [He1 Hl1] [He2 Hl2]. split; [congruence|]. auto.
Qed.

Lemma quiet_emit (e : Event) (st : World DB C) :
  is_put e = false -> quiet st (emit e st).
Proof.
  intros He. split; [reflexivity|]. intros er res Hin. cbn in Hin.
  apply in_app_or in Hin as [Hin|[Hin|[]]]; [exact Hin|].
  subst e. discriminate He.
Qed.

Lemma quiet_set_cache (c : C) (st : World DB C) : quiet st (set_cache c st).
Proof. split; [reflexivity|auto]. Qed.

Lemma quiet_set_w (rw : ResponseWriter) (st : World DB C) : quiet st (set_w rw st).
Proof. split; [reflexivity|auto]. Qed.

Create HintDb quiet discriminated.

#[local] Hint Resolve quiet_refl quiet_emit quiet_set_cache quiet_set_w : quiet.

Lemma quiet_step (st1 st2 st3 : World DB C) :
  quiet st2 st3 -> quiet st1 st2 -> quiet st1 st3.
Proof. intros H23 H12. exact (quiet_trans _ _ _ H12 H23). Qed.

Lemma quiet_Header_Set (v : string) (st : World DB C) : quiet st (Header_Set v st).
Proof.
  unfold Header_Set. eapply quiet_step; [apply quiet_emit; reflexivity|].
  destruct (Status (w st)); auto with quiet.
Qed.

Lemma quiet_WriteHeader (c : Z) (st : World DB C) : quiet st (WriteHeader c st).
Proof.
  unfold WriteHeader. eapply quiet_step; [apply quiet_emit; reflexivity|].
  destruct (Status (w st)); auto with quiet.
Qed.

Lemma quiet_Write (p : Payload) (st : World DB C) : quiet st (Write p st).
Proof.
  unfold Write. eapply quiet_step; [apply quiet_emit; reflexivity|].
  auto with quiet.
Qed.

#[local] Hint Resolve quiet_Header_Set quiet_WriteHeader quiet_Write : quiet.

(** A complete response: header, status, body. *)
Lemma quiet_response (p : Payload) (c : Z) (v : string) (st : World DB C) :
  quiet st (Write p (WriteHeader c (Header_Set v st))).
Proof.
  eapply quiet_step; [apply quiet_Write|].
  eapply quiet_step; [apply quiet_WriteHeader|]. apply quiet_Header_Set.
Qed.

Lemma quiet_cache_Get (key : string) (st : World DB C) :
  quiet st (snd (cache_Get key st)).
Proof.
  unfold cache_Get. cbn [snd].
  eapply quiet_step; [apply quiet_emit; reflexivity|]. auto with quiet.
Qed.

Lemma quiet_cache_Put (key : string) (v : CacheValue) (size : Z) (st : World DB C) :
  quiet st (cache_Put key v size st).
Proof.
  unfold cache_Put.
  eapply quiet_step; [apply quiet_emit; reflexivity|]. auto with quiet.
Qed.

Lemma quiet_edb_GetElection (id : Z) (st : World DB C) :
  quiet st (snd (edb_GetElection id st)).
Proof. unfold edb_GetElection. cbn [snd]. apply quiet_emit. reflexivity. Qed.

#[local] Hint Resolve quiet_response quiet_cache_Get quiet_cache_Put quiet_edb_GetElection
  : quiet.

Lemma quiet_getPdf (sh : StudioHandler) (el : string) (st : World DB C) :
  quiet st (snd (getPdf sh el st)).
Proof.
  unfold getPdf.
  pose proof (quiet_cache_Get el st) as H0.
  destruct (cache_Get el st) as [cr st0]. cbn [snd] in H0.
  destruct cr as [[bothob|b]|]; cbn [snd]; [exact H0|exact H0|].
  destruct (ParseInt el) as [id|]; cbn [snd]; [|exact H0].
  pose proof (quiet_edb_GetElection id st0) as H1.
  destruct (edb_GetElection id st0) as [er st1]. cbn [snd] in H1.
  pose proof (quiet_trans _ _ _ H0 H1) as H01.
  destruct er as [er|e]; cbn [snd]; [|exact H01].
  assert (H2 : quiet st (emit (EvDraw (drawBackend sh) (Data er)) st1)).
  { eapply quiet_step; [apply quiet_emit; reflexivity|exact H01]. }
  destruct (draw (drawBackend sh) (Data er)) as [bothob|e]; cbn [snd]; [|exact H2].
  eapply quiet_step; [apply quiet_cache_Put|exact H2].
Qed.

Lemma quiet_getPng (sh : StudioHandler) (el : string) (st : World DB C) :
  quiet st (snd (getPng sh el st)).
Proof.
  unfold getPng.
  pose proof (quiet_cache_Get (el ++ ".png") st) as H0.
  destruct (cache_Get (el ++ ".png") st) as [cr st0]. cbn [snd] in H0.
  destruct cr as [[bothob|b]|]; cbn [snd]; [exact H0|exact H0|].
  pose proof (quiet_getPdf sh el st0) as H1.
  destruct (getPdf sh el st0) as [o st1]. cbn [snd] in H1.
  pose proof (quiet_trans _ _ _ H0 H1) as H01.
  destruct o as [bothob|he|]; cbn [snd]; [|exact H01|exact H01].
  assert (H2 : quiet st (emit (EvPdfToPng (Pdf bothob)) st1)).
  { eapply quiet_step; [apply quiet_emit; reflexivity|exact H01]. }
  destruct (pdftopng (Pdf bothob)) as [pngbytes|e]; cbn [snd]; [|exact H2].
  eapply quiet_step; [apply quiet_cache_Put|exact H2].
Qed.

Lemma quiet_respond (ctype : string) (o : outcome string) (st : World DB C) :
  quiet st (respond ctype (o, st)).
Proof.
  destruct o as [b|he|]; cbn [respond].
  - apply quiet_response.
  - apply quiet_response.
  - apply quiet_emit. reflexivity.
Qed.

Lemma quiet_handleElectionDocGET (itemid : Z) (st : World DB C) :
  quiet st (handleElectionDocGET itemid st).
Proof.
  unfold handleElectionDocGET.
  pose proof (quiet_edb_GetElection itemid st) as H0.
  destruct (edb_GetElection itemid st) as [er st0]. cbn [snd] in H0.
  destruct er as [er|e];
    (eapply quiet_step; [apply quiet_response|exact H0]).
Qed.

(** Storage frame. Of the requests [main.go] handles itself, only a POST
    to [/election] or to [/election/{id}] can write an election: every
    other one leaves the storage as it found it and makes no call of
    [PutElection], be it a read, a render, the scan form or the home page. *)
Theorem only_document_posts_write (sh : StudioHandler) (r : Request)
    (st : World DB C) :
  scan_upload r = false ->
  Method r <> "POST" \/ post_route (Path r) = None ->
  edb (serve sh r st) = edb st
  /\ forall er res, ~ In (EvPutElection er res) (log (serve sh r st)).
Proof.
  intros Hscan Hnot.
  assert (Hq : quiet (fresh st) (serve sh r st)).
  { unfold serve, ServeHTTP.
    destruct (dbfactory (dbs sh)) as [e|]; [apply quiet_response|].
    unfold post_route in Hnot. unfold scan_upload in Hscan.
    destruct (String.eqb (Path r) "/election").
    { destruct (String.eqb (Method r) "POST") eqn:Hm.
      - apply String.eqb_eq in Hm. destruct Hnot as [Hnot|Hnot]; [contradiction|discriminate].
      - apply quiet_response. }
    destruct (docPathRe (Path r)) as [el|].
    { destruct (ParseInt el) as [id|]; [|apply quiet_response].
      destruct (String.eqb (Method r) "GET"); [apply quiet_handleElectionDocGET|].
      destruct (String.eqb (Method r) "POST") eqn:Hm.
      - apply String.eqb_eq in Hm. destruct Hnot as [Hnot|Hnot]; [contradiction|discriminate].
      - apply quiet_response. }
    destruct (pdfPathRe (Path r)) as [el|].
    { pose proof (quiet_getPdf sh el (fresh st)) as H0.
      destruct (getPdf sh el (fresh st)) as [o st0]. cbn [snd] in H0.
      eapply quiet_step; [apply quiet_respond|exact H0]. }
    destruct (bubblesPathRe (Path r)) as [el|].
    { pose proof (quiet_getPdf sh el (fresh st)) as H0.
      destruct (getPdf sh el (fresh st)) as [o st0]. cbn [snd] in H0.
      eapply quiet_step; [apply quiet_respond|exact H0]. }
    destruct (pngPathRe (Path r)) as [el|].
    { pose proof (quiet_getPng sh el (fresh st)) as H0.
      destruct (getPng sh el (fresh st)) as [o st0]. cbn [snd] in H0.
      eapply quiet_step; [apply quiet_respond|exact H0]. }
    destruct (scanPathRe (Path r)) as [el|].
    { destruct (String.eqb (Method r) "POST"); [discriminate Hscan|].
      destruct (ParseInt el) as [id|]; [|apply quiet_response].
      eapply quiet_step; [apply quiet_Write|apply quiet_Header_Set]. }
    apply quiet_response. }
  destruct Hq as [Hedb Hlog]. split; [exact Hedb|].
  intros er res Hin. exact (Hlog er res Hin).
Qed.

End Frame.

(* ===================================================================== *)
(** ** Further properties of the read path                                *)
(* ===================================================================== *)

Section Read_path.

Context {DB : Type} `{!electionAppDB DB} `{!Externals}.

(** With the reference cache, an update is seen by the reads that spell
    the id as the update did. After a POST to [/election/{id}] answered
    200, a request for the PDF, the bubbles or the PNG under the same id
    string misses the cache, fetches the record the storage now holds,
    calls the draw backend once with that record's data, and is answered
    from that render. *)
Theorem fresh_render_for_same_spelling (sh : StudioHandler) (r r2 : Request)
    (st : World DB Lru.t) (el : string) (id : Z) (er : electionRecord)
    (bothob : DrawBothOb) :
  dbfactory (dbs sh) = None ->
  Method r = "POST" ->
  docPathRe (Path r) = Some el ->
  Status (w (serve sh r st)) = Some 200 ->
  ParseInt el = Some id ->
  GetElection id (edb (serve sh r st)) = Ok er ->
  draw (drawBackend sh) (Data er) = Ok bothob ->
  (forall ctype part,
     artifact_route (Path r2) = Some (el, ctype, part) ->
     w (serve sh r2 (serve sh r st)) =
       {| ContentType := Some ctype; Status := Some 200;
          Written := [Bytes (part bothob)] |}
     /\ filter is_render (log (serve sh r2 (serve sh r st)))
        = [EvDraw (drawBackend sh) (Data er)])
  /\
  (forall pngbytes,
     pngPathRe (Path r2) = Some el ->
     pdftopng (Pdf bothob) = Ok pngbytes ->
     w (serve sh r2 (serve sh r st)) =
       {| ContentType := Some "image/png"; Status := Some 200;
          Written := [Bytes pngbytes] |}
     /\ filter is_render (log (serve sh r2 (serve sh r st)))
        = [EvDraw (drawBackend sh) (Data er)]).
Proof.
  intros Hdb Hm Hre H200 Hid Her Hdraw.
  pose proof (serve_post_200 sh r st el Hdb Hm Hre H200) as Hcache.
  destruct (Lru_get_after_invalidate el (cache st)) as [Hmiss_png Hmiss].
  cbn zeta in Hmiss_png, Hmiss. rewrite <- Hcache in Hmiss_png, Hmiss.
  split.
  - intros ctype part Hroute.
    rewrite (serve_artifact_route _ _ _ _ _ _ Hdb Hroute).
    rewrite (getPdf_miss _ _ _ _ _ _ _ Hmiss Hid Her Hdraw). split; reflexivity.
  - intros pngbytes Hroute Hconv.
    rewrite (serve_png_route _ _ _ _ Hdb Hroute).
    rewrite (getPng_miss _ _ _ _ _ _ _ _ _ Hmiss_png Hmiss Hid Her Hdraw Hconv).
    split; reflexivity.
Qed.

End Read_path.

Section Read_path_any_cache.

Context {DB C : Type} `{!electionAppDB DB} `{!Cache C} `{!Externals}.

(** The PNG preview is cached on its own, under the id string with [.png]
    appended: when that key is in the cache, a request for
    [/election/{id}.png] is answered with the cached bytes, and the log of
    the request holds that one lookup and the response. *)
Theorem png_hit_bypass (sh : StudioHandler) (r : Request) (st : World DB C)
    (el pngbytes : string) (c' : C) :
  dbfactory (dbs sh) = None ->
  pngPathRe (Path r) = Some el ->
  Get (el ++ ".png") (cache st) = (Some (VBytes pngbytes), c') ->
  serve sh r st =
  reply 200 "image/png" (Bytes pngbytes) [EvCacheGet (el ++ ".png")] (edb st) c'.
Proof.
  intros Hdb Hroute Hget.
  rewrite (serve_png_route _ _ _ _ Hdb Hroute), (getPng_hit _ _ _ _ _ Hget).
  reflexivity.
Qed.

(** A GET of [/election/{id}] is answered 200 with the stored data as it
    is, or 400 with the text [no item] when the storage returns an error;
    it changes neither storage nor cache and asks for no identity. *)
Theorem read_raw_document (sh : StudioHandler) (r : Request) (st : World DB C)
    (el : string) (id : Z) :
  dbfactory (dbs sh) = None ->
  Method r = "GET" ->
  docPathRe (Path r) = Some el ->
  ParseInt el = Some id ->
  serve sh r st =
  match GetElection id (edb st) with
  | Ok er =>
      reply 200 "application/json" (Bytes (Data er)) [EvGetElection id]
        (edb st) (cache st)
  | Err _ =>
      reply 400 "text/plain" (Bytes "no item") [EvGetElection id]
        (edb st) (cache st)
  end.
Proof.
  intros Hdb Hm Hre Hid.
  rewrite (serve_doc_GET sh r st el id Hdb Hm Hre Hid).
  apply handleElectionDocGET_run.
Qed.

End Read_path_any_cache.

(* ===================================================================== *)
(** ** The type assertions of [getPdf] and [getPng] hold                  *)
(* ===================================================================== *)

Section Key_scheme.

Context {DB : Type} `{!electionAppDB DB} `{!Externals}.

Lemma all_digits_png (el : string) : all_digits (el ++ ".png") = false.
Proof.
  induction el as [|c el IH]; [reflexivity|].
  change (String c el ++ ".png") with (String c (el ++ ".png")).
  cbn [all_digits]. rewrite IH. apply andb_false_r.
Qed.

Lemma span_digits_all_digits (s d r : string) :
  span_digits s = (d, r) -> all_digits d = true.
Proof.
  revert d r. induction s as [|c s IH]; intros d r Hspan; cbn [span_digits] in Hspan.
  - injection Hspan as <- <-. reflexivity.
  - destruct (is_digit c) eqn:Hc.
    + destruct (span_digits s) as [d' r']. injection Hspan as <- <-.
      cbn [all_digits]. rewrite Hc. exact (IH _ _ eq_refl).
    + injection Hspan as <- <-. reflexivity.
Qed.

(** The group a path pattern captures is a string of digits. *)
Lemma match_election_digits (suffix path el : string) :
  match_election suffix path = Some el -> all_digits el = true.
Proof.
  unfold match_election.
  destruct (strip_prefix "/election/" path) as [rest|]; [|discriminate].
  destruct (span_digits rest) as [d r] eqn:Hspan.
  destruct d as [|c d]; [discriminate|].
  destruct (String.eqb r suffix); [|discriminate].
  intros [= <-]. exact (span_digits_all_digits _ _ _ Hspan).
Qed.

Lemma In_without (k : string) (e : Lru.entry) (es : list Lru.entry) :
  In e (Lru.without k es) -> In e es.
Proof.
  unfold Lru.without. rewrite <- !list_elem_of_In. intros [_ Hin]%list_elem_of_filter.
  exact Hin.
Qed.

Lemma In_evict (excess : Z) (e : Lru.entry) (es : list Lru.entry) :
  In e (Lru.evict excess es) -> In e es.
Proof.
  revert excess. induction es as [|e0 es IH]; intros excess; cbn [Lru.evict]; [auto|].
  destruct (0 <? excess); [|auto]. intros Hin. right. exact (IH _ Hin).
Qed.

Lemma find_some_entry (k : string) (es : list Lru.entry) (e : Lru.entry) :
  Lru.find k es = Some e -> In e es /\ Lru.key e = k.
Proof.
  unfold Lru.find. intros [Hin Hk]%find_some. apply String.eqb_eq in Hk. auto.
Qed.

Lemma well_keyed_get (k : string) (c : Lru.t) :
  well_keyed c ->
  well_keyed (snd (Get k c))
  /\ match fst (Get k c) with
     | Some (VDrawBothOb _) => all_digits k = true
     | Some (VBytes _) => all_digits k = false
     | None => True
     end.
Proof.
  intros Hc. cbn [Get Lru.cache]. unfold Lru.get.
  destruct (Lru.find k (Lru.entries c)) as [e|] eqn:Hfind; cbn [fst snd].
  - destruct (find_some_entry _ _ _ Hfind) as [Hin <-]. split.
    + intros e' [<-|Hin']; [exact (Hc _ Hin)|].
      exact (Hc _ (In_without _ _ _ Hin')).
    + exact (Hc _ Hin).
  - split; [exact Hc|exact I].
Qed.

Lemma well_keyed_put (k : string) (v : CacheValue) (size : Z) (c : Lru.t) :
  well_keyed c ->
  match v with
  | VDrawBothOb _ => all_digits k = true
  | VBytes _ => all_digits k = false
  end ->
  well_keyed (Put k v size c).
Proof.
  intros Hc Hv e [<-|Hin]; [exact Hv|].
  apply in_rev, In_evict in Hin. rewrite <- in_rev in Hin.
  exact (Hc _ (In_without _ _ _ Hin)).
Qed.

Lemma well_keyed_invalidate (k : string) (c : Lru.t) :
  well_keyed c -> well_keyed (Invalidate k c).
Proof.
  intros Hc e Hin. exact (Hc _ (In_without _ _ _ Hin)).
Qed.

Lemma sound_emit (e : Event) (st0 st : World DB Lru.t) :
  e <> EvPanic -> sound st0 st -> sound st0 (emit e st).
Proof.
  intros He [Hc Hl]. split; [exact Hc|]. cbn. intros Hin.
  apply in_app_or in Hin as [Hin|[Hin|[]]]; [auto|congruence].
Qed.

Lemma sound_set_w (rw : ResponseWriter) (st0 st : World DB Lru.t) :
  sound st0 st -> sound st0 (set_w rw st).
Proof. intros Hs. exact Hs. Qed.

Lemma sound_cache_Put (k : string) (v : CacheValue) (size : Z)
    (st0 st : World DB Lru.t) :
  match v with
  | VDrawBothOb _ => all_digits k = true
  | VBytes _ => all_digits k = false
  end ->
  sound st0 st -> sound st0 (cache_Put k v size st).
Proof.
  intros Hv [Hc Hl]. unfold cache_Put. apply sound_emit; [discriminate|].
  split; [apply well_keyed_put; assumption|exact Hl].
Qed.

Lemma sound_Header_Set (v : string) (st0 st : World DB Lru.t) :
  sound st0 st -> sound st0 (Header_Set v st).
Proof.
  intros Hs. unfold Header_Set. apply sound_emit; [discriminate|].
  destruct (Status (w st)); [exact Hs|apply sound_set_w, Hs].
Qed.

Lemma sound_WriteHeader (c : Z) (st0 st : World DB Lru.t) :
  sound st0 st -> sound st0 (WriteHeader c st).
Proof.
  intros Hs. unfold WriteHeader. apply sound_emit; [discriminate|].
  destruct (Status (w st)); [exact Hs|apply sound_set_w, Hs].
Qed.

Lemma sound_Write (p : Payload) (st0 st : World DB Lru.t) :
  sound st0 st -> sound st0 (Write p st).
Proof.
  intros Hs. unfold Write. apply sound_emit; [discriminate|]. apply sound_set_w, Hs.
Qed.

Lemma sound_response (p : Payload) (c : Z) (v : string) (st0 st : World DB Lru.t) :
  sound st0 st -> sound st0 (Write p (WriteHeader c (Header_Set v st))).
Proof.
  intros Hs. apply sound_Write, sound_WriteHeader, sound_Header_Set, Hs.
Qed.

Lemma sound_getPdf (sh : StudioHandler) (el : string) (st0 st : World DB Lru.t) :
  all_digits el = true ->
  sound st0 st ->
  sound st0 (snd (getPdf sh el st)) /\ fst (getPdf sh el st) <> Panic.
Proof.
  intros Hel [Hc Hl]. unfold getPdf, cache_Get.
  destruct (well_keyed_get el (cache st) Hc) as [Hc' Hv].
  assert (H0 : sound st0 (emit (EvCacheGet el) (set_cache (snd (Get el (cache st))) st))).
  { apply sound_emit; [discriminate|]. split; [exact Hc'|exact Hl]. }
  destruct (fst (Get el (cache st))) as [[bothob|b]|]; cbn [fst snd].
  - split; [exact H0|discriminate].
  - congruence.
  - destruct (ParseInt el) as [id|]; cbn [fst snd]; [|split; [exact H0|discriminate]].
    unfold edb_GetElection.
    assert (H1 : sound st0 (emit (EvGetElection id)
                   (emit (EvCacheGet el) (set_cache (snd (Get el (cache st))) st))))
      by (apply sound_emit; [discriminate|exact H0]).
    destruct (GetElection id _) as [er|e]; cbn [fst snd];
      [|split; [exact H1|discriminate]].
    assert (H2 : sound st0 (emit (EvDraw (drawBackend sh) (Data er))
                   (emit (EvGetElection id)
                      (emit (EvCacheGet el) (set_cache (snd (Get el (cache st))) st)))))
      by (apply sound_emit; [discriminate|exact H1]).
    destruct (draw (drawBackend sh) (Data er)) as [bothob|e]; cbn [fst snd];
      [|split; [exact H2|discriminate]].
    split; [|discriminate]. apply sound_cache_Put; [exact Hel|exact H2].
Qed.

Lemma sound_getPng (sh : StudioHandler) (el : string) (st0 st : World DB Lru.t) :
  all_digits el = true ->
  sound st0 st ->
  sound st0 (snd (getPng sh el st)) /\ fst (getPng sh el st) <> Panic.
Proof.
  intros Hel [Hc Hl]. unfold getPng, cache_Get.
  destruct (well_keyed_get (el ++ ".png") (cache st) Hc) as [Hc' Hv].
  rewrite all_digits_png in Hv.
  assert (H0 : sound st0 (emit (EvCacheGet (el ++ ".png"))
                            (set_cache (snd (Get (el ++ ".png") (cache st))) st))).
  { apply sound_emit; [discriminate|]. split; [exact Hc'|exact Hl]. }
  destruct (fst (Get (el ++ ".png") (cache st))) as [[bothob|b]|]; cbn [fst snd].
  - discriminate Hv.
  - split; [exact H0|discriminate].
  - destruct (sound_getPdf sh el st0 _ Hel H0) as [H1 Hnp].
    destruct (getPdf sh el _) as [[bothob|he|] st1]; cbn [fst snd] in *.
    + assert (H2 : sound st0 (emit (EvPdfToPng (Pdf bothob)) st1))
        by (apply sound_emit; [discriminate|exact H1]).
      destruct (pdftopng (Pdf bothob)) as [pngbytes|e]; cbn [fst snd];
        [|split; [exact H2|discriminate]].
      split; [|discriminate]. apply sound_cache_Put; [apply all_digits_png|exact H2].
    + split; [exact H1|discriminate].
    + congruence.
Qed.

Lemma sound_respond (ctype : string) (o : outcome string) (st0 st : World DB Lru.t) :
  o <> Panic -> sound st0 st -> sound st0 (respond ctype (o, st)).
Proof.
  intros Ho Hs. destruct o as [b|he|]; cbn [respond]; [| |congruence];
    apply sound_response; exact Hs.
Qed.

(** One request keeps the cache well keyed and does not panic. *)
Lemma serve_sound (sh : StudioHandler) (r : Request) (st : World DB Lru.t) :
  scan_upload r = false ->
  well_keyed (cache st) ->
  well_keyed (cache (serve sh r st)) /\ ~ In EvPanic (log (serve sh r st)).
Proof.
  intros Hscan Hc. unfold scan_upload in Hscan.
  assert (Hf : sound (fresh st) (fresh st)) by (split; [exact Hc|auto]).
  assert (Hs : sound (fresh st) (serve sh r st)).
  { unfold serve, ServeHTTP.
    destruct (dbfactory (dbs sh)) as [e|]; [apply sound_response, Hf|].
    assert (Hpost : forall itemname itemid,
              sound (fresh st)
                (handleElectionDocPOST r (AuthUser r) itemname itemid (fresh st))).
    { intros itemname itemid. rewrite handleElectionDocPOST_run.
      assert (Hreply : forall c v p lg d cc,
                well_keyed cc -> ~ In EvPanic lg ->
                sound (fresh st) (@reply DB Lru.t c v p lg d cc)).
      { intros c v p lg d cc Hcc Hlg. split; [exact Hcc|]. unfold reply. cbn [log].
        intros Hin. apply in_app_or in Hin as [Hin|Hin]; [contradiction|].
        cbn in Hin. intuition discriminate. }
      assert (Hbp : ~ In EvPanic (before_put itemid)).
      { intros Hin. apply In_before_put in Hin as [Hin|Hin]; discriminate. }
      destruct (AuthUser r) as [u|]; [|apply Hreply; [exact Hc|auto]].
      destruct (1000000 <? len (Body r));
        [apply Hreply; [exact Hc|cbn; intuition discriminate]|].
      destruct (json.Unmarshal_map (Body r)); cbn [negb];
        [|apply Hreply; [exact Hc|cbn; intuition discriminate]].
      destruct (refused itemid u (edb st)); [apply Hreply; [exact Hc|exact Hbp]|].
      cbn zeta.
      destruct (PutElection _ (edb st)) as [[newid|e] d]; apply Hreply.
      - apply well_keyed_invalidate, well_keyed_invalidate, Hc.
      - intros Hin. apply in_app_or in Hin as [Hin|Hin]; [contradiction|].
        cbn in Hin. intuition discriminate.
      - exact Hc.
      - intros Hin. apply in_app_or in Hin as [Hin|Hin]; [contradiction|].
        cbn in Hin. intuition discriminate. }
    destruct (String.eqb (Path r) "/election").
    { destruct (String.eqb (Method r) "POST"); [apply Hpost|apply sound_response, Hf]. }
    destruct (docPathRe (Path r)) as [el|].
    { destruct (ParseInt el) as [id|]; [|apply sound_response, Hf].
      destruct (String.eqb (Method r) "GET").
      - unfold handleElectionDocGET, edb_GetElection.
        destruct (GetElection id _); apply sound_response;
          (apply sound_emit; [discriminate|exact Hf]).
      - destruct (String.eqb (Method r) "POST"); [apply Hpost|apply sound_response, Hf]. }
    destruct (pdfPathRe (Path r)) as [el|] eqn:Hpdf.
    { destruct (sound_getPdf sh el _ _ (match_election_digits _ _ _ Hpdf) Hf) as [H1 Hnp].
      destruct (getPdf sh el (fresh st)) as [o st1]. cbn [fst snd] in *.
      apply sound_respond; [destruct o; cbn; congruence|exact H1]. }
    destruct (bubblesPathRe (Path r)) as [el|] eqn:Hbub.
    { destruct (sound_getPdf sh el _ _ (match_election_digits _ _ _ Hbub) Hf) as [H1 Hnp].
      destruct (getPdf sh el (fresh st)) as [o st1]. cbn [fst snd] in *.
      apply sound_respond; [destruct o; cbn; congruence|exact H1]. }
    destruct (pngPathRe (Path r)) as [el|] eqn:Hpng.
    { destruct (sound_getPng sh el _ _ (match_election_digits _ _ _ Hpng) Hf) as [H1 Hnp].
      destruct (getPng sh el (fresh st)) as [o st1]. cbn [fst snd] in *.
      apply sound_respond; [exact Hnp|exact H1]. }
    destruct (scanPathRe (Path r)) as [el|].
    { destruct (String.eqb (Method r) "POST"); [discriminate Hscan|].
      destruct (ParseInt el) as [id|]; [|apply sound_response, Hf].
      apply sound_Write, sound_Header_Set, Hf. }
    apply sound_response, Hf. }
  destruct Hs as [Hc' Hl]. split; [exact Hc'|]. intros Hin. exact (Hl Hin).
Qed.

(** The type assertions hold. Served from a cache that follows the key
    scheme (the empty cache does), no sequence of requests that [main.go]
    handles itself makes a later one panic: under a key of digits [getPdf]
    only ever finds a rendered pair, and under a key that ends in [.png]
    [getPng] only ever finds bytes. *)
Theorem type_assertions_hold (sh : StudioHandler) (rs : list Request) (r : Request)
    (st : World DB Lru.t) :
  forallb (fun q => negb (scan_upload q)) (rs ++ [r]) = true ->
  well_keyed (cache st) ->
  well_keyed (cache (serve_each sh rs st))
  /\ ~ In EvPanic (log (serve sh r (serve_each sh rs st))).
Proof.
  revert st. induction rs as [|q rs IH]; intros st Hrs Hc;
    cbn [serve_each fold_left app forallb] in *.
  - apply andb_true_iff in Hrs as [Hr _]. apply negb_true_iff in Hr.
    split; [exact Hc|]. exact (proj2 (serve_sound sh r st Hr Hc)).
  - apply andb_true_iff in Hrs as [Hq Hrs]. apply negb_true_iff in Hq.
    apply (IH (serve sh q st) Hrs). exact (proj1 (serve_sound sh q st Hq Hc)).
Qed.

End Key_scheme.

(* ===================================================================== *)
(** ** Numerals: signs, sizes and leading zeros                           *)
(* ===================================================================== *)

Section Numerals.

Lemma ParseInt_bitSize_64 (s : string) : ParseInt_bitSize s 64 = ParseInt s.
Proof. reflexivity. Qed.

(** Formatting and parsing are inverse on every value of the size, the
    negative ones included. *)
Lemma ParseInt_bitSize_FormatInt (n bitSize : Z) :
  - 10 ^ 20 < n < 10 ^ 20 ->
  - 2 ^ (bitSize - 1) <= n <= 2 ^ (bitSize - 1) - 1 ->
  ParseInt_bitSize (FormatInt n) bitSize = Some n.
Proof.
  intros Hn Hrange. unfold FormatInt.
  assert (Hok : (- 2 ^ (bitSize - 1) <=? n) && (n <=? 2 ^ (bitSize - 1) - 1) = true).
  { apply andb_true_iff. split; apply Z.leb_le; lia. }
  destruct (n <? 0) eqn:Hneg.
  - apply Z.ltb_lt in Hneg.
    assert (Hbound : 0 <= - n < 10 ^ Z.of_nat 20) by (simpl; lia).
    destruct (parse_fmt_digits 20 (- n) EmptyString Hbound) as (k & _ & Hparse).
    pose proof (fmt_digits_nonempty 19 (- n) EmptyString) as Hne.
    specialize (Hparse 0). cbn [parse_digits] in Hparse.
    replace (0 * 10 ^ k + - n) with (- n) in Hparse by lia.
    unfold ParseInt_bitSize. cbn [Ascii.eqb Bool.eqb orb].
    destruct (fmt_digits 20 (- n) EmptyString) as [|c s] eqn:Hfmt; [congruence|].
    rewrite Hparse. replace (- - n) with n by lia. rewrite Hok. reflexivity.
  - apply Z.ltb_ge in Hneg.
    assert (Hbound : 0 <= n < 10 ^ Z.of_nat 20) by (simpl; lia).
    destruct (parse_fmt_digits 20 n EmptyString Hbound) as (k & _ & Hparse).
    pose proof (fmt_digits_all_digits 20 n EmptyString ltac:(lia) eq_refl) as Hall.
    pose proof (fmt_digits_nonempty 19 n EmptyString) as Hne.
    specialize (Hparse 0). cbn [parse_digits] in Hparse.
    replace (0 * 10 ^ k + n) with n in Hparse by lia.
    destruct (fmt_digits 20 n EmptyString) as [|c s] eqn:Hfmt; [congruence|].
    unfold ParseInt_bitSize. cbn [all_digits] in Hall.
    apply andb_true_iff in Hall as [Hc _].
    destruct (is_digit_not_sign c Hc) as [-> ->]. cbn [orb].
    rewrite Hparse, Hok. reflexivity.
Qed.

Lemma ParseInt_FormatInt_signed (n : Z) :
  minInt64 <= n <= maxInt64 -> ParseInt (FormatInt n) = Some n.
Proof.
  intros Hn. rewrite <- ParseInt_bitSize_64.
  unfold minInt64, maxInt64 in Hn.
  apply ParseInt_bitSize_FormatInt; simpl; lia.
Qed.

(** Reading digits only adds to the accumulator. *)
Lemma parse_digits_all_digits (s : string) :
  forall acc, all_digits s = true -> 0 <= acc ->
    exists v, parse_digits s acc = Some v /\ acc <= v.
Proof.
  induction s as [|c s IH]; intros acc Hall Hacc.
  - exists acc. split; [reflexivity|lia].
  - cbn [all_digits] in Hall. apply andb_true_iff in Hall as [Hc Hs].
    cbn [parse_digits]. rewrite Hc.
    assert (Hd : 0 <= digit_val c).
    { unfold is_digit in Hc. apply andb_true_iff in Hc as [Hlo _].
      apply Z.leb_le in Hlo. unfold digit_val. lia. }
    destruct (IH (acc * 10 + digit_val c) Hs ltac:(lia)) as (v & Hv & Hle).
    exists v. split; [exact Hv|lia].
Qed.

(** On the digits a path pattern captures, [ParseInt] fails exactly when
    the number is beyond int64. *)
Lemma ParseInt_digits (el : string) :
  all_digits el = true -> el <> EmptyString ->
  ParseInt el = if decimal el <=? maxInt64 then Some (decimal el) else None.
Proof.
  intros Hall Hne. unfold decimal.
  destruct (parse_digits_all_digits el 0 Hall ltac:(lia)) as (v & Hv & Hpos).
  rewrite Hv. destruct el as [|c s]; [congruence|].
  unfold ParseInt. cbn [all_digits] in Hall.
  apply andb_true_iff in Hall as [Hc _].
  destruct (is_digit_not_sign c Hc) as [-> ->]. cbn [orb]. rewrite Hv.
  replace (minInt64 <=? v) with true
    by (symmetry; apply Z.leb_le; unfold minInt64; lia).
  reflexivity.
Qed.

(** What a path pattern captures is a non-empty string of digits. *)
Lemma match_election_captures (suffix path el : string) :
  match_election suffix path = Some el ->
  all_digits el = true /\ el <> EmptyString.
Proof.
  intros Hm. split; [exact (match_election_digits _ _ _ Hm)|].
  intros ->. unfold match_election in Hm.
  destruct (strip_prefix "/election/" path) as [rest|]; [|discriminate].
  destruct (span_digits rest) as [d r].
  destruct d; [discriminate|].
  destruct (String.eqb r suffix); discriminate.
Qed.

(** The path a pattern is made for: the prefix, a numeral, the suffix. *)
Lemma match_election_FormatInt (suffix : string) (n : Z) :
  0 <= n ->
  span_digits suffix = (EmptyString, suffix) ->
  match_election suffix ("/election/" ++ FormatInt n ++ suffix) = Some (FormatInt n).
Proof.
  intros Hn Hsuf. unfold match_election. rewrite strip_prefix_app.
  assert (Hspan : forall d, all_digits d = true ->
            span_digits (d ++ suffix) = (d, suffix)).
  { induction d as [|c d IH]; [intros _; exact Hsuf|].
    cbn [all_digits]. intros [Hc Hd]%andb_true_iff.
    change (String c d ++ suffix) with (String c (d ++ suffix)).
    cbn [span_digits]. rewrite Hc, (IH Hd). reflexivity. }
  unfold FormatInt. destruct (n <? 0) eqn:Hneg; [apply Z.ltb_lt in Hneg; lia|].
  rewrite Hspan by (apply fmt_digits_all_digits; [lia|reflexivity]).
  pose proof (fmt_digits_nonempty 19 n EmptyString) as Hne.
  destruct (fmt_digits 20 n EmptyString); [congruence|].
  rewrite String.eqb_refl. reflexivity.
Qed.

(** A negative numeral starts with the sign, which no pattern takes for a
    digit. *)
Lemma match_election_negative (suffix rest : string) (n : Z) :
  n < 0 -> match_election suffix ("/election/" ++ FormatInt n ++ rest) = None.
Proof.
  intros Hn. unfold match_election. rewrite strip_prefix_app.
  unfold FormatInt. apply Z.ltb_lt in Hn. rewrite Hn. reflexivity.
Qed.

End Numerals.

(* ===================================================================== *)
(** ** [strings.LastIndex] and slices                                     *)
(* ===================================================================== *)

Section Strings_facts.

Lemma append_nil_r (s : string) : s ++ "" = s.
Proof.
  induction s as [|c s IH]; [reflexivity|].
  change (String c s ++ "") with (String c (s ++ "")). rewrite IH. reflexivity.
Qed.

Lemma append_assoc (s1 s2 s3 : string) : (s1 ++ s2) ++ s3 = s1 ++ s2 ++ s3.
Proof.
  induction s1 as [|c s1 IH]; [reflexivity|].
  change ((String c s1 ++ s2) ++ s3) with (String c ((s1 ++ s2) ++ s3)).
  rewrite IH. reflexivity.
Qed.

Lemma length_append (s1 s2 : string) :
  String.length (s1 ++ s2) = (String.length s1 + String.length s2)%nat.
Proof.
  induction s1 as [|c s1 IH]; [reflexivity|].
  change (String c s1 ++ s2) with (String c (s1 ++ s2)).
  cbn [String.length]. rewrite IH. reflexivity.
Qed.

Lemma LastIndex_from_absent (s : string) :
  forall i found, all_bytes no_colon s = true ->
    LastIndex_from i found s ":" = found.
Proof.
  induction s as [|c s IH]; intros i found Hall; [reflexivity|].
  cbn [all_bytes] in Hall. apply andb_true_iff in Hall as [Hc Hs].
  unfold no_colon in Hc. apply negb_true_iff in Hc.
  cbn [LastIndex_from strip_prefix]. rewrite Ascii.eqb_sym, Hc. cbn [is_Some_b].
  apply IH. exact Hs.
Qed.

Lemma LastIndex_from_last (host port : string) :
  forall i found, all_bytes no_colon port = true ->
    LastIndex_from i found (host ++ ":" ++ port) ":" = i + len host.
Proof.
  induction host as [|c host IH]; intros i found Hport.
  - change (EmptyString ++ ":" ++ port) with (String ":" port).
    cbn [LastIndex_from strip_prefix Ascii.eqb Bool.eqb is_Some_b].
    rewrite LastIndex_from_absent by exact Hport. unfold len. simpl. lia.
  - change (String c host ++ ":" ++ port) with (String c (host ++ ":" ++ port)).
    cbn [LastIndex_from]. rewrite IH by exact Hport.
    unfold len. cbn [String.length]. lia.
Qed.

Lemma slice_from_app (host rest : string) :
  slice_from (String.length host) (host ++ rest) = Some rest.
Proof.
  induction host as [|c host IH]; [destruct rest; reflexivity|exact IH].
Qed.

(** The index [LastIndex] returns for a colon is -1 or that of a byte of
    the string. *)
Lemma LastIndex_from_bounds (s : string) :
  forall i found,
    LastIndex_from i found s ":" = found
    \/ i <= LastIndex_from i found s ":" < i + len s.
Proof.
  induction s as [|c s IH]; intros i found; [left; reflexivity|].
  cbn [LastIndex_from].
  assert (Hlen : len (String c s) = 1 + len s)
    by (unfold len; cbn [String.length]; lia).
  rewrite Hlen.
  assert (Hpos : 0 <= len s) by (unfold len; lia).
  destruct (is_Some_b (strip_prefix ":" (String c s))).
  - right. destruct (IH (i + 1) i) as [-> | H]; lia.
  - destruct (IH (i + 1) found) as [-> | H]; [left; reflexivity|right; lia].
Qed.

Lemma slice_from_in_range (n : nat) (s : string) :
  (n <= String.length s)%nat -> exists rest, slice_from n s = Some rest.
Proof.
  revert s. induction n as [|n IH]; intros s Hn; [exists s; destruct s; reflexivity|].
  destruct s as [|c s]; [simpl in Hn; lia|].
  cbn [slice_from]. apply IH. simpl in Hn. lia.
Qed.

Lemma FormatInt_no_colon (n : Z) : all_bytes no_colon (FormatInt n) = true.
Proof.
  assert (Hdig : forall s, all_digits s = true -> all_bytes no_colon s = true).
  { induction s as [|c s IH]; [reflexivity|]. cbn [all_digits all_bytes].
    intros [Hc Hs]%andb_true_iff. rewrite (IH Hs), andb_true_r.
    unfold no_colon. apply negb_true_iff, Ascii.eqb_neq. intros ->. discriminate Hc. }
  unfold FormatInt. destruct (n <? 0) eqn:Hneg.
  - apply Z.ltb_lt in Hneg. cbn [all_bytes]. apply andb_true_iff. split; [reflexivity|].
    apply Hdig, fmt_digits_all_digits; [lia|reflexivity].
  - apply Z.ltb_ge in Hneg. apply Hdig, fmt_digits_all_digits; [lia|reflexivity].
Qed.

End Strings_facts.

(* ===================================================================== *)
(** ** The dispatcher, route by route                                     *)
(* ===================================================================== *)

Section Routes.

Context {DB C : Type} `{!electionAppDB DB} `{!Cache C} `{!Externals}.

(** A complete response on a response nothing was written to. *)
Lemma response_on_fresh (p : Payload) (c : Z) (v : string) (st : World DB C) :
  w st = new_response ->
  Write p (WriteHeader c (Header_Set v st)) =
  {| edb := edb st; cache := cache st;
     w := {| ContentType := Some v; Status := Some c; Written := [p] |};
     log := log st ++ [EvHeaderSet v; EvWriteHeader c; EvWrite p] |}.
Proof.
  intros Hw. unfold Write, WriteHeader, Header_Set, emit, set_w. cbn.
  rewrite Hw. cbn. rewrite <- !app_assoc. reflexivity.
Qed.

Lemma serve_db_failure (sh : StudioHandler) (r : Request) (st : World DB C)
    (e : error) :
  dbfactory (dbs sh) = Some e ->
  serve sh r st =
  reply 500 "text/plain" (Bytes ("could not open db, " ++ e)) [] (edb st) (cache st).
Proof.
  intros Hdb. unfold serve, ServeHTTP. rewrite Hdb. reflexivity.
Qed.

Lemma serve_unknown_path (sh : StudioHandler) (r : Request) (st : World DB C) :
  dbfactory (dbs sh) = None ->
  known_path (Path r) = false ->
  serve sh r st = reply 200 "text/html" (HomePage (AuthUser r)) [] (edb st) (cache st).
Proof.
  intros Hdb Hk. unfold serve, ServeHTTP. rewrite Hdb.
  unfold known_path in Hk.
  repeat (apply orb_false_iff in Hk as [Hk ?]).
  rewrite Hk.
  destruct (docPathRe (Path r)); [discriminate|].
  destruct (pdfPathRe (Path r)); [discriminate|].
  destruct (bubblesPathRe (Path r)); [discriminate|].
  destruct (pngPathRe (Path r)); [discriminate|].
  destruct (scanPathRe (Path r)); [discriminate|].
  reflexivity.
Qed.

Lemma serve_collection (sh : StudioHandler) (r : Request) (st : World DB C) :
  dbfactory (dbs sh) = None ->
  Path r = "/election" ->
  serve sh r st =
  if String.eqb (Method r) "POST"
  then handleElectionDocPOST r (AuthUser r) "" 0 (fresh st)
  else reply 400 "application/json" (Bytes nope_json) [] (edb st) (cache st).
Proof.
  intros Hdb Hp. unfold serve, ServeHTTP. rewrite Hdb, Hp. cbn [String.eqb].
  destruct (String.eqb (Method r) "POST"); reflexivity.
Qed.

(** The document route, whatever the method. *)
Lemma serve_doc_route (sh : StudioHandler) (r : Request) (st : World DB C)
    (el : string) :
  dbfactory (dbs sh) = None ->
  docPathRe (Path r) = Some el ->
  serve sh r st =
  match ParseInt el with
  | None => reply 400 "text/plain" (Bytes "bad item") [] (edb st) (cache st)
  | Some id =>
      if String.eqb (Method r) "GET" then handleElectionDocGET id (fresh st)
      else if String.eqb (Method r) "POST"
      then handleElectionDocPOST r (AuthUser r) el id (fresh st)
      else reply 400 "application/json" (Bytes nope_json) [] (edb st) (cache st)
  end.
Proof.
  intros Hdb Hre. unfold serve, ServeHTTP.
  rewrite Hdb, (match_election_not_collection _ _ _ Hre), Hre.
  destruct (ParseInt el) as [id|]; [|reflexivity].
  destruct (String.eqb (Method r) "GET"); [reflexivity|].
  destruct (String.eqb (Method r) "POST"); reflexivity.
Qed.

(** The scan route, for every request but the upload. *)
Lemma serve_scan_form (sh : StudioHandler) (r : Request) (st : World DB C)
    (el : string) :
  dbfactory (dbs sh) = None ->
  scanPathRe (Path r) = Some el ->
  String.eqb (Method r) "POST" = false ->
  serve sh r st =
  match ParseInt el with
  | None => reply 400 "text/plain" (Bytes "bad item") [] (edb st) (cache st)
  | Some id =>
      {| edb := edb st; cache := cache st;
         w := {| ContentType := Some "text/html"; Status := Some 200;
                 Written := [ScanForm (EditContext_set EditContext_zero id)] |};
         log := [EvHeaderSet "text/html";
                 EvWrite (ScanForm (EditContext_set EditContext_zero id))] |}
  end.
Proof.
  intros Hdb Hre Hm. unfold serve, ServeHTTP.
  rewrite Hdb, (match_election_not_collection _ _ _ Hre).
  unfold docPathRe, pdfPathRe, bubblesPathRe, pngPathRe.
  rewrite (match_election_other _ "" _ _ Hre) by discriminate.
  rewrite (match_election_other _ ".pdf" _ _ Hre) by discriminate.
  rewrite (match_election_other _ "_bubbles.json" _ _ Hre) by discriminate.
  rewrite (match_election_other _ ".png" _ _ Hre) by discriminate.
  fold scanPathRe. rewrite Hre, Hm.
  destruct (ParseInt el) as [id|]; reflexivity.
Qed.

End Routes.

(* ===================================================================== *)
(** ** Further properties of the dispatcher and of the artifact routes    *)
(* ===================================================================== *)

Section Dispatch_more.

Context {DB C : Type} `{!electionAppDB DB} `{!Cache C} `{!Externals}.

(** An id of digits whose value is beyond int64 is a bad item: on the
    document route and on the scan form route such a request is answered
    400 with the text [bad item] before storage or cache are touched,
    whatever its method. *)
Theorem id_beyond_int64_is_bad_item (sh : StudioHandler) (r : Request)
    (st : World DB C) (el : string) :
  dbfactory (dbs sh) = None ->
  scan_upload r = false ->
  docPathRe (Path r) = Some el \/ scanPathRe (Path r) = Some el ->
  maxInt64 < decimal el ->
  serve sh r st =
  reply 400 "text/plain" (Bytes "bad item") [] (edb st) (cache st).
Proof.
  intros Hdb Hscan Hroute Hbig.
  assert (Hel : ParseInt el = None).
  { assert (Hcap : all_digits el = true /\ el <> EmptyString)
      by (destruct Hroute as [Hr|Hr]; exact (match_election_captures _ _ _ Hr)).
    destruct Hcap as [Hall Hne]. rewrite (ParseInt_digits el Hall Hne).
    apply Z.leb_gt in Hbig. rewrite Hbig. reflexivity. }
  destruct Hroute as [Hdoc|Hsc].
  - rewrite (serve_doc_route sh r st el Hdb Hdoc), Hel. reflexivity.
  - unfold scan_upload in Hscan. rewrite Hsc, andb_true_r in Hscan.
    rewrite (serve_scan_form sh r st el Hdb Hsc Hscan), Hel. reflexivity.
Qed.

(** The document route reads the id as a number: two requests that differ
    only in how they spell the same id (leading zeros) leave the same
    storage and get the same response; when they are not POSTs they are
    served alike in every respect. Only the cache keys an update
    invalidates follow the spelling. *)
Theorem document_route_reads_the_id_as_a_number (sh : StudioHandler)
    (r1 r2 : Request) (st : World DB C) (el1 el2 : string) :
  docPathRe (Path r1) = Some el1 ->
  docPathRe (Path r2) = Some el2 ->
  decimal el1 = decimal el2 ->
  Method r1 = Method r2 ->
  Body r1 = Body r2 ->
  AuthUser r1 = AuthUser r2 ->
  edb (serve sh r1 st) = edb (serve sh r2 st)
  /\ w (serve sh r1 st) = w (serve sh r2 st)
  /\ (Method r1 <> "POST" -> serve sh r1 st = serve sh r2 st).
Proof.
  intros Hre1 Hre2 Hval Hm Hb Hu.
  destruct (dbfactory (dbs sh)) as [e|] eqn:Hdb.
  { rewrite !(serve_db_failure sh _ st e Hdb). auto. }
  rewrite (serve_doc_route sh r1 st el1 Hdb Hre1).
  rewrite (serve_doc_route sh r2 st el2 Hdb Hre2).
  destruct (match_election_captures _ _ _ Hre1) as [Hall1 Hne1].
  destruct (match_election_captures _ _ _ Hre2) as [Hall2 Hne2].
  rewrite (ParseInt_digits el1 Hall1 Hne1), (ParseInt_digits el2 Hall2 Hne2).
  rewrite <- Hval, <- Hm.
  destruct (decimal el1 <=? maxInt64); [|auto].
  destruct (String.eqb (Method r1) "GET"); [auto|].
  destruct (String.eqb (Method r1) "POST") eqn:Hpost.
  2:{ auto. }
  rewrite !handleElectionDocPOST_run. rewrite <- Hb, <- Hu.
  split; [|split].
  - destruct (AuthUser r1) as [u|]; [|reflexivity].
    destruct (1000000 <? len (Body r1)); [reflexivity|].
    destruct (negb (json.Unmarshal_map (Body r1))); [reflexivity|].
    destruct (refused (decimal el1) u (edb st)); [reflexivity|]. cbn zeta.
    destruct (PutElection (put_record (decimal el1) u (Body r1)) (edb st))
      as [[newid|e] d]; reflexivity.
  - destruct (AuthUser r1) as [u|]; [|reflexivity].
    destruct (1000000 <? len (Body r1)); [reflexivity|].
    destruct (negb (json.Unmarshal_map (Body r1))); [reflexivity|].
    destruct (refused (decimal el1) u (edb st)); [reflexivity|]. cbn zeta.
    destruct (PutElection (put_record (decimal el1) u (Body r1)) (edb st))
      as [[newid|e] d]; reflexivity.
  - intros Hnot. apply String.eqb_eq in Hpost. contradiction.
Qed.

(** The scan form. A request to [/election/{id}/scan] that is not a POST
    is answered with the scan form for that id as HTML; the handler calls
    [WriteHeader] nowhere, so the status is the 200 of the first write. The
    election is not looked up: the form is served whether or not it
    exists, to any caller, and neither storage nor cache is touched. *)
Theorem scan_form_is_served_unchecked (sh : StudioHandler) (r : Request)
    (st : World DB C) (el : string) (id : Z) :
  dbfactory (dbs sh) = None ->
  scanPathRe (Path r) = Some el ->
  Method r <> "POST" ->
  ParseInt el = Some id ->
  serve sh r st =
  {| edb := edb st; cache := cache st;
     w := {| ContentType := Some "text/html"; Status := Some 200;
             Written := [ScanForm (EditContext_set EditContext_zero id)] |};
     log := [EvHeaderSet "text/html";
             EvWrite (ScanForm (EditContext_set EditContext_zero id))] |}.
Proof.
  intros Hdb Hre Hm Hid. apply String.eqb_neq in Hm.
  rewrite (serve_scan_form sh r st el Hdb Hre Hm), Hid. reflexivity.
Qed.

(** The artifact routes look at the path only: two requests for the same
    PDF, bubbles or PNG path are served alike whatever their method, body
    and caller; a POST or a DELETE renders and returns the artifact as a
    GET does, and no identity is asked for. *)
Theorem artifact_routes_look_at_the_path_only (sh : StudioHandler)
    (r1 r2 : Request) (st : World DB C) :
  Path r1 = Path r2 ->
  is_Some_b (artifact_route (Path r1)) || is_Some_b (pngPathRe (Path r1)) = true ->
  serve sh r1 st = serve sh r2 st.
Proof.
  intros Hp Hroute.
  destruct (dbfactory (dbs sh)) as [e|] eqn:Hdb.
  { rewrite !(serve_db_failure sh _ st e Hdb). reflexivity. }
  destruct (artifact_route (Path r1)) as [[[el ctype] part]|] eqn:Hart.
  - rewrite (serve_artifact_route sh r1 st el ctype part Hdb Hart).
    rewrite Hp in Hart.
    rewrite (serve_artifact_route sh r2 st el ctype part Hdb Hart). reflexivity.
  - cbn [is_Some_b orb] in Hroute.
    destruct (pngPathRe (Path r1)) as [el|] eqn:Hpng; [|discriminate].
    rewrite (serve_png_route sh r1 st el Hdb Hpng).
    rewrite Hp in Hpng. rewrite (serve_png_route sh r2 st el Hdb Hpng). reflexivity.
Qed.

(** The PNG from a cached pair. When the PNG is not cached but the
    rendered pair is, the PNG route converts the cached PDF: no fetch from
    storage and no call of the draw backend. A conversion that succeeds is
    stored under the PNG key with its length as size and answered 200; one
    that fails is answered 500 with the text [png fail] and stores
    nothing. *)
Theorem png_from_cached_pair (sh : StudioHandler) (r : Request) (st : World DB C)
    (el : string) (bothob : DrawBothOb) (c1 c2 : C) :
  dbfactory (dbs sh) = None ->
  pngPathRe (Path r) = Some el ->
  Get (el ++ ".png") (cache st) = (None, c1) ->
  Get el c1 = (Some (VDrawBothOb bothob), c2) ->
  serve sh r st =
  match pdftopng (Pdf bothob) with
  | Ok pngbytes =>
      reply 200 "image/png" (Bytes pngbytes)
        [EvCacheGet (el ++ ".png"); EvCacheGet el; EvPdfToPng (Pdf bothob);
         EvCachePut (el ++ ".png") (VBytes pngbytes) (len pngbytes)]
        (edb st) (Put (el ++ ".png") (VBytes pngbytes) (len pngbytes) c2)
  | Err _ =>
      reply 500 "text/plain" (Bytes "png fail")
        [EvCacheGet (el ++ ".png"); EvCacheGet el; EvPdfToPng (Pdf bothob)]
        (edb st) c2
  end.
Proof.
  intros Hdb Hroute Hpng Hget.
  rewrite (serve_png_route sh r st el Hdb Hroute).
  unfold getPng, cache_Get. cbn [fresh cache fst snd]. rewrite Hpng. cbn [fst snd].
  unfold getPdf, cache_Get. cbn [emit set_cache cache fst snd]. rewrite Hget.
  cbn [fst snd].
  destruct (pdftopng (Pdf bothob)) as [pngbytes|e]; reflexivity.
Qed.

(** How the PNG route fails when neither the PNG nor the pair is cached:
    as the PDF route does for an id that does not parse (400), an election
    that is not found (400) and a render that fails (500), after one more
    cache lookup; and with 500 and the text [png fail] when the render
    succeeds and the conversion fails. In that last case the rendered pair
    has been stored under the id string, and nothing under the PNG key. *)
Theorem png_route_failures (sh : StudioHandler) (r : Request) (st : World DB C)
    (el : string) (c1 c2 : C) :
  dbfactory (dbs sh) = None ->
  pngPathRe (Path r) = Some el ->
  Get (el ++ ".png") (cache st) = (None, c1) ->
  Get el c1 = (None, c2) ->
  let lookups := [EvCacheGet (el ++ ".png"); EvCacheGet el] in
  match ParseInt el with
  | None =>
      serve sh r st =
      reply 400 "text/plain" (Bytes "bad item") lookups (edb st) c2
  | Some id =>
      match GetElection id (edb st) with
      | Err _ =>
          serve sh r st =
          reply 400 "text/plain" (Bytes "no item")
            (lookups ++ [EvGetElection id]) (edb st) c2
      | Ok er =>
          match draw (drawBackend sh) (Data er) with
          | Err _ =>
              serve sh r st =
              reply 500 "text/plain" (Bytes "draw fail")
                (lookups ++ [EvGetElection id; EvDraw (drawBackend sh) (Data er)])
                (edb st) c2
          | Ok bothob =>
              forall e, pdftopng (Pdf bothob) = Err e ->
              let size := len (Pdf bothob) + len (BubblesJson bothob) in
              serve sh r st =
              reply 500 "text/plain" (Bytes "png fail")
                (lookups
                 ++ [EvGetElection id; EvDraw (drawBackend sh) (Data er);
                     EvCachePut el (VDrawBothOb bothob) size;
                     EvPdfToPng (Pdf bothob)])
                (edb st) (Put el (VDrawBothOb bothob) size c2)
          end
      end
  end.
Proof.
  intros Hdb Hroute Hpng Hget lookups. subst lookups.
  rewrite (serve_png_route sh r st el Hdb Hroute).
  unfold getPng, cache_Get. cbn [fresh cache fst snd]. rewrite Hpng. cbn [fst snd].
  unfold getPdf, cache_Get. cbn [emit set_cache cache fst snd]. rewrite Hget.
  cbn [fst snd].
  destruct (ParseInt el) as [id|]; [|reflexivity].
  unfold edb_GetElection. cbn [emit set_cache edb fresh].
  destruct (GetElection id (edb st)) as [er|e]; [|reflexivity].
  destruct (draw (drawBackend sh) (Data er)) as [bothob|e] eqn:Hdraw.
  - intros e Hconv. rewrite Hconv. reflexivity.
  - reflexivity.
Qed.

End Dispatch_more.

(* ===================================================================== *)
(** ** The URLs of an edit context, and the edit page                     *)
(* ===================================================================== *)

Section Edit_context.

Context {DB C : Type} `{!electionAppDB DB} `{!Cache C} `{!Externals}.

Lemma EditContext_set_nonzero (eid : Z) :
  eid <> 0 ->
  EditContext_set EditContext_zero eid =
  {| ElectionId := eid;
     PDFURL := "/election/" ++ FormatInt eid ++ ".pdf";
     BubbleJSONURL := "/election/" ++ FormatInt eid ++ "_bubbles.json";
     ScanFormURL := "/election/" ++ FormatInt eid ++ "/scan";
     PostURL := "/election/" ++ FormatInt eid;
     EditURL := "/edit/" ++ FormatInt eid;
     GETURL := "/election/" ++ FormatInt eid;
     StaticRoot := "/static" |}.
Proof.
  intros Hne. unfold EditContext_set. apply Z.eqb_neq in Hne. rewrite Hne. reflexivity.
Qed.

Lemma edit_electionid_FormatInt (eid : Z) :
  minInt64 <= eid <= maxInt64 -> edit_electionid ("/edit/" ++ FormatInt eid) = eid.
Proof.
  intros Hrange. unfold edit_electionid.
  rewrite strip_prefix_app, ParseInt_FormatInt_signed by exact Hrange. reflexivity.
Qed.

(** The URLs an edit context advertises for an election lead back to it.
    For an id above 0 each URL that [set] builds is matched by the pattern
    of its own route, the digits the pattern captures are in every case
    the same canonical numeral, and that numeral parses back to the id; so
    a client that follows these URLs reads the PDF, the bubbles and the
    scan form of the election it posts to, under the cache key that its
    posts invalidate. *)
Theorem advertised_urls_lead_back (eid : Z) :
  0 < eid <= maxInt64 ->
  let ec := EditContext_set EditContext_zero eid in
  let el := FormatInt eid in
  docPathRe (PostURL ec) = Some el
  /\ docPathRe (GETURL ec) = Some el
  /\ pdfPathRe (PDFURL ec) = Some el
  /\ bubblesPathRe (BubbleJSONURL ec) = Some el
  /\ scanPathRe (ScanFormURL ec) = Some el
  /\ ParseInt el = Some eid
  /\ edit_electionid (EditURL ec) = eid.
Proof.
  intros Hrange ec el. subst ec el.
  rewrite EditContext_set_nonzero by lia.
  cbn [PostURL GETURL PDFURL BubbleJSONURL ScanFormURL EditURL].
  assert (Hdoc : docPathRe ("/election/" ++ FormatInt eid) = Some (FormatInt eid))
    by (apply docPathRe_FormatInt; lia).
  repeat split.
  - exact Hdoc.
  - exact Hdoc.
  - apply match_election_FormatInt; [lia|reflexivity].
  - apply match_election_FormatInt; [lia|reflexivity].
  - apply match_election_FormatInt; [lia|reflexivity].
  - apply ParseInt_FormatInt. lia.
  - apply edit_electionid_FormatInt. unfold minInt64. lia.
Qed.

(** The edit page takes a negative id, the election routes do not. The
    edit handler reads the id with [ParseInt], which accepts a sign, so
    [/edit/-5] yields the context of election -5; but no election route
    matches a sign, so every election URL of that context falls through
    the dispatcher to the home page: a save from such a page is answered
    200 with HTML and stores nothing. *)
Theorem edit_page_of_negative_id_leads_nowhere (sh : StudioHandler) (r : Request)
    (st : World DB C) (eid : Z) :
  dbfactory (dbs sh) = None ->
  minInt64 <= eid < 0 ->
  let ec := EditContext_set EditContext_zero (edit_electionid ("/edit/" ++ FormatInt eid)) in
  In (Path r) [PostURL ec; GETURL ec; PDFURL ec; BubbleJSONURL ec; ScanFormURL ec] ->
  ElectionId ec = eid
  /\ serve sh r st =
     reply 200 "text/html" (HomePage (AuthUser r)) [] (edb st) (cache st).
Proof.
  intros Hdb Hrange ec Hpath. subst ec.
  rewrite edit_electionid_FormatInt in * by (unfold maxInt64; lia).
  rewrite EditContext_set_nonzero in * by lia.
  cbn [PostURL GETURL PDFURL BubbleJSONURL ScanFormURL ElectionId] in *.
  split; [reflexivity|].
  apply serve_unknown_path; [exact Hdb|].
  assert (Hnone : forall suffix rest,
            Path r = "/election/" ++ FormatInt eid ++ rest ->
            match_election suffix (Path r) = None).
  { intros suffix rest ->. apply match_election_negative. lia. }
  assert (Hshape : exists rest, Path r = "/election/" ++ FormatInt eid ++ rest).
  { destruct Hpath as [Hp|[Hp|[Hp|[Hp|[Hp|[]]]]]]; rewrite <- Hp.
    - exists "". rewrite append_nil_r. reflexivity.
    - exists "". rewrite append_nil_r. reflexivity.
    - exists ".pdf". reflexivity.
    - exists "_bubbles.json". reflexivity.
    - exists "/scan". reflexivity. }
  destruct Hshape as [rest Hp].
  unfold known_path, docPathRe, pdfPathRe, bubblesPathRe, pngPathRe, scanPathRe.
  rewrite !(Hnone _ rest Hp). cbn [is_Some_b orb].
  rewrite !orb_false_r. apply String.eqb_neq. rewrite Hp.
  unfold FormatInt. replace (eid <? 0) with true by (symmetry; apply Z.ltb_lt; lia).
  discriminate.
Qed.

End Edit_context.

Section Edit_handler.

Context {DB C : Type}.

(** Writes on a response whose header is out append to it. *)
Lemma writes_after_header (out : list string) :
  forall (st : World DB C) (c : Z),
    Status (w st) = Some c ->
    fold_left (fun st b => Write (Bytes b) st) out st =
    {| edb := edb st; cache := cache st;
       w := {| ContentType := ContentType (w st); Status := Some c;
               Written := Written (w st) ++ map Bytes out |};
       log := log st ++ map (fun b => EvWrite (Bytes b)) out |}.
Proof.
  induction out as [|b out IH]; intros st c Hst.
  - cbn [fold_left map]. rewrite !app_nil_r.
    destruct st as [d cc [ct s wr] lg]. cbn in *. subst s. reflexivity.
  - destruct st as [d cc [ct s wr] lg]. cbn in Hst. subst s.
    cbn [fold_left map]. rewrite (IH _ c) by reflexivity.
    cbn. rewrite <- !app_assoc. reflexivity.
Qed.

(** [editHandler.ServeHTTP] on a fresh response, by what the template
    does. *)
Lemma editHandler_run (edit : editHandler) (r : Request) (st : World DB C) :
  let ec := EditContext_set EditContext_zero (edit_electionid (Path r)) in
  let out := Execute_writes (t edit) ec in
  editHandler_ServeHTTP edit r (fresh st) =
  {| edb := edb st; cache := cache st;
     w := {| ContentType := Some "text/html";
             Status := match out, Execute_err (t edit) ec with
                       | _ :: _, _ => Some 200
                       | [], Some _ => Some 500
                       | [], None => None
                       end;
             Written := map Bytes out |};
     log := [EvHeaderSet "text/html"]
            ++ map (fun b => EvWrite (Bytes b)) out
            ++ match Execute_err (t edit) ec with
               | Some _ => [EvWriteHeader 500]
               | None => []
               end |}.
Proof.
  intros ec out. unfold editHandler_ServeHTTP, Template_Execute.
  fold ec. fold out.
  destruct out as [|b out].
  - cbn [fold_left map]. destruct (Execute_err (t edit) ec); reflexivity.
  - cbn [fold_left].
    rewrite (writes_after_header out _ 200) by reflexivity.
    destruct (Execute_err (t edit) ec); cbn; rewrite ?app_nil_r; reflexivity.
Qed.

(** The edit page and its status. The edit handler answers every request
    with the page template run on the context of the id in the path, as
    HTML, and touches neither storage nor cache. The client sees status
    500 only when the template fails before it has written anything; when
    it fails after the first write the status 200 is out already, the late
    [WriteHeader(500)] changes nothing, and the client gets a truncated
    page with status 200. *)
Theorem edit_page_status (edit : editHandler) (r : Request) (st : World DB C) :
  let ec := EditContext_set EditContext_zero (edit_electionid (Path r)) in
  let st' := editHandler_ServeHTTP edit r (fresh st) in
  edb st' = edb st
  /\ cache st' = cache st
  /\ ContentType (w st') = Some "text/html"
  /\ Written (w st') = map Bytes (Execute_writes (t edit) ec)
  /\ (Status (w st') = Some 500
      <-> Execute_writes (t edit) ec = [] /\ Execute_err (t edit) ec <> None)
  /\ (Execute_writes (t edit) ec <> [] -> Status (w st') = Some 200).
Proof.
  intros ec st'. subst st'. rewrite editHandler_run. fold ec. cbn.
  repeat split.
  - destruct (Execute_writes (t edit) ec); [reflexivity|discriminate].
  - destruct (Execute_writes (t edit) ec); [|discriminate].
    destruct (Execute_err (t edit) ec); discriminate.
  - intros [-> Herr]. destruct (Execute_err (t edit) ec); [reflexivity|congruence].
  - intros Hout. destruct (Execute_writes (t edit) ec); [congruence|reflexivity].
Qed.

(** The edit link leads back. For every int64 id, the negative ones
    included, a request for the edit URL that an edit context advertises
    for the id is answered with the page of that same context; for id 0,
    whose context has no edit URL, the empty path yields the context of a
    new election again. *)
Theorem edit_link_leads_back (edit : editHandler) (r : Request) (st : World DB C)
    (eid : Z) :
  minInt64 <= eid <= maxInt64 ->
  Path r = EditURL (EditContext_set EditContext_zero eid) ->
  edit_electionid (Path r) = eid
  /\ Written (w (editHandler_ServeHTTP edit r (fresh st)))
     = map Bytes (Execute_writes (t edit) (EditContext_set EditContext_zero eid)).
Proof.
  intros Hrange Hp.
  assert (Hid : edit_electionid (Path r) = eid).
  { rewrite Hp. destruct (Z.eq_dec eid 0) as [->|Hne]; [reflexivity|].
    rewrite EditContext_set_nonzero by exact Hne. cbn [EditURL].
    apply edit_electionid_FormatInt. exact Hrange. }
  split; [exact Hid|].
  rewrite editHandler_run. cbn. rewrite Hid. reflexivity.
Qed.

End Edit_handler.

(* ===================================================================== *)
(** ** The port of the listen address                                     *)
(* ===================================================================== *)

Section Listen_address.

(** [addrGetPort] reads the port off an address of the form host:port,
    whatever the host (an IPv6 literal with its colons included), for
    every port that [ParseInt] with size 32 accepts: it does not check
    that the number is a valid port, so a negative one is returned as it
    is. *)
Theorem addrGetPort_reads_the_port (host : string) (port : Z) :
  - 2 ^ 31 <= port <= 2 ^ 31 - 1 ->
  addrGetPort (host ++ ":" ++ FormatInt port) = Some port.
Proof.
  intros Hrange. unfold addrGetPort, LastIndex.
  rewrite LastIndex_from_last by apply FormatInt_no_colon.
  assert (Hlen : 0 <= len host) by (unfold len; lia).
  replace (0 + len host <? 0) with false by (symmetry; apply Z.ltb_ge; lia).
  replace (Z.to_nat (0 + len host + 1)) with (String.length (host ++ ":"))
    by (unfold len; rewrite length_append; simpl; lia).
  replace (host ++ ":" ++ FormatInt port) with ((host ++ ":") ++ FormatInt port)
    by (rewrite append_assoc; reflexivity).
  rewrite slice_from_app.
  rewrite ParseInt_bitSize_FormatInt; [reflexivity| |exact Hrange].
  simpl in *. lia.
Qed.

(** [addrGetPort] never panics and never returns a number outside int32:
    the slice after the last colon is always in range, and an address
    without a colon, or with anything after the last colon that is not a
    numeral of 32 bits, yields the default 80. *)
Theorem addrGetPort_always_answers (listenAddr : string) :
  exists v,
    addrGetPort listenAddr = Some v
    /\ - 2 ^ 31 <= v <= 2 ^ 31 - 1
    /\ (all_bytes no_colon listenAddr = true -> v = 80).
Proof.
  unfold addrGetPort, LastIndex.
  destruct (LastIndex_from_bounds listenAddr 0 (-1)) as [Hnone|Hin].
  - rewrite Hnone. exists 80. cbn. repeat split; lia.
  - destruct (LastIndex_from 0 (-1) listenAddr ":" <? 0) eqn:Hneg.
    { exists 80. repeat split; lia. }
    destruct (slice_from_in_range
                (Z.to_nat (LastIndex_from 0 (-1) listenAddr ":" + 1)) listenAddr)
      as [rest Hrest]; [unfold len in Hin; lia|].
    rewrite Hrest.
    assert (Hall : all_bytes no_colon listenAddr = true -> False).
    { intros Hall. rewrite (LastIndex_from_absent listenAddr 0 (-1) Hall) in Hin. lia. }
    destruct (ParseInt_bitSize rest 32) as [v|] eqn:Hparse.
    + exists v. split; [reflexivity|]. split; [|intros Hc; destruct (Hall Hc)].
      unfold ParseInt_bitSize in Hparse.
      destruct rest as [|c rest']; [discriminate|].
      destruct (if Ascii.eqb c "-" || Ascii.eqb c "+" then rest' else String c rest');
        [discriminate|].
      destruct (parse_digits _ 0) as [un|]; [|discriminate].
      destruct ((- 2 ^ (32 - 1) <=? (if Ascii.eqb c "-" then - un else un))
                && ((if Ascii.eqb c "-" then - un else un) <=? 2 ^ (32 - 1) - 1))
        eqn:Hok; [|discriminate].
      injection Hparse as <-. apply andb_true_iff in Hok as [Hlo Hhi].
      apply Z.leb_le in Hlo, Hhi. simpl in *. lia.
    + exists 80. split; [reflexivity|]. split; [lia|intros Hc; destruct (Hall Hc)].
Qed.

End Listen_address.

(* ===================================================================== *)
(** ** The encodings of the edit context                                  *)
(* ===================================================================== *)

Section Encodings.

Lemma upperhex_at_safe (n : Z) : query_safe (upperhex_at n) = true.
Proof.
  unfold upperhex_at.
  destruct (Z.to_nat n) as [|[|[|[|[|[|[|[|[|[|[|[|[|[|[|[|k]]]]]]]]]]]]]]]];
    reflexivity.
Qed.

Lemma QueryEscape_safe (s : string) : all_bytes query_safe (QueryEscape s) = true.
Proof.
  induction s as [|c s IH]; [reflexivity|].
  cbn [QueryEscape].
  destruct (shouldEscape c) eqn:Hesc.
  - destruct (Ascii.eqb c " ").
    + cbn [all_bytes]. rewrite IH. reflexivity.
    + cbn [all_bytes]. rewrite !upperhex_at_safe, IH. reflexivity.
  - cbn [all_bytes]. rewrite IH. unfold query_safe. rewrite Hesc. reflexivity.
Qed.

(** [JsonAttr] yields an attribute-safe string. For the context [set]
    builds for any id, which is every context the file builds, each byte
    of what [JsonAttr] returns is a letter, a digit, one of [-_.~], or the
    percent or plus sign of an escape: no quote, angle bracket, ampersand
    or space of the JSON comes through. *)
Theorem JsonAttr_is_attribute_safe (eid : Z) :
  all_bytes query_safe (EditContext_JsonAttr (EditContext_set EditContext_zero eid))
  = true.
Proof.
  unfold EditContext_JsonAttr, Marshal_EditContext. apply QueryEscape_safe.
Qed.

End Encodings.

(* ===================================================================== *)
(** ** The JSON of an edit context                                        *)
(* ===================================================================== *)

Section Context_json.

Import json.

Lemma scan_bytes_app (a b : string) :
  forall s,
    scan_bytes s (a ++ b)
    = match scan_bytes s a with
      | Some s' => scan_bytes s' b
      | None => None
      end.
Proof.
  induction a as [|c a IH]; intros s; [reflexivity|].
  change (String c a ++ b) with (String c (a ++ b)). cbn [scan_bytes].
  destruct (scan_step s c); [apply IH|reflexivity].
Qed.

Lemma is_digit_cases (c : ascii) :
  is_digit c = true ->
  c = "0"%char \/ c = "1"%char \/ c = "2"%char \/ c = "3"%char \/ c = "4"%char
  \/ c = "5"%char \/ c = "6"%char \/ c = "7"%char \/ c = "8"%char \/ c = "9"%char.
Proof.
  destruct c as [[] [] [] [] [] [] [] []]; intros Hc;
    try discriminate Hc; auto 10.
Qed.

(** Inside a string literal the scanner reads a digit and goes on. *)
Lemma scan_digits_in_string (ps : list ParseState) (et : bool) (ds : string) :
  all_digits ds = true ->
  scan_bytes (Scanner stateInString ps et) ds = Some (Scanner stateInString ps et).
Proof.
  induction ds as [|c ds IH]; [reflexivity|].
  cbn [all_digits]. intros [Hc Hds]%andb_true_iff. cbn [scan_bytes].
  assert (Hstep : scan_step (Scanner stateInString ps et) c
                  = Some (Scanner stateInString ps et)).
  { destruct (is_digit_cases c Hc) as [->|[->|[->|[->|[->|[->|[->|[->|[->| ->]]]]]]]]];
      reflexivity. }
  rewrite Hstep. exact (IH Hds).
Qed.

(** After the first digit of a number the scanner reads digits and stays
    where it is. *)
Lemma scan_digits_in_number (ps : list ParseState) (et : bool) (ds : string) :
  all_digits ds = true ->
  scan_bytes (Scanner state1 ps et) ds = Some (Scanner state1 ps et).
Proof.
  induction ds as [|c ds IH]; [reflexivity|].
  cbn [all_digits]. intros [Hc Hds]%andb_true_iff. cbn [scan_bytes].
  assert (Hstep : scan_step (Scanner state1 ps et) c = Some (Scanner state1 ps et)).
  { unfold scan_step. cbn [step]. rewrite Hc. reflexivity. }
  rewrite Hstep. exact (IH Hds).
Qed.

(** The numeral of a number above 0 starts with a digit other than 0. *)
Lemma fmt_digits_leading (fuel : nat) :
  forall (n : Z) (acc : string),
    0 < n < 10 ^ Z.of_nat fuel ->
    all_digits acc = true ->
    exists c rest,
      fmt_digits fuel n acc = String c rest
      /\ is_digit c = true /\ c <> "0"%char /\ all_digits rest = true.
Proof.
  induction fuel as [|fuel IH]; intros n acc Hn Hacc.
  - change (10 ^ Z.of_nat 0) with 1 in Hn. lia.
  - cbn [fmt_digits].
    assert (Hmod : 0 <= n mod 10 < 10) by (apply Z.mod_pos_bound; lia).
    destruct (digit_char_spec (n mod 10) Hmod) as [Hdig Hval].
    destruct (n <? 10) eqn:Hlt.
    + apply Z.ltb_lt in Hlt. exists (digit_char (n mod 10)), acc.
      repeat split; [exact Hdig| |exact Hacc].
      intros H0. rewrite H0 in Hval. rewrite Z.mod_small in Hval by lia.
      change (digit_val "0") with 0 in Hval. lia.
    + apply Z.ltb_ge in Hlt. apply IH.
      * split; [apply Z.div_str_pos; lia|].
        apply Z.div_lt_upper_bound; [lia|].
        replace (10 * 10 ^ Z.of_nat fuel) with (10 ^ Z.of_nat (S fuel)); [lia|].
        rewrite Nat2Z.inj_succ, Z.pow_succ_r by lia. reflexivity.
      * cbn [all_digits]. rewrite Hdig. exact Hacc.
Qed.

(** A numeral, where the scanner expects a value. *)
Lemma scan_numeral (ps : list ParseState) (et : bool) (n : Z) :
  n <> 0 -> - 10 ^ 20 < n < 10 ^ 20 ->
  scan_bytes (Scanner stateBeginValue ps et) (FormatInt n)
  = Some (Scanner state1 ps et).
Proof.
  intros Hne Hn.
  assert (Hpos : forall m, 0 < m < 10 ^ 20 ->
            forall st0, st0 = stateBeginValue \/ st0 = stateNeg ->
            scan_bytes (Scanner st0 ps et) (fmt_digits 20 m EmptyString)
            = Some (Scanner state1 ps et)).
  { intros m Hm st0 Hst0.
    destruct (fmt_digits_leading 20 m EmptyString) as (c & rest & -> & Hc & Hnz & Hrest);
      [simpl; lia|reflexivity|].
    cbn [scan_bytes].
    assert (Hstep : scan_step (Scanner st0 ps et) c = Some (Scanner state1 ps et)).
    { destruct (is_digit_cases c Hc)
        as [->|[->|[->|[->|[->|[->|[->|[->|[->| ->]]]]]]]]];
        try congruence; destruct Hst0 as [-> | ->]; reflexivity. }
    rewrite Hstep. apply scan_digits_in_number. exact Hrest. }
  unfold FormatInt. destruct (n <? 0) eqn:Hneg.
  - apply Z.ltb_lt in Hneg. cbn [scan_bytes].
    change (scan_step (Scanner stateBeginValue ps et) "-")
      with (Some (Scanner stateNeg ps et)).
    apply Hpos; [lia|right; reflexivity].
  - apply Z.ltb_ge in Hneg. apply Hpos; [lia|left; reflexivity].
Qed.

(** Inside a string literal, a numeral with its sign. *)
Lemma scan_numeral_in_string (ps : list ParseState) (et : bool) (n : Z) :
  scan_bytes (Scanner stateInString ps et) (FormatInt n)
  = Some (Scanner stateInString ps et).
Proof.
  unfold FormatInt. destruct (n <? 0) eqn:Hneg.
  - apply Z.ltb_lt in Hneg. cbn [scan_bytes].
    change (scan_step (Scanner stateInString ps et) "-")
      with (Some (Scanner stateInString ps et)).
    apply scan_digits_in_string, fmt_digits_all_digits; [lia|reflexivity].
  - apply Z.ltb_ge in Hneg.
    apply scan_digits_in_string, fmt_digits_all_digits; [lia|reflexivity].
Qed.

Lemma eqb_app_nonempty (c : ascii) (s rest : string) :
  String.eqb (String c s ++ rest) "" = false.
Proof. reflexivity. Qed.

(** The scanner's way through the JSON of the context of an election:
    the numeral once as a number, six times inside a string. *)
Lemma scan_context_json (F : string) :
  (forall ps et, scan_bytes (Scanner stateBeginValue ps et) F
                 = Some (Scanner state1 ps et)) ->
  (forall ps et, scan_bytes (Scanner stateInString ps et) F
                 = Some (Scanner stateInString ps et)) ->
  scan_bytes (Scanner stateBeginValue [] false)
    ("{" ++ String.concat ","
       [quoted "itemid" ++ ":" ++ F;
        quoted "pdf" ++ ":" ++ quoted ("/election/" ++ F ++ ".pdf");
        quoted "bubbles" ++ ":" ++ quoted ("/election/" ++ F ++ "_bubbles.json");
        quoted "scan" ++ ":" ++ quoted ("/election/" ++ F ++ "/scan");
        quoted "post" ++ ":" ++ quoted ("/election/" ++ F);
        quoted "edit" ++ ":" ++ quoted ("/edit/" ++ F);
        quoted "url" ++ ":" ++ quoted ("/election/" ++ F);
        quoted "staticroot" ++ ":" ++ quoted "/static"]
     ++ "}")
  = Some (Scanner stateEndTop [] true).
Proof.
  intros Hnum Hstr. unfold quoted. cbn [String.concat].
  rewrite ?append_assoc.
  repeat first
    [ rewrite scan_bytes_app
    | rewrite Hnum
    | rewrite Hstr
    | match goal with
      | |- context [scan_bytes (Scanner ?st ?ps ?et) ?lit] =>
          lazymatch lit with
          | context [F] => fail
          | _ =>
              let v := eval vm_compute in (scan_bytes (Scanner st ps et) lit) in
              change (scan_bytes (Scanner st ps et) lit) with v
          end
      end
    | progress cbv iota beta ].
  reflexivity.
Qed.

(** The JSON of an edit context is JSON. What [json.Marshal] makes of the
    context [set] builds for any int64 id, which is the body of the 200
    response to a POST and what [Json] hands to the page template, passes
    the scanner that the handlers run over request bodies, and its top
    level value is an object. *)
Theorem context_json_is_valid (eid : Z) :
  minInt64 <= eid <= maxInt64 ->
  let out := EditContext_Json (EditContext_set EditContext_zero eid) in
  Valid out = true /\ top_kind out = Some KObject.
Proof.
  intros Hrange out. subst out.
  unfold EditContext_Json, Marshal_EditContext.
  destruct (Z.eq_dec eid 0) as [->|Hne]; [split; vm_compute; reflexivity|].
  rewrite EditContext_set_nonzero by exact Hne.
  unfold EditContext_json, json_member.
  cbn [ElectionId PDFURL BubbleJSONURL ScanFormURL PostURL EditURL GETURL StaticRoot].
  rewrite !eqb_app_nonempty. cbn [andb app String.eqb].
  split; [|reflexivity].
  unfold Valid. rewrite scan_context_json; [reflexivity| |].
  - intros ps et. apply scan_numeral; [exact Hne|].
    unfold minInt64, maxInt64 in Hrange. simpl. lia.
  - intros ps et. apply scan_numeral_in_string.
Qed.

End Context_json.

(* ===================================================================== *)
(** ** Every request, route by route                                      *)
(* ===================================================================== *)

Section Every_request.

Context {DB C : Type} `{!electionAppDB DB} `{!Cache C} `{!Externals}.

(** [getPdf] at any state, as one case analysis: what the cache holds,
    whether the id parses, what the storage and the draw backend answer. *)
Lemma getPdf_run (sh : StudioHandler) (el : string) (st : World DB C) :
  getPdf sh el st =
  let at_ (c : C) (lg : list Event) : World DB C :=
    {| edb := edb st; cache := c; w := w st; log := log st ++ lg |} in
  match Get el (cache st) with
  | (Some (VDrawBothOb bothob), c') => (Return bothob, at_ c' [EvCacheGet el])
  | (Some (VBytes _), c') => (Panic, at_ c' [EvCacheGet el])
  | (None, c') =>
      match ParseInt el with
      | None =>
          (Fail {| code := 400; msg := "bad item"; err := "strconv.ParseInt" |},
           at_ c' [EvCacheGet el])
      | Some id =>
          match GetElection id (edb st) with
          | Err e =>
              (Fail {| code := 400; msg := "no item"; err := e |},
               at_ c' [EvCacheGet el; EvGetElection id])
          | Ok er =>
              match draw (drawBackend sh) (Data er) with
              | Err e =>
                  (Fail {| code := 500; msg := "draw fail"; err := e |},
                   at_ c' [EvCacheGet el; EvGetElection id;
                           EvDraw (drawBackend sh) (Data er)])
              | Ok bothob =>
                  let size := len (Pdf bothob) + len (BubblesJson bothob) in
                  (Return bothob,
                   at_ (Put el (VDrawBothOb bothob) size c')
                     [EvCacheGet el; EvGetElection id;
                      EvDraw (drawBackend sh) (Data er);
                      EvCachePut el (VDrawBothOb bothob) size])
              end
          end
      end
  end.
Proof.
  unfold getPdf, cache_Get. cbn zeta.
  destruct (Get el (cache st)) as [[[bothob|b]|] c']; cbn [fst snd]; try reflexivity.
  destruct (ParseInt el) as [id|]; [|reflexivity].
  unfold edb_GetElection. cbn [emit set_cache edb].
  destruct (GetElection id (edb st)) as [er|e].
  2:{ unfold emit, set_cache. cbn [edb cache w log]. rewrite <- ?app_assoc. reflexivity. }
  destruct (draw (drawBackend sh) (Data er)) as [bothob|e];
    unfold cache_Put, emit, set_cache; cbn [edb cache w log];
    rewrite <- ?app_assoc; reflexivity.
Qed.

(** The end of an artifact route on a response nothing was written to. *)
Lemma respond_run (ctype : string) (o : outcome string) (st : World DB C) :
  w st = new_response ->
  respond ctype (o, st) =
  match o with
  | Return b =>
      {| edb := edb st; cache := cache st;
         w := {| ContentType := Some ctype; Status := Some 200; Written := [Bytes b] |};
         log := log st ++ [EvHeaderSet ctype; EvWriteHeader 200; EvWrite (Bytes b)] |}
  | Fail he =>
      {| edb := edb st; cache := cache st;
         w := {| ContentType := Some "text/plain"; Status := Some (code he);
                 Written := [Bytes (msg he)] |};
         log := log st ++ [EvHeaderSet "text/plain"; EvWriteHeader (code he);
                           EvWrite (Bytes (msg he))] |}
  | Panic =>
      {| edb := edb st; cache := cache st; w := new_response;
         log := log st ++ [EvPanic] |}
  end.
Proof.
  intros Hw. destruct o as [b|he|]; cbn [respond].
  - apply response_on_fresh. exact Hw.
  - unfold maybeerr. apply response_on_fresh. exact Hw.
  - unfold emit. rewrite Hw. reflexivity.
Qed.

(** A property holds of every request the file handles itself when it
    holds at the end of each route. *)
Lemma serve_by_route (sh : StudioHandler) (r : Request) (st : World DB C)
    (P : World DB C -> Prop) :
  scan_upload r = false ->
  dbfactory (dbs sh) = None ->
  (forall itemname itemid,
     Method r = "POST" ->
     post_route (Path r) = Some (itemname, itemid) ->
     P (handleElectionDocPOST r (AuthUser r) itemname itemid (fresh st))) ->
  (forall id, P (handleElectionDocGET id (fresh st))) ->
  P (reply 400 "application/json" (Bytes nope_json) [] (edb st) (cache st)) ->
  P (reply 400 "text/plain" (Bytes "bad item") [] (edb st) (cache st)) ->
  (forall el ctype part,
     artifact_route (Path r) = Some (el, ctype, part) ->
     P (respond ctype (outcome_map part (fst (getPdf sh el (fresh st))),
                       snd (getPdf sh el (fresh st))))) ->
  (forall el,
     pngPathRe (Path r) = Some el ->
     P (respond "image/png" (getPng sh el (fresh st)))) ->
  (forall id, P (scan_form_world id st)) ->
  P (reply 200 "text/html" (HomePage (AuthUser r)) [] (edb st) (cache st)) ->
  P (serve sh r st).
Proof.
  intros Hscan Hdb Hpost Hget Hnope Hbad Hart Hpng Hform Hhome.
  destruct (String.eqb (Path r) "/election") eqn:Hcoll.
  { apply String.eqb_eq in Hcoll. rewrite (serve_collection sh r st Hdb Hcoll).
    destruct (String.eqb (Method r) "POST") eqn:Hm; [|exact Hnope].
    apply Hpost; [apply String.eqb_eq; exact Hm|].
    unfold post_route. rewrite Hcoll. reflexivity. }
  destruct (docPathRe (Path r)) as [el|] eqn:Hdoc.
  { rewrite (serve_doc_route sh r st el Hdb Hdoc).
    destruct (ParseInt el) as [id|] eqn:Hid; [|exact Hbad].
    destruct (String.eqb (Method r) "GET"); [apply Hget|].
    destruct (String.eqb (Method r) "POST") eqn:Hm; [|exact Hnope].
    apply Hpost; [apply String.eqb_eq; exact Hm|].
    unfold post_route. rewrite Hcoll, Hdoc, Hid. reflexivity. }
  destruct (artifact_route (Path r)) as [[[el ctype] part]|] eqn:Hroute.
  { rewrite (serve_artifact_route sh r st el ctype part Hdb Hroute).
    apply (Hart el ctype part). reflexivity. }
  destruct (pngPathRe (Path r)) as [el|] eqn:Hp.
  { rewrite (serve_png_route sh r st el Hdb Hp). apply Hpng. reflexivity. }
  destruct (scanPathRe (Path r)) as [el|] eqn:Hsc.
  { unfold scan_upload in Hscan. rewrite Hsc, andb_true_r in Hscan.
    rewrite (serve_scan_form sh r st el Hdb Hsc Hscan).
    destruct (ParseInt el) as [id|]; [apply Hform|exact Hbad]. }
  rewrite (serve_unknown_path sh r st Hdb); [exact Hhome|].
  unfold known_path. rewrite Hcoll, Hdoc, Hp, Hsc.
  unfold artifact_route in Hroute.
  destruct (pdfPathRe (Path r)); [discriminate|].
  destruct (bubblesPathRe (Path r)); [discriminate|]. reflexivity.
Qed.

(** [getPng] on a fresh response, as one case analysis. *)
Lemma getPng_run (sh : StudioHandler) (el : string) (st : World DB C) :
  getPng sh el (fresh st) =
  let pngkey := el ++ ".png" in
  let at_ (c : C) (lg : list Event) : World DB C :=
    {| edb := edb st; cache := c; w := new_response; log := lg |} in
  let convert (bothob : DrawBothOb) (c : C) (lg : list Event) :=
    match pdftopng (Pdf bothob) with
    | Ok pngbytes =>
        (Return pngbytes,
         at_ (Put pngkey (VBytes pngbytes) (len pngbytes) c)
           (lg ++ [EvPdfToPng (Pdf bothob);
                   EvCachePut pngkey (VBytes pngbytes) (len pngbytes)])%list)
    | Err e =>
        (Fail {| code := 500; msg := "png fail"; err := e |},
         at_ c (lg ++ [EvPdfToPng (Pdf bothob)])%list)
    end in
  match Get pngkey (cache st) with
  | (Some (VBytes pngbytes), c1) => (Return pngbytes, at_ c1 [EvCacheGet pngkey])
  | (Some (VDrawBothOb _), c1) => (Panic, at_ c1 [EvCacheGet pngkey])
  | (None, c1) =>
      match Get el c1 with
      | (Some (VDrawBothOb bothob), c2) =>
          convert bothob c2 [EvCacheGet pngkey; EvCacheGet el]
      | (Some (VBytes _), c2) => (Panic, at_ c2 [EvCacheGet pngkey; EvCacheGet el])
      | (None, c2) =>
          match ParseInt el with
          | None =>
              (Fail {| code := 400; msg := "bad item"; err := "strconv.ParseInt" |},
               at_ c2 [EvCacheGet pngkey; EvCacheGet el])
          | Some id =>
              match GetElection id (edb st) with
              | Err e =>
                  (Fail {| code := 400; msg := "no item"; err := e |},
                   at_ c2 [EvCacheGet pngkey; EvCacheGet el; EvGetElection id])
              | Ok er =>
                  match draw (drawBackend sh) (Data er) with
                  | Err e =>
                      (Fail {| code := 500; msg := "draw fail"; err := e |},
                       at_ c2 [EvCacheGet pngkey; EvCacheGet el; EvGetElection id;
                               EvDraw (drawBackend sh) (Data er)])
                  | Ok bothob =>
                      let size := len (Pdf bothob) + len (BubblesJson bothob) in
                      convert bothob (Put el (VDrawBothOb bothob) size c2)
                        [EvCacheGet pngkey; EvCacheGet el; EvGetElection id;
                         EvDraw (drawBackend sh) (Data er);
                         EvCachePut el (VDrawBothOb bothob) size]
                  end
              end
          end
      end
  end.
Proof.
  unfold getPng, cache_Get. cbn zeta. cbn [fresh cache fst snd].
  destruct (Get (el ++ ".png") (cache st)) as [[[bothob|b]|] c1]; cbn [fst snd];
    try reflexivity.
  rewrite getPdf_run. cbn zeta. cbn [emit set_cache edb cache w log fresh].
  destruct (Get el c1) as [[[bothob|b]|] c2].
  - destruct (pdftopng (Pdf bothob)); reflexivity.
  - reflexivity.
  - destruct (ParseInt el) as [id|]; [|reflexivity].
    destruct (GetElection id (edb st)) as [er|e]; [|reflexivity].
    destruct (draw (drawBackend sh) (Data er)) as [bothob|e]; [|reflexivity].
    destruct (pdftopng (Pdf bothob)); reflexivity.
Qed.











End Every_request.

(* ===================================================================== *)
(** ** The reference implementations keep their contracts                 *)
(* ===================================================================== *)

Section Reference_contracts.

(** The reference storage keeps the storage contract. *)
#[global] Instance MemDB_contract : StorageContract MemDB.t.
Proof.
  split.
  - intros id db er. cbn [GetElection MemDB.db table MemDB_model]. unfold MemDB.get.
    destruct (MemDB.reachable db); [|discriminate].
    destruct (MemDB.rows db !! id); [|discriminate]. intros [= ->]. reflexivity.
  - intros er db db' res. cbn [PutElection MemDB.db consistent MemDB_model].
    unfold MemDB.put. destruct (negb (MemDB.reachable db)); [intros [= <- <-]; auto|].
    destruct (Id er =? 0); intros [= <- <-] Hc id er'; cbn [MemDB.rows MemDB.lastid].
    + intros Hrow. rewrite lookup_insert in Hrow.
      destruct (decide (MemDB.lastid db + 1 = id)) as [<-|Hne]; [lia|].
      pose proof (Hc _ _ Hrow). lia.
    + intros Hrow. rewrite lookup_alter in Hrow.
      destruct (decide (Id er = id)) as [<-|Hne]; [|exact (Hc _ _ Hrow)].
      destruct (MemDB.rows db !! Id er) as [er0|] eqn:Hrow0; [|discriminate].
      exact (Hc _ _ Hrow0).
  - intros er db db' e. cbn [PutElection MemDB.db]. unfold MemDB.put.
    destruct (negb (MemDB.reachable db)); [intros [= _ <-]; reflexivity|].
    destruct (Id er =? 0); discriminate.
  - intros er db db' newid. cbn [PutElection MemDB.db table MemDB_model].
    unfold MemDB.put. destruct (negb (MemDB.reachable db)); [discriminate|].
    intros Hput Hne. apply Z.eqb_neq in Hne. rewrite Hne in Hput.
    injection Hput as <- <-. intros id Hid. cbn [MemDB.rows].
    apply lookup_alter_ne. congruence.
  - intros er db db' newid. cbn [PutElection MemDB.db table consistent MemDB_model].
    unfold MemDB.put. destruct (negb (MemDB.reachable db)); [discriminate|].
    intros Hput Hz Hc. apply Z.eqb_eq in Hz. rewrite Hz in Hput.
    injection Hput as <- <-. split.
    + destruct (MemDB.rows db !! (MemDB.lastid db + 1)) as [er0|] eqn:Hrow;
        [|reflexivity].
      pose proof (Hc _ _ Hrow). lia.
    + intros id Hid. cbn [MemDB.rows]. apply lookup_insert_ne. congruence.
Qed.

Lemma find_without (k k' : string) (es : list Lru.entry) :
  k' <> k -> Lru.find k' (Lru.without k es) = Lru.find k' es.
Proof.
  intros Hne. unfold Lru.find, Lru.without.
  induction es as [|e es IH]; [reflexivity|].
  rewrite filter_cons. cbn [List.find].
  destruct (decide (Lru.key e ≠ k)) as [Hk|Hk].
  - cbn [List.find]. destruct (String.eqb (Lru.key e) k'); [reflexivity|exact IH].
  - destruct (String.eqb (Lru.key e) k') eqn:Heq; [|exact IH].
    apply String.eqb_eq in Heq. exfalso. apply Hk. congruence.
Qed.

Lemma find_without_same (k : string) (es : list Lru.entry) :
  Lru.find k (Lru.without k es) = None.
Proof.
  destruct (Lru.find k (Lru.without k es)) as [e|] eqn:Hfind; [|reflexivity].
  destruct (find_some_entry _ _ _ Hfind) as [Hin Hk].
  unfold Lru.without in Hin. rewrite <- list_elem_of_In in Hin.
  apply list_elem_of_filter in Hin as [Hne _]. contradiction.
Qed.

Lemma find_app_l (k : string) (es es' : list Lru.entry) (e : Lru.entry) :
  Lru.find k es = Some e -> Lru.find k (es ++ es')%list = Some e.
Proof.
  unfold Lru.find. induction es as [|e0 es IH]; [discriminate|].
  cbn [List.find app]. destruct (String.eqb (Lru.key e0) k); [auto|exact IH].
Qed.

(** Eviction drops entries from the least recently used end. *)
Lemma evict_suffix (excess : Z) (es : list Lru.entry) :
  exists dropped, es = (dropped ++ Lru.evict excess es)%list.
Proof.
  revert excess. induction es as [|e es IH]; intros excess; cbn [Lru.evict].
  - exists []. reflexivity.
  - destruct (0 <? excess); [|exists []; reflexivity].
    destruct (IH (excess - Lru.sizeBytes e)) as [dropped Hd].
    exists (e :: dropped). cbn [app]. f_equal. exact Hd.
Qed.

Lemma find_after_evict (k : string) (excess : Z) (es : list Lru.entry)
    (e : Lru.entry) :
  Lru.find k (rev (Lru.evict excess (rev es))) = Some e -> Lru.find k es = Some e.
Proof.
  intros Hfind. destruct (evict_suffix excess (rev es)) as [dropped Hd].
  apply (f_equal (@rev _)) in Hd. rewrite rev_involutive, rev_app_distr in Hd.
  rewrite Hd. apply find_app_l. exact Hfind.
Qed.

Lemma Lru_get_value (k : string) (c : Lru.t) :
  fst (Lru.get k c) = option_map Lru.value (Lru.find k (Lru.entries c)).
Proof.
  unfold Lru.get. destruct (Lru.find k (Lru.entries c)); reflexivity.
Qed.

(** The reference cache keeps the cache contract. *)
#[global] Instance Lru_contract : CacheContract Lru.t.
Proof.
  split.
  - intros k k' c v. cbn [Get Lru.cache]. rewrite !Lru_get_value.
    unfold Lru.get. destruct (Lru.find k (Lru.entries c)) as [e|] eqn:Hfind;
      cbn [snd Lru.entries]; [|auto].
    destruct (find_some_entry _ _ _ Hfind) as [_ Hk].
    unfold Lru.find at 1. cbn [List.find]. rewrite Hk.
    destruct (String.eqb k k') eqn:Heq.
    + apply String.eqb_eq in Heq. subst k'. rewrite Hfind. auto.
    + fold (Lru.find k' (Lru.without k (Lru.entries c))).
      rewrite find_without; [auto|].
      intros ->. rewrite String.eqb_refl in Heq. discriminate.
  - intros k k' v v' size c. cbn [Get Put Lru.cache]. rewrite !Lru_get_value.
    unfold Lru.put. cbn [Lru.entries]. unfold Lru.find at 1.
    cbn [List.find Lru.key].
    destruct (String.eqb k k') eqn:Heq.
    + apply String.eqb_eq in Heq. cbn [option_map Lru.value]. intros [= <-].
      left. auto.
    + fold (Lru.find k'
              (rev (Lru.evict (size + Lru.total (Lru.without k (Lru.entries c))
                               - Lru.capacity c)
                      (rev (Lru.without k (Lru.entries c)))))).
      destruct (Lru.find k' (rev _)) as [e|] eqn:Hfind; [|discriminate].
      cbn [option_map]. intros [= <-]. right.
      apply find_after_evict in Hfind.
      rewrite find_without in Hfind
        by (intros ->; rewrite String.eqb_refl in Heq; discriminate).
      rewrite Hfind. reflexivity.
  - intros k k' c v. cbn [Get Invalidate Lru.cache]. rewrite !Lru_get_value.
    unfold Lru.invalidate. cbn [Lru.entries].
    destruct (String.eqb k' k) eqn:Heq.
    + apply String.eqb_eq in Heq. subst k'. rewrite find_without_same. discriminate.
    + assert (Hne : k' <> k) by (intros ->; rewrite String.eqb_refl in Heq; discriminate).
      rewrite (find_without k k' _ Hne). auto.
Qed.

End Reference_contracts.

(* ===================================================================== *)
(** ** Cache coherence for requests that spell ids as numerals            *)
(* ===================================================================== *)

Section Coherence.

Context {DB C : Type} `{!electionAppDB DB} `{!Cache C} `{!Externals}
  `{!StorageModel DB} `{!StorageContract DB} `{!CacheContract C}.

(** The id string of a numeral path, and the id it stands for. *)
Lemma canonical_id (el : string) (id : Z) :
  canonical el = true -> ParseInt el = Some id ->
  el = FormatInt id /\ 0 <= id <= maxInt64.
Proof.
  unfold canonical. intros [Hall Hcan]%andb_true_iff Hid.
  apply String.eqb_eq in Hcan.
  assert (Hne : el <> EmptyString) by (intros ->; discriminate Hid).
  rewrite (ParseInt_digits el Hall Hne) in Hid.
  destruct (parse_digits_all_digits el 0 Hall ltac:(lia)) as (v & Hv & Hpos).
  assert (Hdec : decimal el = v) by (unfold decimal; rewrite Hv; reflexivity).
  destruct (decimal el <=? maxInt64) eqn:Hle; [|discriminate].
  injection Hid as <-. apply Z.leb_le in Hle.
  split; [exact Hcan|lia].
Qed.

Lemma append_cancel_r (s s' t : string) :
  s ++ t = s' ++ t -> s = s'.
Proof.
  revert s'. induction s as [|c s IH]; intros [|c' s'] Heq.
  - reflexivity.
  - apply (f_equal String.length) in Heq. rewrite !length_append in Heq.
    cbn [String.length] in Heq. lia.
  - apply (f_equal String.length) in Heq. rewrite !length_append in Heq.
    cbn [String.length] in Heq. lia.
  - change (String c (s ++ t) = String c' (s' ++ t)) in Heq.
    injection Heq as -> Heq. f_equal. exact (IH _ Heq).
Qed.

Lemma path_id_of_route (suffix path el : string) :
  In suffix [""; ".pdf"; "_bubbles.json"; ".png"; "/scan"] ->
  match_election suffix path = Some el ->
  path_id path = Some el.
Proof.
  intros Hsuf Hm. unfold path_id, docPathRe, pdfPathRe, bubblesPathRe, pngPathRe,
    scanPathRe.
  destruct Hsuf as [<-|[<-|[<-|[<-|[<-|[]]]]]].
  - rewrite Hm. reflexivity.
  - rewrite (match_election_other _ "" _ _ Hm) by discriminate. rewrite Hm. reflexivity.
  - rewrite (match_election_other _ "" _ _ Hm) by discriminate.
    rewrite (match_election_other _ ".pdf" _ _ Hm) by discriminate.
    rewrite Hm. reflexivity.
  - rewrite (match_election_other _ "" _ _ Hm) by discriminate.
    rewrite (match_election_other _ ".pdf" _ _ Hm) by discriminate.
    rewrite (match_election_other _ "_bubbles.json" _ _ Hm) by discriminate.
    rewrite Hm. reflexivity.
  - rewrite (match_election_other _ "" _ _ Hm) by discriminate.
    rewrite (match_election_other _ ".pdf" _ _ Hm) by discriminate.
    rewrite (match_election_other _ "_bubbles.json" _ _ Hm) by discriminate.
    rewrite (match_election_other _ ".png" _ _ Hm) by discriminate.
    exact Hm.
Qed.

Lemma artifact_route_path_id (path el ctype : string) (part : DrawBothOb -> string) :
  artifact_route path = Some (el, ctype, part) -> path_id path = Some el.
Proof.
  unfold artifact_route.
  destruct (pdfPathRe path) as [el1|] eqn:Hpdf.
  - intros [= <- <- <-]. apply (path_id_of_route ".pdf"); [simpl; auto|exact Hpdf].
  - destruct (bubblesPathRe path) as [el1|] eqn:Hbub; [|discriminate].
    intros [= <- <- <-].
    apply (path_id_of_route "_bubbles.json"); [simpl; auto|exact Hbub].
Qed.

(** A lookup keeps the cache coherent, and what it finds is up to date. *)
Lemma coherent_get (sh : StudioHandler) (db : DB) (c : C) (k : string) :
  coherent sh db c ->
  coherent sh db (snd (Get k c))
  /\ forall v, fst (Get k c) = Some v -> up_to_date sh db k v.
Proof.
  intros [Hdb Hc]. split; [|intros v; apply Hc].
  split; [exact Hdb|]. intros k' v Hget.
  exact (Hc _ _ (Get_after_Get _ _ _ _ Hget)).
Qed.

Lemma coherent_put (sh : StudioHandler) (db : DB) (c : C)
    (k : string) (v : CacheValue) (size : Z) :
  coherent sh db c ->
  up_to_date sh db k v ->
  coherent sh db (Put k v size c).
Proof.
  intros [Hdb Hc] Hnew. split; [exact Hdb|]. intros k' v' Hget.
  destruct (Get_after_Put _ _ _ _ _ _ Hget) as [[-> ->]|Hold];
    [exact Hnew|exact (Hc _ _ Hold)].
Qed.

(** A write that fails leaves the cache coherent. *)
Lemma coherent_after_failed_write (sh : StudioHandler) (db db' : DB) (c : C)
    (er : electionRecord) (e : error) :
  coherent sh db c ->
  PutElection er db = (Err e, db') ->
  coherent sh db' c.
Proof.
  intros [Hdb Hc] Hput. split; [exact (PutElection_consistent _ _ _ _ Hput Hdb)|].
  intros k v Hget.
  destruct (Hc _ _ Hget) as (id & er' & bothob & Hid & Hrow & Hrest).
  exists id, er', bothob. split; [exact Hid|]. split; [|exact Hrest].
  rewrite (PutElection_failed _ _ _ _ Hput). exact Hrow.
Qed.

(** After a successful write and its two invalidations the cache is
    coherent again, when the item name of an update is the numeral of its
    id. *)
Lemma coherent_after_write (sh : StudioHandler) (db db' : DB) (c : C)
    (er : electionRecord) (newid : Z) (itemname : string) :
  coherent sh db c ->
  PutElection er db = (Ok newid, db') ->
  (Id er <> 0 -> itemname = FormatInt (Id er)) ->
  coherent sh db' (Invalidate (itemname ++ ".png") (Invalidate itemname c)).
Proof.
  intros [Hdb Hc] Hput Hname.
  split; [exact (PutElection_consistent _ _ _ _ Hput Hdb)|].
  intros k v Hget.
  apply Get_after_Invalidate in Hget as [Hpng Hget].
  apply Get_after_Invalidate in Hget as [Hkey Hget].
  destruct (Hc _ _ Hget) as (id & er' & bothob & Hid & Hrow & Hrest).
  exists id, er', bothob. split; [exact Hid|]. split; [|exact Hrest].
  destruct (Z.eq_dec (Id er) 0) as [Hzero|Hnz].
  - destruct (PutElection_create _ _ _ _ Hput Hzero Hdb) as [Hfresh Hothers].
    rewrite Hothers; [exact Hrow|]. intros ->. congruence.
  - rewrite (PutElection_update _ _ _ _ Hput Hnz); [exact Hrow|].
    specialize (Hname Hnz). subst itemname.
    intros ->. destruct Hrest as [_ [[Hk _]|[Hk _]]]; congruence.
Qed.

(** A fresh render is up to date, and so is the conversion of a pair
    that is. *)
Lemma up_to_date_render (sh : StudioHandler) (db : DB) (el : string) (id : Z)
    (er : electionRecord) (bothob : DrawBothOb) :
  canonical el = true ->
  ParseInt el = Some id ->
  GetElection id db = Ok er ->
  draw (drawBackend sh) (Data er) = Ok bothob ->
  up_to_date sh db el (VDrawBothOb bothob).
Proof.
  intros Hcan Hid Her Hdraw. destruct (canonical_id el id Hcan Hid) as [Hel Hrange].
  exists id, er, bothob. split; [exact Hrange|].
  split; [exact (GetElection_table _ _ _ Her)|]. split; [exact Hdraw|].
  left. split; [exact Hel|reflexivity].
Qed.

Lemma up_to_date_conversion (sh : StudioHandler) (db : DB) (el : string)
    (bothob : DrawBothOb) (pngbytes : string) :
  up_to_date sh db el (VDrawBothOb bothob) ->
  pdftopng (Pdf bothob) = Ok pngbytes ->
  up_to_date sh db (el ++ ".png") (VBytes pngbytes).
Proof.
  intros (id & er & b & Hrange & Hrow & Hdraw & Hkind) Hconv.
  destruct Hkind as [[Hk [= <-]]|[_ (p & Hv & _)]]; [|discriminate Hv].
  exists id, er, bothob. split; [exact Hrange|]. split; [exact Hrow|].
  split; [exact Hdraw|]. right.
  split; [rewrite Hk; reflexivity|]. exists pngbytes. split; [reflexivity|exact Hconv].
Qed.

(** What a pair found in a coherent cache is. *)
Lemma up_to_date_pair_found (sh : StudioHandler) (db : DB) (el : string)
    (bothob : DrawBothOb) :
  up_to_date sh db el (VDrawBothOb bothob) ->
  exists id er,
    ParseInt el = Some id
    /\ table db id = Some er
    /\ draw (drawBackend sh) (Data er) = Ok bothob.
Proof.
  intros (id & er & b & Hrange & Hrow & Hdraw & Hkind).
  destruct Hkind as [[Hk [= <-]]|[_ (p & Hv & _)]]; [|discriminate Hv].
  exists id, er. split; [|split; assumption].
  rewrite Hk. apply ParseInt_FormatInt. exact Hrange.
Qed.

(** What a PNG found in a coherent cache is. *)
Lemma up_to_date_png_found (sh : StudioHandler) (db : DB) (el : string)
    (pngbytes : string) :
  up_to_date sh db (el ++ ".png") (VBytes pngbytes) ->
  exists id er bothob,
    ParseInt el = Some id
    /\ table db id = Some er
    /\ draw (drawBackend sh) (Data er) = Ok bothob
    /\ pdftopng (Pdf bothob) = Ok pngbytes.
Proof.
  intros (id & er & bothob & Hrange & Hrow & Hdraw & Hkind).
  destruct Hkind as [[_ Hv]|[Hk (p & [= <-] & Hconv)]]; [discriminate Hv|].
  exists id, er, bothob. split; [|auto].
  rewrite (append_cancel_r _ _ _ Hk). apply ParseInt_FormatInt. exact Hrange.
Qed.

(** One request that spells its id as a numeral keeps the cache
    coherent. *)
Lemma serve_coherent (sh : StudioHandler) (r : Request) (st : World DB C) :
  scan_upload r = false ->
  canonical_request r = true ->
  coherent sh (edb st) (cache st) ->
  coherent sh (edb (serve sh r st)) (cache (serve sh r st)).
Proof.
  intros Hscan Hcan Hco.
  destruct (dbfactory (dbs sh)) as [e|] eqn:Hdb.
  { rewrite (serve_db_failure sh r st e Hdb). exact Hco. }
  destruct (artifact_route (Path r)) as [[[el ctype] part]|] eqn:Hart.
  { rewrite (serve_artifact_route sh r st el ctype part Hdb Hart).
    assert (Hel : canonical el = true).
    { unfold canonical_request in Hcan.
      rewrite (artifact_route_path_id _ _ _ _ Hart) in Hcan. exact Hcan. }
    rewrite (getPdf_run sh el (fresh st)). cbn zeta. cbn [fresh edb cache w log].
    destruct (coherent_get sh (edb st) (cache st) el Hco) as [Hc' _].
    destruct (Get el (cache st)) as [[[bothob|b]|] c']; cbn [fst snd] in *.
    1,2: rewrite respond_run by reflexivity; exact Hc'.
    destruct (ParseInt el) as [id|] eqn:Hid;
      [|cbn [fst snd outcome_map]; rewrite respond_run by reflexivity; exact Hc'].
    destruct (GetElection id (edb st)) as [er|e] eqn:Her;
      [|cbn [fst snd outcome_map]; rewrite respond_run by reflexivity; exact Hc'].
    destruct (draw (drawBackend sh) (Data er)) as [bothob|e] eqn:Hdraw;
      cbn [fst snd outcome_map]; rewrite respond_run by reflexivity; [|exact Hc'].
    cbn [edb cache]. apply coherent_put; [exact Hc'|].
    exact (up_to_date_render sh _ el id er bothob Hel Hid Her Hdraw). }
  destruct (pngPathRe (Path r)) as [el|] eqn:Hpng.
  { rewrite (serve_png_route sh r st el Hdb Hpng).
    assert (Hel : canonical el = true).
    { unfold canonical_request in Hcan.
      rewrite (path_id_of_route ".png" _ el) in Hcan; [exact Hcan|simpl; auto|exact Hpng]. }
    rewrite (getPng_run sh el st). cbn zeta.
    destruct (coherent_get sh (edb st) (cache st) (el ++ ".png") Hco) as [Hc1 _].
    destruct (Get (el ++ ".png") (cache st)) as [[[bothob|b]|] c1]; cbn [fst snd] in *.
    1,2: rewrite respond_run by reflexivity; exact Hc1.
    destruct (coherent_get sh (edb st) c1 el Hc1) as [Hc2 Hfound].
    destruct (Get el c1) as [[[bothob|b]|] c2]; cbn [fst snd] in *.
    - specialize (Hfound _ eq_refl).
      destruct (pdftopng (Pdf bothob)) as [pngbytes|e] eqn:Hconv;
        rewrite respond_run by reflexivity; [|exact Hc2].
      cbn [edb cache]. apply coherent_put; [exact Hc2|].
      exact (up_to_date_conversion sh _ el bothob pngbytes Hfound Hconv).
    - rewrite respond_run by reflexivity. exact Hc2.
    - destruct (ParseInt el) as [id|] eqn:Hid;
        [|rewrite respond_run by reflexivity; exact Hc2].
      destruct (GetElection id (edb st)) as [er|e] eqn:Her;
        [|rewrite respond_run by reflexivity; exact Hc2].
      destruct (draw (drawBackend sh) (Data er)) as [bothob|e] eqn:Hdraw;
        [|rewrite respond_run by reflexivity; exact Hc2].
      pose proof (up_to_date_render sh _ el id er bothob Hel Hid Her Hdraw) as Hpair.
      destruct (pdftopng (Pdf bothob)) as [pngbytes|e] eqn:Hconv;
        rewrite respond_run by reflexivity; cbn [edb cache].
      + apply coherent_put; [apply coherent_put; [exact Hc2|exact Hpair]|].
        exact (up_to_date_conversion sh _ el bothob pngbytes Hpair Hconv).
      + apply coherent_put; [exact Hc2|exact Hpair]. }
  pattern (serve sh r st). apply (serve_by_route sh r st _ Hscan Hdb).
  - intros itemname itemid Hm Hroute. rewrite handleElectionDocPOST_run.
    destruct (AuthUser r) as [u|]; [|exact Hco].
    destruct (1000000 <? len (Body r)); [exact Hco|].
    destruct (negb (json.Unmarshal_map (Body r))); [exact Hco|].
    destruct (refused itemid u (edb st)); [exact Hco|].
    cbn zeta.
    destruct (PutElection (put_record itemid u (Body r)) (edb st))
      as [[newid|e] d] eqn:Hput; unfold reply; cbn [edb cache].
    + apply (coherent_after_write sh (edb st) d (cache st)
               (put_record itemid u (Body r)) newid itemname Hco Hput).
      cbn [put_record Id]. intros Hnz.
      unfold post_route in Hroute.
      destruct (String.eqb (Path r) "/election"); [congruence|].
      destruct (docPathRe (Path r)) as [el|] eqn:Hdoc; [|discriminate].
      destruct (ParseInt el) as [id|] eqn:Hid; [|discriminate].
      injection Hroute as <- <-.
      unfold canonical_request in Hcan.
      rewrite (path_id_of_route "" _ el) in Hcan; [|simpl; auto|exact Hdoc].
      exact (proj1 (canonical_id el id Hcan Hid)).
    + exact (coherent_after_failed_write sh _ _ _ _ _ Hco Hput).
  - intros id. rewrite handleElectionDocGET_run.
    destruct (GetElection id (edb st)); exact Hco.
  - exact Hco.
  - exact Hco.
  - intros el ctype part Hroute. congruence.
  - intros el Hroute. congruence.
  - intros id. exact Hco.
  - exact Hco.
Qed.

(** Cache coherence for clients that spell ids as numerals. Take a storage
    and a cache that keep their contracts, start from a coherent state (a
    consistent storage and an empty cache make one) and serve any sequence
    of requests that the file handles itself and that spell the id in
    their path without leading zeros, as the URLs of an edit context do.
    Then the cache is still coherent, and whatever request comes next,
    however it spells its id: a PDF or a bubbles file answered 200 is that
    of the render, by the draw backend, of the data the table holds now
    under the id, and a PNG answered 200 is the conversion of the PDF of
    that render. No update is missed. *)
Theorem numeral_requests_keep_the_cache_coherent (sh : StudioHandler)
    (rs : list Request) (r : Request) (st : World DB C) :
  coherent sh (edb st) (cache st) ->
  forallb (fun q => negb (scan_upload q) && canonical_request q) rs = true ->
  let st' := serve_each sh rs st in
  coherent sh (edb st') (cache st')
  /\ (forall el ctype part,
        artifact_route (Path r) = Some (el, ctype, part) ->
        Status (w (serve sh r st')) = Some 200 ->
        exists id er bothob,
          ParseInt el = Some id
          /\ table (edb st') id = Some er
          /\ draw (drawBackend sh) (Data er) = Ok bothob
          /\ Written (w (serve sh r st')) = [Bytes (part bothob)])
  /\ (forall el,
        pngPathRe (Path r) = Some el ->
        Status (w (serve sh r st')) = Some 200 ->
        exists id er bothob pngbytes,
          ParseInt el = Some id
          /\ table (edb st') id = Some er
          /\ draw (drawBackend sh) (Data er) = Ok bothob
          /\ pdftopng (Pdf bothob) = Ok pngbytes
          /\ Written (w (serve sh r st')) = [Bytes pngbytes]).
Proof.
  intros Hco Hrs st'.
  assert (Hco' : coherent sh (edb st') (cache st')).
  { subst st'. revert st Hco Hrs. induction rs as [|q rs IH]; intros st Hco Hrs;
      cbn [serve_each fold_left forallb] in *; [exact Hco|].
    apply andb_true_iff in Hrs as [Hq Hrs]. apply andb_true_iff in Hq as [Hscan Hcan].
    apply negb_true_iff in Hscan.
    apply (IH (serve sh q st)); [|exact Hrs].
    exact (serve_coherent sh q st Hscan Hcan Hco). }
  clearbody st'. clear Hco Hrs st rs.
  split; [exact Hco'|]. split.
  - intros el ctype part Hart.
    destruct (dbfactory (dbs sh)) as [e|] eqn:Hdb.
    { rewrite (serve_db_failure sh r st' e Hdb). discriminate. }
    rewrite (serve_artifact_route sh r st' el ctype part Hdb Hart).
    rewrite (getPdf_run sh el (fresh st')). cbn zeta. cbn [fresh edb cache w log].
    destruct (coherent_get sh (edb st') (cache st') el Hco') as [_ Hfound].
    destruct (Get el (cache st')) as [[[bothob|b]|] c']; cbn [fst snd] in *.
    + rewrite respond_run by reflexivity. cbn [outcome_map w Status Written]. intros _.
      destruct (up_to_date_pair_found sh _ el bothob (Hfound _ eq_refl))
        as (id & er & Hid & Hrow & Hdraw).
      exists id, er, bothob. auto.
    + rewrite respond_run by reflexivity. discriminate.
    + destruct (ParseInt el) as [id|] eqn:Hid;
        [|cbn [fst snd outcome_map]; rewrite respond_run by reflexivity; discriminate].
      destruct (GetElection id (edb st')) as [er|e] eqn:Her;
        [|cbn [fst snd outcome_map]; rewrite respond_run by reflexivity; discriminate].
      destruct (draw (drawBackend sh) (Data er)) as [bothob|e] eqn:Hdraw;
        cbn [fst snd outcome_map]; rewrite respond_run by reflexivity;
        [|discriminate].
      intros _. exists id, er, bothob.
      split; [reflexivity|]. split; [exact (GetElection_table _ _ _ Her)|].
      split; [exact Hdraw|reflexivity].
  - intros el Hpng.
    destruct (dbfactory (dbs sh)) as [e|] eqn:Hdb.
    { rewrite (serve_db_failure sh r st' e Hdb). discriminate. }
    rewrite (serve_png_route sh r st' el Hdb Hpng).
    rewrite (getPng_run sh el st'). cbn zeta.
    destruct (coherent_get sh (edb st') (cache st') (el ++ ".png") Hco')
      as [Hc1 Hfound1].
    destruct (Get (el ++ ".png") (cache st')) as [[[bothob|b]|] c1];
      cbn [fst snd] in *.
    + rewrite respond_run by reflexivity. discriminate.
    + rewrite respond_run by reflexivity. cbn [w Status Written]. intros _.
      destruct (up_to_date_png_found sh _ el b (Hfound1 _ eq_refl))
        as (id & er & bothob & Hid & Hrow & Hdraw & Hconv).
      exists id, er, bothob, b. auto.
    + destruct (coherent_get sh (edb st') c1 el Hc1) as [_ Hfound].
      destruct (Get el c1) as [[[bothob|b]|] c2]; cbn [fst snd] in *.
      * destruct (up_to_date_pair_found sh _ el bothob (Hfound _ eq_refl))
          as (id & er & Hid & Hrow & Hdraw).
        destruct (pdftopng (Pdf bothob)) as [pngbytes|e] eqn:Hconv;
          rewrite respond_run by reflexivity; [|discriminate].
        intros _. exists id, er, bothob, pngbytes. auto.
      * rewrite respond_run by reflexivity. discriminate.
      * destruct (ParseInt el) as [id|] eqn:Hid;
          [|rewrite respond_run by reflexivity; discriminate].
        destruct (GetElection id (edb st')) as [er|e] eqn:Her;
          [|rewrite respond_run by reflexivity; discriminate].
        destruct (draw (drawBackend sh) (Data er)) as [bothob|e] eqn:Hdraw;
          [|rewrite respond_run by reflexivity; discriminate].
        destruct (pdftopng (Pdf bothob)) as [pngbytes|e] eqn:Hconv;
          rewrite respond_run by reflexivity; [|discriminate].
        intros _. exists id, er, bothob, pngbytes.
        split; [reflexivity|]. split; [exact (GetElection_table _ _ _ Her)|]. auto.
Qed.

End Coherence.

(* ===================================================================== *)
(** ** The id 0 on the document route                                     *)
(* ===================================================================== *)

Section Id_zero.

Context {DB C : Type} `{!electionAppDB DB} `{!Cache C} `{!Externals}.

(** A POST to the document route with id 0 is a create. For
    [handleElectionDocPOST] the id 0 means a new election, and the
    dispatcher passes on whatever number the path holds: a POST to
    [/election/0] (or [/election/00], ...) is answered as the same POST
    to [/election] is and leaves the same storage. The election 0 is not
    looked up, so no owner is compared, and the record handed to
    [PutElection] has id 0, for which the storage assigns a new id. *)
Theorem post_to_id_zero_is_a_create (sh : StudioHandler) (r0 r : Request)
    (st : World DB C) (el : string) :
  Method r0 = "POST" ->
  docPathRe (Path r0) = Some el ->
  ParseInt el = Some 0 ->
  Method r = "POST" ->
  Path r = "/election" ->
  Body r = Body r0 ->
  AuthUser r = AuthUser r0 ->
  w (serve sh r0 st) = w (serve sh r st)
  /\ edb (serve sh r0 st) = edb (serve sh r st)
  /\ (forall id, ~ In (EvGetElection id) (log (serve sh r0 st)))
  /\ (forall er res, In (EvPutElection er res) (log (serve sh r0 st)) -> Id er = 0).
Proof.
  intros Hm0 Hdoc Hid Hm Hpath Hbody Huser.
  destruct (dbfactory (dbs sh)) as [e|] eqn:Hdb.
  { rewrite !(serve_db_failure sh _ st e Hdb). unfold reply. cbn [w edb log app In].
    repeat split; try reflexivity; intros; intuition discriminate. }
  rewrite (serve_doc_route sh r0 st el Hdb Hdoc), Hid, Hm0.
  rewrite (serve_collection sh r st Hdb Hpath), Hm.
  cbn [String.eqb Ascii.eqb Bool.eqb].
  rewrite !handleElectionDocPOST_run, Huser, Hbody.
  destruct (AuthUser r0) as [u|];
    [|unfold reply; cbn [w edb log app In];
      repeat split; try reflexivity; intros; intuition discriminate].
  destruct (1000000 <? len (Body r0));
    [unfold reply; cbn [w edb log app In];
      repeat split; try reflexivity; intros; intuition discriminate|].
  destruct (negb (json.Unmarshal_map (Body r0)));
    [unfold reply; cbn [w edb log app In];
      repeat split; try reflexivity; intros; intuition discriminate|].
  change (refused 0 u (edb st)) with false. cbn iota zeta.
  change (before_put 0) with [EvReadBody].
  destruct (PutElection (put_record 0 u (Body r0)) (edb st)) as [[newid|e] d];
    unfold reply; cbn [w edb log app In];
    (repeat split; try reflexivity;
     [intros id Hin; intuition discriminate
     |intros er res Hin;
      repeat (destruct Hin as [Hin|Hin]; try discriminate Hin; try contradiction);
      injection Hin as <- _; reflexivity]).
Qed.

End Id_zero.

(* ===================================================================== *)
(** ** The properties on concrete requests                                *)
(* ===================================================================== *)

Module Scenario.

Import Demo.

(** C1. Cache coherence fails across spellings of one id. Election 1 is
    created and its PDF is cached under the key [1]. Its owner then updates
    it through [/election/01]: the update is answered 200 and the stored
    data is the new one, but the keys invalidated are [01] and [01.png].
    The next GET of [/election/1.pdf] is answered from the cache with the
    PDF of the data from before the update, and the draw backend is not
    called. *)
Theorem stale_pdf_after_update_with_leading_zero :
  Status (w world3) = Some 200
  /\ GetElection 1 (edb world3) = Ok {| Id := 1; Owner := Guid U; Data := title "T2" |}
  /\ filter is_invalidation (log world3)
     = [EvCacheInvalidate "01"; EvCacheInvalidate "01.png"]
  /\ w (serve sh (GET "/election/1.pdf") world3)
     = {| ContentType := Some "application/pdf"; Status := Some 200;
          Written := [Bytes ("%PDF " ++ title "T")] |}
  /\ log (serve sh (GET "/election/1.pdf") world3)
     = [EvCacheGet "1"; EvHeaderSet "application/pdf"; EvWriteHeader 200;
        EvWrite (Bytes ("%PDF " ++ title "T"))].
Proof. vm_compute. repeat split. Qed.

(** [cache_hit_bypass] on a second request for the PDF of election 1, which
    hits, on a first request for its bubbles, which misses, and on a
    request for the PDF of an election nobody created. *)
Lemma cache_hit_bypass_witness :
  log (serve sh (GET "/election/1.pdf") world2)
  = [EvCacheGet "1"; EvHeaderSet "application/pdf"; EvWriteHeader 200;
     EvWrite (Bytes ("%PDF " ++ title "T"))]
  /\ filter is_render (log (serve sh (GET "/election/1_bubbles.json") world1))
     = [EvDraw "http://draw" (title "T")]
  /\ Status (w (serve sh (GET "/election/7.pdf") world1)) = Some 400.
Proof.
  split; [|split].
  - destruct (cache_hit_bypass sh (GET "/election/1.pdf") world2
                "1" "application/pdf" Pdf eq_refl eq_refl) as (Hhit & _ & _).
    erewrite Hhit by (vm_compute; reflexivity). reflexivity.
  - destruct (cache_hit_bypass sh (GET "/election/1_bubbles.json") world1
                "1" "application/json" BubblesJson eq_refl eq_refl) as (_ & Hmiss & _).
    erewrite Hmiss by (vm_compute; reflexivity). reflexivity.
  - destruct (cache_hit_bypass sh (GET "/election/7.pdf") world1
                "7" "application/pdf" Pdf eq_refl eq_refl) as (_ & _ & Hstop).
    specialize (Hstop (cache world1) eq_refl).
    change (ParseInt "7") with (Some 7) in Hstop.
    change (GetElection 7 (edb world1))
      with (@Err electionRecord "sql: no rows in result set") in Hstop.
    rewrite Hstop. reflexivity.
Defined.

(** [invalidation_between_write_and_response] on the owner's update of
    election 1. *)
Lemma invalidation_between_write_and_response_witness :
  exists newid,
    log (serve sh (POST "/election/1" (title "T2") (Some U)) world2)
    = [EvReadBody; EvGetElection 1;
       EvPutElection {| Id := 1; Owner := 1; Data := title "T2" |} (Ok newid);
       EvCacheInvalidate "1"; EvCacheInvalidate "1.png";
       EvHeaderSet "application/json"; EvWriteHeader 200;
       EvWrite (Bytes (EditContext_json (EditContext_set EditContext_zero newid)))].
Proof.
  destruct (invalidation_between_write_and_response sh
              (POST "/election/1" (title "T2") (Some U)) world2 "1"
              eq_refl eq_refl eq_refl)
    as (id & u & newid & d & Hid & Hu & Hput & _ & _ & Hlog).
  - vm_compute. reflexivity.
  - exists newid. rewrite Hlog.
    injection Hid as <-. injection Hu as <-. reflexivity.
Defined.

(** [put_failure_leaves_cache] on an update while the storage cannot be
    reached. *)
Lemma put_failure_leaves_cache_witness :
  Status (w (serve sh (POST "/election/1" (title "T2") (Some U)) world2_down))
  = Some 500
  /\ cache (serve sh (POST "/election/1" (title "T2") (Some U)) world2_down)
     = cache world2.
Proof.
  destruct (put_failure_leaves_cache sh
              (POST "/election/1" (title "T2") (Some U)) world2_down "1" 1
              {| Id := 1; Owner := 1; Data := title "T2" |} "storage unreachable"
              eq_refl eq_refl eq_refl)
    as (Hw & Hcache & _).
  - vm_compute. tauto.
  - rewrite Hw, Hcache. split; reflexivity.
Defined.

(** C5, as stated, fails: user V is not the owner of election 1, and a
    POST of V to [/election/1] with a body that is not JSON is answered
    400, not 401. So is a POST with no authenticated identity to an id
    beyond int64. *)
Lemma non_owner_bad_body_is_400 :
  GetElection 1 (edb world1) = Ok {| Id := 1; Owner := Guid U; Data := title "T" |}
  /\ Guid V <> Guid U
  /\ w (serve sh (POST "/election/1" "not json" (Some V)) world1)
     = {| ContentType := Some "text/plain"; Status := Some 400;
          Written := [Bytes "bad json"] |}
  /\ w (serve sh (POST "/election/9223372036854775808" (title "T2") None) world1)
     = {| ContentType := Some "text/plain"; Status := Some 400;
          Written := [Bytes "bad item"] |}.
Proof. vm_compute. repeat split. discriminate. Qed.

(** [write_authorization] on updates of election 1 by nobody, by user V and
    by its owner U. *)
Lemma write_authorization_witness :
  Status (w (serve sh (POST "/election/1" (title "T2") None) world1)) = Some 401
  /\ Status (w (serve sh (POST "/election/1" (title "T2") (Some V)) world1)) = Some 401
  /\ edb (serve sh (POST "/election/1" (title "T2") (Some V)) world1) = edb world1
  /\ exists res,
       In (EvPutElection {| Id := 1; Owner := 1; Data := title "T2" |} res)
          (log (serve sh (POST "/election/1" (title "T2") (Some U)) world1)).
Proof.
  split; [|split; [|split]].
  - destruct (proj2 (write_authorization sh (POST "/election/1" (title "T2") None)
                       world1 eq_refl eq_refl) "1" 1 eq_refl) as (Hnone & _ & _).
    rewrite (Hnone eq_refl). reflexivity.
  - destruct (proj2 (write_authorization sh (POST "/election/1" (title "T2") (Some V))
                       world1 eq_refl eq_refl) "1" 1 eq_refl) as (_ & Hother & _).
    destruct (Hother V {| Id := 1; Owner := 1; Data := title "T" |} eq_refl)
      as (Hstatus & _ & _).
    + discriminate.
    + vm_compute. reflexivity.
    + discriminate.
    + rewrite Hstatus. reflexivity.
  - destruct (proj2 (write_authorization sh (POST "/election/1" (title "T2") (Some V))
                       world1 eq_refl eq_refl) "1" 1 eq_refl) as (_ & Hother & _).
    destruct (Hother V {| Id := 1; Owner := 1; Data := title "T" |} eq_refl)
      as (_ & Hedb & _).
    + discriminate.
    + vm_compute. reflexivity.
    + discriminate.
    + exact Hedb.
  - destruct (proj2 (write_authorization sh (POST "/election/1" (title "T2") (Some U))
                       world1 eq_refl eq_refl) "1" 1 eq_refl) as (_ & _ & Howner).
    apply (Howner U {| Id := 1; Owner := 1; Data := title "T" |} eq_refl).
    + vm_compute. reflexivity.
    + reflexivity.
    + vm_compute. reflexivity.
Defined.

(** C6, as stated, fails: [[1,2]] is well-formed JSON, and posting it to
    [/election] is answered 400 and stores nothing, because the body is
    decoded into a map. *)
Lemma json_array_is_refused :
  json.Valid "[1,2]" = true
  /\ w (serve sh (POST "/election" "[1,2]" (Some U)) world0)
     = {| ContentType := Some "text/plain"; Status := Some 400;
          Written := [Bytes "bad json"] |}
  /\ log (serve sh (POST "/election" "[1,2]" (Some U)) world0)
     = [EvReadBody; EvHeaderSet "text/plain"; EvWriteHeader 400;
        EvWrite (Bytes "bad json")].
Proof. vm_compute. repeat split. Qed.

(** [create_read_round_trip] on the creation of election 1 and the read of
    [/election/1]. *)
Lemma create_read_round_trip_witness :
  w (serve sh (GET "/election/1") (serve sh (POST "/election" (title "T") (Some U)) world0))
  = {| ContentType := Some "application/json"; Status := Some 200;
       Written := [Bytes (title "T")] |}.
Proof.
  refine (proj2 (proj2 (create_read_round_trip sh
            (POST "/election" (title "T") (Some U)) (GET "/election/1") world0 U 1
            (edb world1) {| Id := 1; Owner := 1; Data := title "T" |}
            eq_refl eq_refl eq_refl eq_refl _ _ _ _ eq_refl eq_refl eq_refl)));
    vm_compute; try reflexivity.
  split; discriminate.
Defined.

(** C7, as stated, fails on its own examples: a GET of [/election] and a
    PUT to [/election/1] are answered 400 with a JSON error, not with the
    home page; a PUT to an id beyond int64 is answered 400 with the text
    [bad item]. *)
Lemma get_collection_is_400 :
  w (serve sh (GET "/election") world0)
  = {| ContentType := Some "application/json"; Status := Some 400;
       Written := [Bytes nope_json] |}
  /\ w (serve sh {| Method := "PUT"; Path := "/election/1"; Body := "";
                    AuthUser := Some U |} world1)
     = {| ContentType := Some "application/json"; Status := Some 400;
          Written := [Bytes nope_json] |}
  /\ w (serve sh {| Method := "PUT"; Path := "/election/9223372036854775808";
                    Body := ""; AuthUser := Some U |} world1)
     = {| ContentType := Some "text/plain"; Status := Some 400;
          Written := [Bytes "bad item"] |}.
Proof. vm_compute. repeat split. Qed.

(** [dispatcher_fallback] on a path outside [/election] and on a GET of
    [/election]. *)
Lemma dispatcher_fallback_witness :
  w (serve sh (GET "/elections") world0)
  = {| ContentType := Some "text/html"; Status := Some 200;
       Written := [HomePage None] |}
  /\ Status (w (serve sh (GET "/election") world0)) = Some 400.
Proof.
  destruct (dispatcher_fallback sh (GET "/elections") world0 eq_refl)
    as (Hhome & _ & _ & _).
  destruct (dispatcher_fallback sh (GET "/election") world0 eq_refl)
    as (_ & Hnope & _ & _).
  split.
  - rewrite (Hhome eq_refl). reflexivity.
  - rewrite (Hnope eq_refl ltac:(discriminate)). reflexivity.
Defined.

(** C8. The owner of a stored election can be replaced. Election 1 is
    stored with owner U, and the storage is in a spell of failing reads.
    User V, who is not the owner, posts an update to [/election/1].
    [handleElectionDocPOST] looks the record up, drops the error of the
    lookup, has no older record to compare owners with, and hands
    [PutElection] a record with id 1 and owner V. The write succeeds, the
    answer is 200, and the table now holds election 1 with owner V. The
    GET handler reports the error of the same lookup with a 400. *)
Theorem non_owner_update_goes_through_when_the_lookup_fails :
  MemDB.get 1 (Examples.store (edb Examples.world1_read_fault))
  = Ok {| Id := 1; Owner := Guid U; Data := title "T" |}
  /\ (Guid V =? Guid U) = false
  /\ GetElection 1 (edb Examples.world1_read_fault) = Err "read tcp: i/o timeout"
  /\ log (serve sh (POST "/election/1" (title "T2") (Some V))
            Examples.world1_read_fault)
     = [EvReadBody; EvGetElection 1;
        EvPutElection {| Id := 1; Owner := Guid V; Data := title "T2" |} (Ok 1);
        EvCacheInvalidate "1"; EvCacheInvalidate "1.png";
        EvHeaderSet "application/json"; EvWriteHeader 200;
        EvWrite (Bytes (EditContext_json (EditContext_set EditContext_zero 1)))]
  /\ Status (w (serve sh (POST "/election/1" (title "T2") (Some V))
                  Examples.world1_read_fault)) = Some 200
  /\ MemDB.get 1 (Examples.store
                    (edb (serve sh (POST "/election/1" (title "T2") (Some V))
                            Examples.world1_read_fault)))
     = Ok {| Id := 1; Owner := Guid V; Data := title "T2" |}
  /\ w (serve sh (GET "/election/1") Examples.world1_read_fault)
     = {| ContentType := Some "text/plain"; Status := Some 400;
          Written := [Bytes "no item"] |}.
Proof. vm_compute. repeat split. Qed.

(** [owner_set_once] on the owner's update of election 1. *)
Lemma owner_set_once_witness :
  In (EvPutElection {| Id := 1; Owner := Guid U; Data := title "T2" |} (Ok 1))
     (log (serve sh (POST "/election/1" (title "T2") (Some U)) world1))
  /\ GetElection 1 (edb world1) = Ok {| Id := 1; Owner := Guid U; Data := title "T" |}
  /\ Owner {| Id := 1; Owner := Guid U; Data := title "T2" |}
     = Owner {| Id := 1; Owner := Guid U; Data := title "T" |}.
Proof.
  assert (Hin : In (EvPutElection {| Id := 1; Owner := Guid U; Data := title "T2" |} (Ok 1))
                   (log (serve sh (POST "/election/1" (title "T2") (Some U)) world1)))
    by (vm_compute; tauto).
  assert (Hget : GetElection 1 (edb world1)
                 = Ok {| Id := 1; Owner := Guid U; Data := title "T" |})
    by (vm_compute; reflexivity).
  destruct (owner_set_once sh (POST "/election/1" (title "T2") (Some U)) world1
              "1" 1 {| Id := 1; Owner := Guid U; Data := title "T2" |} (Ok 1)
              eq_refl eq_refl eq_refl Hin) as (_ & Hsame).
  split; [exact Hin|]. split; [exact Hget|].
  apply (Hsame _ ltac:(discriminate) Hget).
Defined.

(** C9, as stated, fails: a POST with no authenticated identity is
    answered 401 whatever its body, and the body is not read. Nor is the
    body of an authenticated POST to an id beyond int64. *)
Lemma unauthenticated_bad_body_is_401 :
  json.Valid "not json" = false
  /\ w (serve sh (POST "/election" "not json" None) world0)
     = {| ContentType := Some "text/plain"; Status := Some 401;
          Written := [Bytes "nope"] |}
  /\ log (serve sh (POST "/election" "not json" None) world0)
     = [EvHeaderSet "text/plain"; EvWriteHeader 401; EvWrite (Bytes "nope")]
  /\ log (serve sh (POST "/election/9223372036854775808" "not json" (Some U)) world0)
     = [EvHeaderSet "text/plain"; EvWriteHeader 400; EvWrite (Bytes "bad item")].
Proof. vm_compute. repeat split. Qed.

(** [body_rejected_first] on a body one byte too long and on a body that
    is not JSON. *)
Lemma body_rejected_first_witness :
  serve sh (POST "/election/1" oversized (Some U)) world1
  = reply 400 "text/plain" (Bytes "bad body") [EvReadBody] (edb world1) (cache world1)
  /\
  serve sh (POST "/election" "not json" (Some U)) world0
  = reply 400 "text/plain" (Bytes "bad json") [EvReadBody] (edb world0) (cache world0).
Proof.
  split.
  - rewrite (proj2 (proj2 (proj2 (body_rejected_first sh
                                    (POST "/election/1" oversized (Some U)) world1
                                    eq_refl eq_refl) "1" 1 eq_refl) U eq_refl))
      by (left; vm_compute; reflexivity).
    replace (1000000 <? len (Body (POST "/election/1" oversized (Some U))))
      with true by (vm_compute; reflexivity).
    reflexivity.
  - rewrite (proj2 (proj2 (proj2 (body_rejected_first sh
                                    (POST "/election" "not json" (Some U)) world0
                                    eq_refl eq_refl) "" 0 eq_refl) U eq_refl))
      by (right; vm_compute; reflexivity).
    reflexivity.
Defined.

(** C10, as stated, fails: [[1,2]] is well-formed JSON, election 5 was never
    created, and an authenticated POST of that body to [/election/5] is
    answered 400 after the body is read; [PutElection] is not called. *)
Lemma json_array_update_is_refused :
  json.Valid "[1,2]" = true
  /\ GetElection 5 (edb world1) = Err "sql: no rows in result set"
  /\ w (serve sh (POST "/election/5" "[1,2]" (Some V)) world1)
     = {| ContentType := Some "text/plain"; Status := Some 400;
          Written := [Bytes "bad json"] |}
  /\ log (serve sh (POST "/election/5" "[1,2]" (Some V)) world1)
     = [EvReadBody; EvHeaderSet "text/plain"; EvWriteHeader 400;
        EvWrite (Bytes "bad json")].
Proof. vm_compute. repeat split. Qed.

(** [update_of_missing_record] on an update of election 5, which nobody
    created. *)
Lemma update_of_missing_record_witness :
  GetElection 5 (edb world1) = Err "sql: no rows in result set"
  /\ exists rest,
       log (serve sh (POST "/election/5" "{}" (Some V)) world1)
       = EvReadBody :: EvGetElection 5
           :: EvPutElection {| Id := 5; Owner := Guid V; Data := "{}" |} (Ok 5) :: rest.
Proof.
  assert (Hget : GetElection 5 (edb world1) = Err "sql: no rows in result set")
    by (vm_compute; reflexivity).
  split; [exact Hget|].
  destruct (update_of_missing_record sh (POST "/election/5" "{}" (Some V)) world1
              "5" 5 V _ eq_refl eq_refl eq_refl eq_refl ltac:(discriminate) eq_refl
              ltac:(vm_compute; reflexivity) Hget)
    as ([rest Hlog] & _ & _).
  exists rest. rewrite Hlog. reflexivity.
Defined.

(** [fresh_render_for_same_spelling] on the owner's update through
    [/election/1] and the reads of [/election/1.pdf] and [/election/1.png]
    that follow it. *)
Lemma fresh_render_for_same_spelling_witness :
  Written (w (serve sh (GET "/election/1.pdf")
                (serve sh (POST "/election/1" (title "T2") (Some U)) world2)))
  = [Bytes ("%PDF " ++ title "T2")]
  /\
  Written (w (serve sh (GET "/election/1.png")
                (serve sh (POST "/election/1" (title "T2") (Some U)) world2_png)))
  = [Bytes ("PNG of %PDF " ++ title "T2")].
Proof.
  pose (update := POST "/election/1" (title "T2") (Some U)).
  pose (er := {| Id := 1; Owner := 1; Data := title "T2" |}).
  pose (bothob := {| Pdf := "%PDF " ++ title "T2"; BubblesJson := "{}" |}).
  split.
  - assert (H200 : Status (w (serve sh update world2)) = Some 200)
      by (vm_compute; reflexivity).
    assert (Hget : GetElection 1 (edb (serve sh update world2)) = Ok er)
      by (vm_compute; reflexivity).
    destruct (fresh_render_for_same_spelling sh update (GET "/election/1.pdf")
                world2 "1" 1 er bothob eq_refl eq_refl eq_refl H200 eq_refl Hget
                eq_refl) as [Hpdf _].
    destruct (Hpdf "application/pdf" Pdf eq_refl) as [Hw _].
    fold update. rewrite Hw. reflexivity.
  - assert (H200 : Status (w (serve sh update world2_png)) = Some 200)
      by (vm_compute; reflexivity).
    assert (Hget : GetElection 1 (edb (serve sh update world2_png)) = Ok er)
      by (vm_compute; reflexivity).
    destruct (fresh_render_for_same_spelling sh update (GET "/election/1.png")
                world2_png "1" 1 er bothob eq_refl eq_refl eq_refl H200 eq_refl Hget
                eq_refl) as [_ Hpng].
    destruct (Hpng ("PNG of %PDF " ++ title "T2") eq_refl eq_refl) as [Hw _].
    fold update. rewrite Hw. reflexivity.
Defined.

(** [png_hit_bypass] on a second request for the PNG of election 1. *)
Lemma png_hit_bypass_witness :
  log (serve sh (GET "/election/1.png") world2_png)
  = [EvCacheGet "1.png"; EvHeaderSet "image/png"; EvWriteHeader 200;
     EvWrite (Bytes ("PNG of %PDF " ++ title "T"))].
Proof.
  erewrite (png_hit_bypass sh (GET "/election/1.png") world2_png "1" _ _
              eq_refl eq_refl)
    by (vm_compute; reflexivity).
  reflexivity.
Defined.

(** [read_raw_document] on election 1 and on an id nobody created. *)
Lemma read_raw_document_witness :
  w (serve sh (GET "/election/1") world1)
  = {| ContentType := Some "application/json"; Status := Some 200;
       Written := [Bytes (title "T")] |}
  /\
  w (serve sh (GET "/election/7") world1)
  = {| ContentType := Some "text/plain"; Status := Some 400;
       Written := [Bytes "no item"] |}.
Proof.
  split.
  - rewrite (read_raw_document sh (GET "/election/1") world1 "1" 1
               eq_refl eq_refl eq_refl eq_refl).
    reflexivity.
  - rewrite (read_raw_document sh (GET "/election/7") world1 "7" 7
               eq_refl eq_refl eq_refl eq_refl).
    reflexivity.
Defined.

(** [only_document_posts_write] on a GET of a document and on a POST to
    the PDF route. *)
Lemma only_document_posts_write_witness :
  edb (serve sh (GET "/election/1.png") world1) = edb world1
  /\ edb (serve sh (POST "/election/1.pdf" (title "T2") (Some U)) world1) = edb world1.
Proof.
  split.
  - apply (only_document_posts_write sh (GET "/election/1.png") world1 eq_refl).
    left. discriminate.
  - apply (only_document_posts_write sh
             (POST "/election/1.pdf" (title "T2") (Some U)) world1 eq_refl).
    right. reflexivity.
Defined.

(** [type_assertions_hold] from the empty cache, through a creation and
    the first requests for the PNG and the PDF, on a second request for
    the PNG. *)
Lemma type_assertions_hold_witness :
  well_keyed (cache world0)
  /\ ~ In EvPanic
        (log (serve sh (GET "/election/1.png")
                (serve_each sh
                   [POST "/election" (title "T") (Some U);
                    GET "/election/1.png"; GET "/election/1.pdf"] world0))).
Proof.
  assert (Hempty : well_keyed (cache world0)) by (intros e []).
  split; [exact Hempty|].
  exact (proj2 (type_assertions_hold sh
                  [POST "/election" (title "T") (Some U);
                   GET "/election/1.png"; GET "/election/1.pdf"]
                  (GET "/election/1.png") world0 eq_refl Hempty)).
Defined.

End Scenario.

(* ===================================================================== *)
(** ** The further properties on concrete requests                        *)
(* ===================================================================== *)

Module Walkthrough.

Import Demo Examples.


(** [id_beyond_int64_is_bad_item] on the least id that int64 cannot
    hold. *)
Lemma id_beyond_int64_is_bad_item_witness :
  w (serve sh (GET "/election/9223372036854775808") world1)
  = {| ContentType := Some "text/plain"; Status := Some 400;
       Written := [Bytes "bad item"] |}.
Proof.
  rewrite (id_beyond_int64_is_bad_item sh (GET "/election/9223372036854775808")
             world1 "9223372036854775808" eq_refl eq_refl (or_introl eq_refl)
             ltac:(vm_compute; reflexivity)).
  reflexivity.
Defined.

(** [document_route_reads_the_id_as_a_number] on two spellings of id 1. *)
Lemma document_route_reads_the_id_as_a_number_witness :
  serve sh (GET "/election/001") world1 = serve sh (GET "/election/1") world1.
Proof.
  apply (document_route_reads_the_id_as_a_number sh (GET "/election/001")
           (GET "/election/1") world1 "001" "1"
           eq_refl eq_refl eq_refl eq_refl eq_refl eq_refl).
  discriminate.
Defined.

(** [scan_form_is_served_unchecked] on an election nobody created. *)
Lemma scan_form_is_served_unchecked_witness :
  w (serve sh (GET "/election/7/scan") world1)
  = {| ContentType := Some "text/html"; Status := Some 200;
       Written := [ScanForm (EditContext_set EditContext_zero 7)] |}
  /\ edb (serve sh (GET "/election/7/scan") world1) = edb world1.
Proof.
  rewrite (scan_form_is_served_unchecked sh (GET "/election/7/scan") world1 "7" 7
             eq_refl eq_refl ltac:(discriminate) eq_refl).
  split; reflexivity.
Defined.

(** [artifact_routes_look_at_the_path_only] on a POST by nobody and a GET
    of the same PDF. *)
Lemma artifact_routes_look_at_the_path_only_witness :
  serve sh (POST "/election/1.pdf" "" None) world1
  = serve sh (GET "/election/1.pdf") world1.
Proof.
  apply (artifact_routes_look_at_the_path_only sh
           (POST "/election/1.pdf" "" None) (GET "/election/1.pdf") world1);
    reflexivity.
Defined.

(** [png_from_cached_pair] on the first request for the PNG of election 1
    after its PDF was served. *)
Lemma png_from_cached_pair_witness :
  log (serve sh (GET "/election/1.png") world2)
  = [EvCacheGet "1.png"; EvCacheGet "1";
     EvPdfToPng ("%PDF " ++ title "T");
     EvCachePut "1.png" (VBytes ("PNG of %PDF " ++ title "T")) 25;
     EvHeaderSet "image/png"; EvWriteHeader 200;
     EvWrite (Bytes ("PNG of %PDF " ++ title "T"))].
Proof.
  erewrite (png_from_cached_pair sh (GET "/election/1.png") world2 "1" _ _ _
              eq_refl eq_refl)
    by (vm_compute; reflexivity).
  reflexivity.
Defined.

(** [png_route_failures] on election 1 when the converter is out of
    order: the answer is 500, and the pair that was rendered on the way is
    in the cache. *)
Lemma png_route_failures_witness :
  w (@serve _ _ _ _ no_converter sh (GET "/election/1.png") world1)
  = {| ContentType := Some "text/plain"; Status := Some 500;
       Written := [Bytes "png fail"] |}
  /\ is_Some_b
       (Lru.find "1"
          (Lru.entries
             (cache (@serve _ _ _ _ no_converter sh (GET "/election/1.png") world1))))
     = true.
Proof.
  assert (Hrun :
    @serve _ _ _ _ no_converter sh (GET "/election/1.png") world1
    = reply 500 "text/plain" (Bytes "png fail")
        [EvCacheGet "1.png"; EvCacheGet "1"; EvGetElection 1;
         EvDraw "http://draw" (title "T");
         EvCachePut "1" (VDrawBothOb {| Pdf := "%PDF " ++ title "T";
                                       BubblesJson := "{}" |}) 20;
         EvPdfToPng ("%PDF " ++ title "T")]
        (edb world1)
        (Put "1" (VDrawBothOb {| Pdf := "%PDF " ++ title "T";
                                 BubblesJson := "{}" |}) 20 (cache world1))).
  { exact (@png_route_failures _ _ _ _ no_converter sh (GET "/election/1.png")
             world1 "1" (cache world1) (cache world1)
             eq_refl eq_refl eq_refl eq_refl
             "pdftopng: exit status 1" eq_refl). }
  rewrite Hrun. split; reflexivity.
Defined.

(** [advertised_urls_lead_back] on election 5. *)
Lemma advertised_urls_lead_back_witness :
  pdfPathRe "/election/5.pdf" = Some "5"
  /\ scanPathRe "/election/5/scan" = Some "5"
  /\ ParseInt "5" = Some 5.
Proof.
  destruct (advertised_urls_lead_back 5 ltac:(unfold maxInt64; lia))
    as (_ & _ & Hpdf & _ & Hscan & Hparse & _).
  split; [exact Hpdf|]. split; [exact Hscan|exact Hparse].
Defined.

(** [edit_page_of_negative_id_leads_nowhere] on [/edit/-5] and a save by
    user U from the page. *)
Lemma edit_page_of_negative_id_leads_nowhere_witness :
  edit_electionid "/edit/-5" = -5
  /\ serve sh (POST "/election/-5" (title "T") (Some U)) world1
     = reply 200 "text/html" (HomePage (Some U)) [] (edb world1) (cache world1).
Proof.
  destruct (edit_page_of_negative_id_leads_nowhere sh
              (POST "/election/-5" (title "T") (Some U)) world1 (-5)
              eq_refl ltac:(unfold minInt64; lia) (or_introl eq_refl))
    as [Hid Hserve].
  split; [exact Hid|exact Hserve].
Defined.

(** [edit_link_leads_back] on the edit URL of election 7. *)
Lemma edit_link_leads_back_witness :
  Written (w (editHandler_ServeHTTP edith (GET "/edit/7") (fresh world1)))
  = [Bytes "<html>"; Bytes (EditContext_json (EditContext_set EditContext_zero 7))].
Proof.
  exact (proj2 (edit_link_leads_back edith (GET "/edit/7") world1 7
                  ltac:(unfold minInt64, maxInt64; lia) eq_refl)).
Defined.

(** [addrGetPort_reads_the_port] on an IPv6 listen address. *)
Lemma addrGetPort_reads_the_port_witness :
  addrGetPort "[::1]:8180" = Some 8180.
Proof.
  exact (addrGetPort_reads_the_port "[::1]" 8180 ltac:(lia)).
Defined.

(** [context_json_is_valid] on election 12. *)
Lemma context_json_is_valid_witness :
  json.Valid (EditContext_Json (EditContext_set EditContext_zero 12)) = true.
Proof.
  exact (proj1 (context_json_is_valid 12 ltac:(unfold minInt64, maxInt64; lia))).
Defined.




(** [numeral_requests_keep_the_cache_coherent] on the reference storage
    and cache: election 1 is created, its PDF is served and cached, the
    election is updated through [/election/1], and the PDF is asked for
    again. *)
Lemma numeral_requests_keep_the_cache_coherent_witness :
  let st' := serve_each sh [POST "/election" (title "T") (Some U);
                            GET "/election/1.pdf";
                            POST "/election/1" (title "T2") (Some U)] world0 in
  exists id er bothob,
    ParseInt "1" = Some id
    /\ table (edb st') id = Some er
    /\ draw (drawBackend sh) (Data er) = Ok bothob
    /\ Written (w (serve sh (GET "/election/1.pdf") st')) = [Bytes (Pdf bothob)].
Proof.
  assert (Hco : coherent sh (edb world0) (cache world0)).
  { split; [intros id er Hrow; discriminate Hrow|intros k v Hget; discriminate Hget]. }
  apply (proj1 (proj2 (numeral_requests_keep_the_cache_coherent sh
                         [POST "/election" (title "T") (Some U);
                          GET "/election/1.pdf";
                          POST "/election/1" (title "T2") (Some U)]
                         (GET "/election/1.pdf") world0 Hco
                         ltac:(vm_compute; reflexivity)))
           "1" "application/pdf" Pdf eq_refl).
  vm_compute. reflexivity.
Defined.

(** [post_to_id_zero_is_a_create] on a POST by user U to [/election/0]
    when election 1 exists: the answer is that of a POST to [/election],
    the context of the new election 2. *)
Lemma post_to_id_zero_is_a_create_witness :
  w (serve sh (POST "/election/0" (title "T") (Some U)) world1)
  = {| ContentType := Some "application/json"; Status := Some 200;
       Written := [Bytes (EditContext_json (EditContext_set EditContext_zero 2))] |}.
Proof.
  rewrite (proj1 (post_to_id_zero_is_a_create sh
                    (POST "/election/0" (title "T") (Some U))
                    (POST "/election" (title "T") (Some U)) world1 "0"
                    eq_refl eq_refl eq_refl eq_refl eq_refl eq_refl eq_refl)).
  vm_compute. reflexivity.
Defined.

End Walkthrough.
